(** * winecoreaudio.drv: the stream ring buffers of coreaudio.c

    A shallow embedding of the buffer engine of
    [dlls/winecoreaudio.drv/coreaudio.c]: the render and capture callbacks,
    the capture resampler drain, the get/release buffer protocol and the
    stream lifecycle.  C integers are [Z] with their wrap-around written
    out; buffers are lists of bytes; the spin lock is not modelled (every
    function below is one critical section). *)

From Stdlib Require Import ZArith List Bool Lia.
Import ListNotations.
Open Scope Z_scope.

(** ** Machine integers *)

(** UINT32 / UInt32 / DWORD arithmetic. *)
Definition wrap32 (x : Z) : Z := x mod 4294967296.

(** UINT64 arithmetic. *)
Definition wrap64 (x : Z) : Z := x mod 18446744073709551616.

(** Conversion to [int] / INT32 (two's complement). *)
Definition to_int32 (x : Z) : Z :=
  let y := wrap32 x in if y <? 2147483648 then y else y - 4294967296.

(** Conversion to INT64 (two's complement). *)
Definition to_int64 (x : Z) : Z :=
  let y := wrap64 x in
  if y <? 9223372036854775808 then y else y - 18446744073709551616.

(** ** Memory

    A buffer is a list of bytes; a pointer into it is a byte offset.  The
    model is meaningful for accesses that stay inside the buffer (anything
    else is undefined behaviour in C). *)

Definition byte_at (buf : list Z) (i : Z) : Z := nth (Z.to_nat i) buf 0.

(** [memcpy(dst + doff, src + soff, n)] *)
Definition memcpy (dst : list Z) (doff : Z) (src : list Z) (soff n : Z) : list Z :=
  firstn (Z.to_nat doff) dst
  ++ firstn (Z.to_nat n) (skipn (Z.to_nat soff) src)
  ++ skipn (Z.to_nat (doff + n)) dst.

(** [memset(dst + doff, c, n)] *)
Definition memset (dst : list Z) (doff c n : Z) : list Z :=
  firstn (Z.to_nat doff) dst
  ++ repeat c (Z.to_nat n)
  ++ skipn (Z.to_nat (doff + n)) dst.

(** A fresh allocation of [n] bytes. *)
Definition alloc (n : Z) : list Z := repeat 0 (Z.to_nat n).

(** ** Result codes and constants of the Windows and CoreAudio headers *)

Inductive HRESULT : Type :=
| S_OK
| S_FALSE
| E_OUTOFMEMORY
| AUDCLNT_E_NOT_STOPPED
| AUDCLNT_E_BUFFER_TOO_LARGE
| AUDCLNT_E_OUT_OF_ORDER
| AUDCLNT_E_INVALID_SIZE
| AUDCLNT_E_BUFFER_OPERATION_PENDING
| AUDCLNT_S_BUFFER_EMPTY.

(** [FAILED(hr)]: the error codes among the results above. *)
Definition FAILED (hr : HRESULT) : bool :=
  match hr with
  | S_OK | S_FALSE | AUDCLNT_S_BUFFER_EMPTY => false
  | _ => true
  end.

Inductive EDataFlow : Type := eRender | eCapture | eAll.

Definition EDataFlow_eqb (a b : EDataFlow) : bool :=
  match a, b with
  | eRender, eRender | eCapture, eCapture | eAll, eAll => true
  | _, _ => false
  end.

(** OSStatus [noErr]. *)
Definition noErr : Z := 0.

(** Format tags of mmreg.h. *)
Definition WAVE_FORMAT_PCM : Z := 1.
Definition WAVE_FORMAT_EXTENSIBLE : Z := 65534.

(** The fields of WAVEFORMATEX the engine reads; [SubFormat_is_PCM] is
    [IsEqualGUID(&fmtex->SubFormat, &KSDATAFORMAT_SUBTYPE_PCM)]. *)
Record WAVEFORMATEX : Type := {
  wFormatTag : Z;
  nChannels : Z;
  nSamplesPerSec : Z;
  nBlockAlign : Z;
  wBitsPerSample : Z;
  SubFormat_is_PCM : bool
}.

(** ** muldiv *)

Definition muldiv (a b c : Z) : Z :=
  if c =? 0 then -1
  else
    let a' := if c <? 0 then to_int32 (- a) else a in
    let c' := if c <? 0 then to_int32 (- c) else c in
    let ret :=
      if ((a' <? 0) && (b <? 0)) || ((a' >=? 0) && (b >=? 0))
      then Z.quot (a' * b + Z.quot c' 2) c'
      else Z.quot (a' * b - Z.quot c' 2) c' in
    if (ret >? 2147483647) || (ret <? -2147483647) then -1 else ret.

Definition buf_ptr_diff (left right bufsize : Z) : Z :=
  if left <=? right then wrap32 (right - left)
  else wrap32 (bufsize - wrap32 (left - right)).

Definition ca_wrap_buffer (dst : list Z) (dst_offs dst_bytes : Z)
    (src : list Z) (src_bytes : Z) : list Z :=
  let chunk_bytes := wrap32 (dst_bytes - dst_offs) in
  if chunk_bytes <? src_bytes then
    memcpy (memcpy dst dst_offs src 0 chunk_bytes)
           0 src chunk_bytes (src_bytes - chunk_bytes)
  else memcpy dst dst_offs src 0 src_bytes.

(** ** The stream *)

Section Model.

(** The AudioConverter is CoreAudio's: its internal state is abstract. *)
Context {conv_state : Type}.

(** [struct coreaudio_stream], without the lock, the audio unit handle,
    the device id, the share mode and the sizes in bytes of the
    allocations.  [dev_desc_mSampleRate] is the Float64 sample rate of
    [dev_desc] after its conversion to [int]; [getbuf_last] is an INT32,
    [written_frames] a UINT64, every other counter a UINT32.  A buffer
    pointer that may be NULL is an [option]. *)
Record coreaudio_stream : Type := {
  converter : conv_state;
  dev_desc_mSampleRate : Z;
  flow : EDataFlow;
  playing : bool;
  period_frames : Z;
  bufsize_frames : Z;
  resamp_bufsize_frames : Z;
  lcl_offs_frames : Z;
  held_frames : Z;
  wri_offs_frames : Z;
  tmp_buffer_frames : Z;
  cap_bufsize_frames : Z;
  cap_offs_frames : Z;
  cap_held_frames : Z;
  wrap_bufsize_frames : Z;
  written_frames : Z;
  getbuf_last : Z;
  fmt : WAVEFORMATEX;
  local_buffer : list Z;
  cap_buffer : list Z;
  wrap_buffer : list Z;
  resamp_buffer : list Z;
  tmp_buffer : option (list Z)
}.

Definition set_converter (s : coreaudio_stream) (v : conv_state) : coreaudio_stream :=
  {| converter := v; dev_desc_mSampleRate := s.(dev_desc_mSampleRate);
     flow := s.(flow); playing := s.(playing);
     period_frames := s.(period_frames);
     bufsize_frames := s.(bufsize_frames);
     resamp_bufsize_frames := s.(resamp_bufsize_frames);
     lcl_offs_frames := s.(lcl_offs_frames); held_frames := s.(held_frames);
     wri_offs_frames := s.(wri_offs_frames);
     tmp_buffer_frames := s.(tmp_buffer_frames);
     cap_bufsize_frames := s.(cap_bufsize_frames);
     cap_offs_frames := s.(cap_offs_frames);
     cap_held_frames := s.(cap_held_frames);
     wrap_bufsize_frames := s.(wrap_bufsize_frames);
     written_frames := s.(written_frames); getbuf_last := s.(getbuf_last);
     fmt := s.(fmt); local_buffer := s.(local_buffer);
     cap_buffer := s.(cap_buffer); wrap_buffer := s.(wrap_buffer);
     resamp_buffer := s.(resamp_buffer); tmp_buffer := s.(tmp_buffer) |}.

Definition set_playing (s : coreaudio_stream) (v : bool) : coreaudio_stream :=
  {| converter := s.(converter);
     dev_desc_mSampleRate := s.(dev_desc_mSampleRate); flow := s.(flow);
     playing := v; period_frames := s.(period_frames);
     bufsize_frames := s.(bufsize_frames);
     resamp_bufsize_frames := s.(resamp_bufsize_frames);
     lcl_offs_frames := s.(lcl_offs_frames); held_frames := s.(held_frames);
     wri_offs_frames := s.(wri_offs_frames);
     tmp_buffer_frames := s.(tmp_buffer_frames);
     cap_bufsize_frames := s.(cap_bufsize_frames);
     cap_offs_frames := s.(cap_offs_frames);
     cap_held_frames := s.(cap_held_frames);
     wrap_bufsize_frames := s.(wrap_bufsize_frames);
     written_frames := s.(written_frames); getbuf_last := s.(getbuf_last);
     fmt := s.(fmt); local_buffer := s.(local_buffer);
     cap_buffer := s.(cap_buffer); wrap_buffer := s.(wrap_buffer);
     resamp_buffer := s.(resamp_buffer); tmp_buffer := s.(tmp_buffer) |}.

Definition set_resamp_bufsize_frames (s : coreaudio_stream) (v : Z) : coreaudio_stream :=
  {| converter := s.(converter);
     dev_desc_mSampleRate := s.(dev_desc_mSampleRate); flow := s.(flow);
     playing := s.(playing); period_frames := s.(period_frames);
     bufsize_frames := s.(bufsize_frames); resamp_bufsize_frames := v;
     lcl_offs_frames := s.(lcl_offs_frames); held_frames := s.(held_frames);
     wri_offs_frames := s.(wri_offs_frames);
     tmp_buffer_frames := s.(tmp_buffer_frames);
     cap_bufsize_frames := s.(cap_bufsize_frames);
     cap_offs_frames := s.(cap_offs_frames);
     cap_held_frames := s.(cap_held_frames);
     wrap_bufsize_frames := s.(wrap_bufsize_frames);
     written_frames := s.(written_frames); getbuf_last := s.(getbuf_last);
     fmt := s.(fmt); local_buffer := s.(local_buffer);
     cap_buffer := s.(cap_buffer); wrap_buffer := s.(wrap_buffer);
     resamp_buffer := s.(resamp_buffer); tmp_buffer := s.(tmp_buffer) |}.

Definition set_lcl_offs_frames (s : coreaudio_stream) (v : Z) : coreaudio_stream :=
  {| converter := s.(converter);
     dev_desc_mSampleRate := s.(dev_desc_mSampleRate); flow := s.(flow);
     playing := s.(playing); period_frames := s.(period_frames);
     bufsize_frames := s.(bufsize_frames);
     resamp_bufsize_frames := s.(resamp_bufsize_frames);
     lcl_offs_frames := v; held_frames := s.(held_frames);
     wri_offs_frames := s.(wri_offs_frames);
     tmp_buffer_frames := s.(tmp_buffer_frames);
     cap_bufsize_frames := s.(cap_bufsize_frames);
     cap_offs_frames := s.(cap_offs_frames);
     cap_held_frames := s.(cap_held_frames);
     wrap_bufsize_frames := s.(wrap_bufsize_frames);
     written_frames := s.(written_frames); getbuf_last := s.(getbuf_last);
     fmt := s.(fmt); local_buffer := s.(local_buffer);
     cap_buffer := s.(cap_buffer); wrap_buffer := s.(wrap_buffer);
     resamp_buffer := s.(resamp_buffer); tmp_buffer := s.(tmp_buffer) |}.

Definition set_held_frames (s : coreaudio_stream) (v : Z) : coreaudio_stream :=
  {| converter := s.(converter);
     dev_desc_mSampleRate := s.(dev_desc_mSampleRate); flow := s.(flow);
     playing := s.(playing); period_frames := s.(period_frames);
     bufsize_frames := s.(bufsize_frames);
     resamp_bufsize_frames := s.(resamp_bufsize_frames);
     lcl_offs_frames := s.(lcl_offs_frames); held_frames := v;
     wri_offs_frames := s.(wri_offs_frames);
     tmp_buffer_frames := s.(tmp_buffer_frames);
     cap_bufsize_frames := s.(cap_bufsize_frames);
     cap_offs_frames := s.(cap_offs_frames);
     cap_held_frames := s.(cap_held_frames);
     wrap_bufsize_frames := s.(wrap_bufsize_frames);
     written_frames := s.(written_frames); getbuf_last := s.(getbuf_last);
     fmt := s.(fmt); local_buffer := s.(local_buffer);
     cap_buffer := s.(cap_buffer); wrap_buffer := s.(wrap_buffer);
     resamp_buffer := s.(resamp_buffer); tmp_buffer := s.(tmp_buffer) |}.

Definition set_wri_offs_frames (s : coreaudio_stream) (v : Z) : coreaudio_stream :=
  {| converter := s.(converter);
     dev_desc_mSampleRate := s.(dev_desc_mSampleRate); flow := s.(flow);
     playing := s.(playing); period_frames := s.(period_frames);
     bufsize_frames := s.(bufsize_frames);
     resamp_bufsize_frames := s.(resamp_bufsize_frames);
     lcl_offs_frames := s.(lcl_offs_frames); held_frames := s.(held_frames);
     wri_offs_frames := v; tmp_buffer_frames := s.(tmp_buffer_frames);
     cap_bufsize_frames := s.(cap_bufsize_frames);
     cap_offs_frames := s.(cap_offs_frames);
     cap_held_frames := s.(cap_held_frames);
     wrap_bufsize_frames := s.(wrap_bufsize_frames);
     written_frames := s.(written_frames); getbuf_last := s.(getbuf_last);
     fmt := s.(fmt); local_buffer := s.(local_buffer);
     cap_buffer := s.(cap_buffer); wrap_buffer := s.(wrap_buffer);
     resamp_buffer := s.(resamp_buffer); tmp_buffer := s.(tmp_buffer) |}.

Definition set_tmp_buffer_frames (s : coreaudio_stream) (v : Z) : coreaudio_stream :=
  {| converter := s.(converter);
     dev_desc_mSampleRate := s.(dev_desc_mSampleRate); flow := s.(flow);
     playing := s.(playing); period_frames := s.(period_frames);
     bufsize_frames := s.(bufsize_frames);
     resamp_bufsize_frames := s.(resamp_bufsize_frames);
     lcl_offs_frames := s.(lcl_offs_frames); held_frames := s.(held_frames);
     wri_offs_frames := s.(wri_offs_frames); tmp_buffer_frames := v;
     cap_bufsize_frames := s.(cap_bufsize_frames);
     cap_offs_frames := s.(cap_offs_frames);
     cap_held_frames := s.(cap_held_frames);
     wrap_bufsize_frames := s.(wrap_bufsize_frames);
     written_frames := s.(written_frames); getbuf_last := s.(getbuf_last);
     fmt := s.(fmt); local_buffer := s.(local_buffer);
     cap_buffer := s.(cap_buffer); wrap_buffer := s.(wrap_buffer);
     resamp_buffer := s.(resamp_buffer); tmp_buffer := s.(tmp_buffer) |}.

Definition set_cap_offs_frames (s : coreaudio_stream) (v : Z) : coreaudio_stream :=
  {| converter := s.(converter);
     dev_desc_mSampleRate := s.(dev_desc_mSampleRate); flow := s.(flow);
     playing := s.(playing); period_frames := s.(period_frames);
     bufsize_frames := s.(bufsize_frames);
     resamp_bufsize_frames := s.(resamp_bufsize_frames);
     lcl_offs_frames := s.(lcl_offs_frames); held_frames := s.(held_frames);
     wri_offs_frames := s.(wri_offs_frames);
     tmp_buffer_frames := s.(tmp_buffer_frames);
     cap_bufsize_frames := s.(cap_bufsize_frames); cap_offs_frames := v;
     cap_held_frames := s.(cap_held_frames);
     wrap_bufsize_frames := s.(wrap_bufsize_frames);
     written_frames := s.(written_frames); getbuf_last := s.(getbuf_last);
     fmt := s.(fmt); local_buffer := s.(local_buffer);
     cap_buffer := s.(cap_buffer); wrap_buffer := s.(wrap_buffer);
     resamp_buffer := s.(resamp_buffer); tmp_buffer := s.(tmp_buffer) |}.

Definition set_cap_held_frames (s : coreaudio_stream) (v : Z) : coreaudio_stream :=
  {| converter := s.(converter);
     dev_desc_mSampleRate := s.(dev_desc_mSampleRate); flow := s.(flow);
     playing := s.(playing); period_frames := s.(period_frames);
     bufsize_frames := s.(bufsize_frames);
     resamp_bufsize_frames := s.(resamp_bufsize_frames);
     lcl_offs_frames := s.(lcl_offs_frames); held_frames := s.(held_frames);
     wri_offs_frames := s.(wri_offs_frames);
     tmp_buffer_frames := s.(tmp_buffer_frames);
     cap_bufsize_frames := s.(cap_bufsize_frames);
     cap_offs_frames := s.(cap_offs_frames); cap_held_frames := v;
     wrap_bufsize_frames := s.(wrap_bufsize_frames);
     written_frames := s.(written_frames); getbuf_last := s.(getbuf_last);
     fmt := s.(fmt); local_buffer := s.(local_buffer);
     cap_buffer := s.(cap_buffer); wrap_buffer := s.(wrap_buffer);
     resamp_buffer := s.(resamp_buffer); tmp_buffer := s.(tmp_buffer) |}.

Definition set_wrap_bufsize_frames (s : coreaudio_stream) (v : Z) : coreaudio_stream :=
  {| converter := s.(converter);
     dev_desc_mSampleRate := s.(dev_desc_mSampleRate); flow := s.(flow);
     playing := s.(playing); period_frames := s.(period_frames);
     bufsize_frames := s.(bufsize_frames);
     resamp_bufsize_frames := s.(resamp_bufsize_frames);
     lcl_offs_frames := s.(lcl_offs_frames); held_frames := s.(held_frames);
     wri_offs_frames := s.(wri_offs_frames);
     tmp_buffer_frames := s.(tmp_buffer_frames);
     cap_bufsize_frames := s.(cap_bufsize_frames);
     cap_offs_frames := s.(cap_offs_frames);
     cap_held_frames := s.(cap_held_frames); wrap_bufsize_frames := v;
     written_frames := s.(written_frames); getbuf_last := s.(getbuf_last);
     fmt := s.(fmt); local_buffer := s.(local_buffer);
     cap_buffer := s.(cap_buffer); wrap_buffer := s.(wrap_buffer);
     resamp_buffer := s.(resamp_buffer); tmp_buffer := s.(tmp_buffer) |}.

Definition set_written_frames (s : coreaudio_stream) (v : Z) : coreaudio_stream :=
  {| converter := s.(converter);
     dev_desc_mSampleRate := s.(dev_desc_mSampleRate); flow := s.(flow);
     playing := s.(playing); period_frames := s.(period_frames);
     bufsize_frames := s.(bufsize_frames);
     resamp_bufsize_frames := s.(resamp_bufsize_frames);
     lcl_offs_frames := s.(lcl_offs_frames); held_frames := s.(held_frames);
     wri_offs_frames := s.(wri_offs_frames);
     tmp_buffer_frames := s.(tmp_buffer_frames);
     cap_bufsize_frames := s.(cap_bufsize_frames);
     cap_offs_frames := s.(cap_offs_frames);
     cap_held_frames := s.(cap_held_frames);
     wrap_bufsize_frames := s.(wrap_bufsize_frames); written_frames := v;
     getbuf_last := s.(getbuf_last); fmt := s.(fmt);
     local_buffer := s.(local_buffer); cap_buffer := s.(cap_buffer);
     wrap_buffer := s.(wrap_buffer); resamp_buffer := s.(resamp_buffer);
     tmp_buffer := s.(tmp_buffer) |}.

Definition set_getbuf_last (s : coreaudio_stream) (v : Z) : coreaudio_stream :=
  {| converter := s.(converter);
     dev_desc_mSampleRate := s.(dev_desc_mSampleRate); flow := s.(flow);
     playing := s.(playing); period_frames := s.(period_frames);
     bufsize_frames := s.(bufsize_frames);
     resamp_bufsize_frames := s.(resamp_bufsize_frames);
     lcl_offs_frames := s.(lcl_offs_frames); held_frames := s.(held_frames);
     wri_offs_frames := s.(wri_offs_frames);
     tmp_buffer_frames := s.(tmp_buffer_frames);
     cap_bufsize_frames := s.(cap_bufsize_frames);
     cap_offs_frames := s.(cap_offs_frames);
     cap_held_frames := s.(cap_held_frames);
     wrap_bufsize_frames := s.(wrap_bufsize_frames);
     written_frames := s.(written_frames); getbuf_last := v; fmt := s.(fmt);
     local_buffer := s.(local_buffer); cap_buffer := s.(cap_buffer);
     wrap_buffer := s.(wrap_buffer); resamp_buffer := s.(resamp_buffer);
     tmp_buffer := s.(tmp_buffer) |}.

Definition set_local_buffer (s : coreaudio_stream) (v : list Z) : coreaudio_stream :=
  {| converter := s.(converter);
     dev_desc_mSampleRate := s.(dev_desc_mSampleRate); flow := s.(flow);
     playing := s.(playing); period_frames := s.(period_frames);
     bufsize_frames := s.(bufsize_frames);
     resamp_bufsize_frames := s.(resamp_bufsize_frames);
     lcl_offs_frames := s.(lcl_offs_frames); held_frames := s.(held_frames);
     wri_offs_frames := s.(wri_offs_frames);
     tmp_buffer_frames := s.(tmp_buffer_frames);
     cap_bufsize_frames := s.(cap_bufsize_frames);
     cap_offs_frames := s.(cap_offs_frames);
     cap_held_frames := s.(cap_held_frames);
     wrap_bufsize_frames := s.(wrap_bufsize_frames);
     written_frames := s.(written_frames); getbuf_last := s.(getbuf_last);
     fmt := s.(fmt); local_buffer := v; cap_buffer := s.(cap_buffer);
     wrap_buffer := s.(wrap_buffer); resamp_buffer := s.(resamp_buffer);
     tmp_buffer := s.(tmp_buffer) |}.

Definition set_cap_buffer (s : coreaudio_stream) (v : list Z) : coreaudio_stream :=
  {| converter := s.(converter);
     dev_desc_mSampleRate := s.(dev_desc_mSampleRate); flow := s.(flow);
     playing := s.(playing); period_frames := s.(period_frames);
     bufsize_frames := s.(bufsize_frames);
     resamp_bufsize_frames := s.(resamp_bufsize_frames);
     lcl_offs_frames := s.(lcl_offs_frames); held_frames := s.(held_frames);
     wri_offs_frames := s.(wri_offs_frames);
     tmp_buffer_frames := s.(tmp_buffer_frames);
     cap_bufsize_frames := s.(cap_bufsize_frames);
     cap_offs_frames := s.(cap_offs_frames);
     cap_held_frames := s.(cap_held_frames);
     wrap_bufsize_frames := s.(wrap_bufsize_frames);
     written_frames := s.(written_frames); getbuf_last := s.(getbuf_last);
     fmt := s.(fmt); local_buffer := s.(local_buffer); cap_buffer := v;
     wrap_buffer := s.(wrap_buffer); resamp_buffer := s.(resamp_buffer);
     tmp_buffer := s.(tmp_buffer) |}.

Definition set_wrap_buffer (s : coreaudio_stream) (v : list Z) : coreaudio_stream :=
  {| converter := s.(converter);
     dev_desc_mSampleRate := s.(dev_desc_mSampleRate); flow := s.(flow);
     playing := s.(playing); period_frames := s.(period_frames);
     bufsize_frames := s.(bufsize_frames);
     resamp_bufsize_frames := s.(resamp_bufsize_frames);
     lcl_offs_frames := s.(lcl_offs_frames); held_frames := s.(held_frames);
     wri_offs_frames := s.(wri_offs_frames);
     tmp_buffer_frames := s.(tmp_buffer_frames);
     cap_bufsize_frames := s.(cap_bufsize_frames);
     cap_offs_frames := s.(cap_offs_frames);
     cap_held_frames := s.(cap_held_frames);
     wrap_bufsize_frames := s.(wrap_bufsize_frames);
     written_frames := s.(written_frames); getbuf_last := s.(getbuf_last);
     fmt := s.(fmt); local_buffer := s.(local_buffer);
     cap_buffer := s.(cap_buffer); wrap_buffer := v;
     resamp_buffer := s.(resamp_buffer); tmp_buffer := s.(tmp_buffer) |}.

Definition set_resamp_buffer (s : coreaudio_stream) (v : list Z) : coreaudio_stream :=
  {| converter := s.(converter);
     dev_desc_mSampleRate := s.(dev_desc_mSampleRate); flow := s.(flow);
     playing := s.(playing); period_frames := s.(period_frames);
     bufsize_frames := s.(bufsize_frames);
     resamp_bufsize_frames := s.(resamp_bufsize_frames);
     lcl_offs_frames := s.(lcl_offs_frames); held_frames := s.(held_frames);
     wri_offs_frames := s.(wri_offs_frames);
     tmp_buffer_frames := s.(tmp_buffer_frames);
     cap_bufsize_frames := s.(cap_bufsize_frames);
     cap_offs_frames := s.(cap_offs_frames);
     cap_held_frames := s.(cap_held_frames);
     wrap_bufsize_frames := s.(wrap_bufsize_frames);
     written_frames := s.(written_frames); getbuf_last := s.(getbuf_last);
     fmt := s.(fmt); local_buffer := s.(local_buffer);
     cap_buffer := s.(cap_buffer); wrap_buffer := s.(wrap_buffer);
     resamp_buffer := v; tmp_buffer := s.(tmp_buffer) |}.

Definition set_tmp_buffer (s : coreaudio_stream) (v : option (list Z)) : coreaudio_stream :=
  {| converter := s.(converter);
     dev_desc_mSampleRate := s.(dev_desc_mSampleRate); flow := s.(flow);
     playing := s.(playing); period_frames := s.(period_frames);
     bufsize_frames := s.(bufsize_frames);
     resamp_bufsize_frames := s.(resamp_bufsize_frames);
     lcl_offs_frames := s.(lcl_offs_frames); held_frames := s.(held_frames);
     wri_offs_frames := s.(wri_offs_frames);
     tmp_buffer_frames := s.(tmp_buffer_frames);
     cap_bufsize_frames := s.(cap_bufsize_frames);
     cap_offs_frames := s.(cap_offs_frames);
     cap_held_frames := s.(cap_held_frames);
     wrap_bufsize_frames := s.(wrap_bufsize_frames);
     written_frames := s.(written_frames); getbuf_last := s.(getbuf_last);
     fmt := s.(fmt); local_buffer := s.(local_buffer);
     cap_buffer := s.(cap_buffer); wrap_buffer := s.(wrap_buffer);
     resamp_buffer := s.(resamp_buffer); tmp_buffer := v |}.

(** [min] of the C headers, on unsigned operands. *)
Definition min (a b : Z) : Z := if a <? b then a else b.

(** The byte written by [silence_buffer]. *)
Definition silence_byte (f : WAVEFORMATEX) : Z :=
  if ((f.(wFormatTag) =? WAVE_FORMAT_PCM)
      || ((f.(wFormatTag) =? WAVE_FORMAT_EXTENSIBLE) && f.(SubFormat_is_PCM)))
     && (f.(wBitsPerSample) =? 8)
  then 128 else 0.

(** [silence_buffer(stream, buffer + offs, frames)] on the buffer that holds
    the pointer. *)
Definition silence_buffer (s : coreaudio_stream) (buffer : list Z)
    (offs frames : Z) : list Z :=
  memset buffer offs (silence_byte s.(fmt))
         (wrap32 (frames * s.(fmt).(nBlockAlign))).

(** [ca_render_cb]: CoreAudio pulls [nframes] frames into
    [data->mBuffers[0].mData], here [data]. *)
Definition ca_render_cb (s : coreaudio_stream) (nframes : Z) (data : list Z)
    : coreaudio_stream * list Z * Z :=
  let ba := s.(fmt).(nBlockAlign) in
  let '(s1, data1, to_copy_bytes, to_copy_frames) :=
    if s.(playing) then
      let lcl_offs_bytes := wrap32 (s.(lcl_offs_frames) * ba) in
      let to_copy_frames := min nframes s.(held_frames) in
      let to_copy_bytes := wrap32 (to_copy_frames * ba) in
      let chunk_bytes :=
        wrap32 (wrap32 (s.(bufsize_frames) - s.(lcl_offs_frames)) * ba) in
      let data1 :=
        if to_copy_bytes >? chunk_bytes then
          memcpy (memcpy data 0 s.(local_buffer) lcl_offs_bytes chunk_bytes)
                 chunk_bytes s.(local_buffer) 0 (to_copy_bytes - chunk_bytes)
        else memcpy data 0 s.(local_buffer) lcl_offs_bytes to_copy_bytes in
      let s1 :=
        set_lcl_offs_frames s
          (wrap32 (s.(lcl_offs_frames) + to_copy_frames) mod s.(bufsize_frames)) in
      let s1 := set_held_frames s1 (wrap32 (s.(held_frames) - to_copy_frames)) in
      (s1, data1, to_copy_bytes, to_copy_frames)
    else (s, data, 0, 0) in
  let data2 :=
    if nframes >? to_copy_frames
    then silence_buffer s1 data1 to_copy_bytes (wrap32 (nframes - to_copy_frames))
    else data1 in
  (s1, data2, noErr).

(** [ca_capture_cb].  [AudioUnitRender] is CoreAudio's: [hw_sc] is the
    status it returns and [hw_data] the bytes it delivers into the buffer
    it was given; their number is [mDataByteSize] after the call. *)
Definition ca_capture_cb (s : coreaudio_stream) (nframes : Z)
    (hw_sc : Z) (hw_data : list Z) : coreaudio_stream * Z :=
  let ba := s.(fmt).(nBlockAlign) in
  let cap_wri_offs_frames :=
    wrap32 (s.(cap_offs_frames) + s.(cap_held_frames)) mod s.(cap_bufsize_frames) in
  let mDataByteSize := wrap32 (nframes * ba) in
  let use_wrap :=
    negb s.(playing)
    || (wrap32 (cap_wri_offs_frames + nframes) >? s.(cap_bufsize_frames)) in
  let s1 :=
    if use_wrap then
      if s.(wrap_bufsize_frames) <? nframes then
        set_wrap_bufsize_frames (set_wrap_buffer s (alloc mDataByteSize)) nframes
      else s
    else s in
  let mDataByteSize' := Z.of_nat (length hw_data) in
  (* AudioUnitRender writes into list.mBuffers[0].mData *)
  let s2 :=
    if use_wrap
    then set_wrap_buffer s1 (memcpy s1.(wrap_buffer) 0 hw_data 0 mDataByteSize')
    else set_cap_buffer s1
           (memcpy s1.(cap_buffer) (wrap32 (cap_wri_offs_frames * ba))
                   hw_data 0 mDataByteSize') in
  if negb (hw_sc =? noErr) then (s2, hw_sc)
  else if s2.(playing) then
    let s3 :=
      if use_wrap then
        set_cap_buffer s2
          (ca_wrap_buffer s2.(cap_buffer)
             (wrap32 (cap_wri_offs_frames * ba))
             (wrap32 (s2.(cap_bufsize_frames) * ba))
             s2.(wrap_buffer) mDataByteSize')
      else s2 in
    let held := wrap32 (s3.(cap_held_frames) + Z.quot mDataByteSize' ba) in
    if held >? s3.(cap_bufsize_frames) then
      let offs :=
        wrap32 (s3.(cap_offs_frames) + held mod s3.(cap_bufsize_frames))
        mod s3.(cap_bufsize_frames) in
      (set_cap_held_frames (set_cap_offs_frames s3 offs) s3.(cap_bufsize_frames),
       noErr)
    else (set_cap_held_frames s3 held, noErr)
  else (s2, noErr).

(** ** The capture resampler *)

(** One call of [AudioConverterFillComplexBuffer], seen from the driver:
    the converter asks its input callback for [req] frames any number of
    times, each time going on from what it was served, and ends with a
    status, the number of frames it produced (the value left in
    [wanted_frames]), the bytes it wrote to the output buffer and its next
    internal state. *)
Inductive conv_run : Type :=
| ConvDone (sc : Z) (produced : Z) (out : list Z) (c' : conv_state)
| ConvPull (req : Z) (k : Z -> list Z -> conv_run).

(** CoreAudio's converter: what a call does from an internal state, when
    asked for [wanted] frames. *)
Variable AudioConverterFillComplexBuffer : conv_state -> Z -> conv_run.

(** [feed_cb]: the input callback, asked for [req] frames ([*nframes] on
    entry).  Returns the stream, [*nframes] on exit and the bytes handed
    to the converter. *)
Definition feed_cb (s : coreaudio_stream) (req : Z)
    : coreaudio_stream * Z * list Z :=
  let ba := s.(fmt).(nBlockAlign) in
  let n := min req s.(cap_held_frames) in
  if n =? 0 then (s, 0, [])
  else
    let mDataByteSize := wrap32 (n * ba) in
    let '(s1, data) :=
      if wrap32 (s.(cap_offs_frames) + n) >? s.(cap_bufsize_frames) then
        let chunk_frames := wrap32 (s.(cap_bufsize_frames) - s.(cap_offs_frames)) in
        let s0 :=
          if s.(wrap_bufsize_frames) <? n
          then set_wrap_bufsize_frames (set_wrap_buffer s (alloc mDataByteSize)) n
          else s in
        let w1 :=
          memcpy s0.(wrap_buffer) 0 s0.(cap_buffer)
                 (wrap32 (s0.(cap_offs_frames) * ba)) (wrap32 (chunk_frames * ba)) in
        let w2 :=
          memcpy w1 (wrap32 (chunk_frames * ba)) s0.(cap_buffer) 0
                 (wrap32 (wrap32 (n - chunk_frames) * ba)) in
        (set_wrap_buffer s0 w2, firstn (Z.to_nat mDataByteSize) w2)
      else
        (s, firstn (Z.to_nat mDataByteSize)
              (skipn (Z.to_nat (wrap32 (s.(cap_offs_frames) * ba))) s.(cap_buffer))) in
    let s2 :=
      set_cap_offs_frames s1
        (wrap32 (s1.(cap_offs_frames) + n) mod s1.(cap_bufsize_frames)) in
    let s3 := set_cap_held_frames s2 (wrap32 (s2.(cap_held_frames) - n)) in
    (s3, n, data).

(** The converter's run against the stream: every pull is served by
    [feed_cb]. *)
Fixpoint run_converter (r : conv_run) (s : coreaudio_stream)
    : coreaudio_stream * Z * Z * list Z * conv_state :=
  match r with
  | ConvDone sc produced out c' => (s, sc, produced, out, c')
  | ConvPull req k =>
      let '(s', n, data) := feed_cb s req in run_converter (k n data) s'
  end.

(** [resamp_period_frames] of [capture_resample]. *)
Definition resamp_period_frames (s : coreaudio_stream) : Z :=
  wrap32 (muldiv (to_int32 s.(period_frames)) s.(dev_desc_mSampleRate)
                 (to_int32 s.(fmt).(nSamplesPerSec))).

(** The start of the body of the [while] loop of [capture_resample]:
    [resamp_buffer] is made large enough for [period_frames] frames. *)
Definition grow_resamp_buffer (s : coreaudio_stream) : coreaudio_stream :=
  let wanted_frames := s.(period_frames) in
  let mDataByteSize := wrap32 (wanted_frames * s.(fmt).(nBlockAlign)) in
  if s.(resamp_bufsize_frames) <? wanted_frames
  then set_resamp_bufsize_frames
         (set_resamp_buffer s (alloc mDataByteSize)) wanted_frames
  else s.

(** The body of the [while] loop of [capture_resample]; the boolean is
    false when the loop is left by [break]. *)
Definition capture_resample_body (s : coreaudio_stream)
    : coreaudio_stream * bool :=
  let ba := s.(fmt).(nBlockAlign) in
  let wanted_frames := s.(period_frames) in
  let s1 := grow_resamp_buffer s in
  let '(s2, sc, produced, out, c') :=
    run_converter (AudioConverterFillComplexBuffer s1.(converter) wanted_frames) s1 in
  let s3 :=
    set_converter
      (set_resamp_buffer s2
         (memcpy s2.(resamp_buffer) 0 out 0 (Z.of_nat (length out)))) c' in
  if negb (sc =? noErr) then (s3, false)
  else
    let wanted_frames := produced in
    let s4 :=
      set_local_buffer s3
        (ca_wrap_buffer s3.(local_buffer)
           (wrap32 (s3.(wri_offs_frames) * ba))
           (wrap32 (s3.(bufsize_frames) * ba))
           s3.(resamp_buffer) (wrap32 (wanted_frames * ba))) in
    let s5 :=
      set_wri_offs_frames s4
        (wrap32 (s4.(wri_offs_frames) + wanted_frames) mod s4.(bufsize_frames)) in
    if wrap32 (s5.(held_frames) + wanted_frames) >? s5.(bufsize_frames) then
      let s6 :=
        set_lcl_offs_frames s5
          (wrap32 (s5.(lcl_offs_frames)
                   + buf_ptr_diff s5.(lcl_offs_frames) s5.(wri_offs_frames)
                                  s5.(bufsize_frames))) in
      (set_held_frames s6 s6.(bufsize_frames), true)
    else (set_held_frames s5 (wrap32 (s5.(held_frames) + wanted_frames)), true).

(** The [while] loop, with fuel: [None] when the fuel runs out before the
    loop ends. *)
Fixpoint capture_resample_loop (fuel : nat) (resamp : Z) (s : coreaudio_stream)
    : option coreaudio_stream :=
  if s.(cap_held_frames) >? wrap32 (resamp * 2) then
    match fuel with
    | O => None
    | S fuel' =>
        let '(s', continue) := capture_resample_body s in
        if continue then capture_resample_loop fuel' resamp s' else Some s'
    end
  else Some s.

Definition capture_resample (fuel : nat) (s : coreaudio_stream)
    : option coreaudio_stream :=
  capture_resample_loop fuel (resamp_period_frames s) s.

Definition get_current_padding_nolock (fuel : nat) (s : coreaudio_stream)
    : option (coreaudio_stream * Z) :=
  if EDataFlow_eqb s.(flow) eCapture then
    match capture_resample fuel s with
    | Some s' => Some (s', s'.(held_frames))
    | None => None
    end
  else Some (s, s.(held_frames)).

(** ** Stream lifecycle *)

Definition start (s : coreaudio_stream) : coreaudio_stream * HRESULT :=
  if s.(playing) then (s, AUDCLNT_E_NOT_STOPPED)
  else (set_playing s true, S_OK).

Definition stop (s : coreaudio_stream) : coreaudio_stream * HRESULT :=
  if negb s.(playing) then (s, S_FALSE)
  else (set_playing s false, S_OK).

Definition reset (s : coreaudio_stream) : coreaudio_stream * HRESULT :=
  if s.(playing) then (s, AUDCLNT_E_NOT_STOPPED)
  else if negb (s.(getbuf_last) =? 0) then (s, AUDCLNT_E_BUFFER_OPERATION_PENDING)
  else
    let s1 :=
      if EDataFlow_eqb s.(flow) eRender then set_written_frames s 0
      else set_written_frames s (wrap64 (s.(written_frames) + s.(held_frames))) in
    let s2 := set_held_frames s1 0 in
    let s3 := set_lcl_offs_frames s2 0 in
    let s4 := set_wri_offs_frames s3 0 in
    let s5 := set_cap_offs_frames s4 0 in
    (set_cap_held_frames s5 0, S_OK).

(** ** The buffer protocol *)

(** Where [*params->data] points: into [local_buffer] at a byte offset, or
    at [tmp_buffer]. *)
Inductive data_ptr : Type :=
| PtrLocal (offs_bytes : Z)
| PtrTmp.

(** The bytes of [tmp_buffer]. *)
Definition tmp_bytes (s : coreaudio_stream) : list Z :=
  match s.(tmp_buffer) with Some b => b | None => [] end.

(** [get_render_buffer].  [alloc_ok] tells whether
    [NtAllocateVirtualMemory] succeeds, if it is called; when it fails the
    old scratch buffer is freed already and the code does not assign
    [tmp_buffer]: a NULL [tmp_buffer] stays NULL, and one that pointed to
    a scratch buffer is left dangling, a non-NULL pointer to no bytes.
    The last component is the value stored in [*params->data], if any. *)
Definition get_render_buffer (fuel : nat) (alloc_ok : bool)
    (s : coreaudio_stream) (frames : Z)
    : option (coreaudio_stream * HRESULT * option data_ptr) :=
  match get_current_padding_nolock fuel s with
  | None => None
  | Some (s, pad) =>
    let ba := s.(fmt).(nBlockAlign) in
    Some
    (if negb (s.(getbuf_last) =? 0) then (s, AUDCLNT_E_OUT_OF_ORDER, None)
     else if frames =? 0 then (s, S_OK, None)
     else if wrap32 (pad + frames) >? s.(bufsize_frames)
     then (s, AUDCLNT_E_BUFFER_TOO_LARGE, None)
     else if wrap32 (s.(wri_offs_frames) + frames) >? s.(bufsize_frames) then
       let grow := s.(tmp_buffer_frames) <? frames in
       if grow && negb alloc_ok then
         (set_tmp_buffer_frames
            (set_tmp_buffer s
               (match s.(tmp_buffer) with Some _ => Some [] | None => None end))
            0,
          E_OUTOFMEMORY, None)
       else
         let s1 :=
           if grow
           then set_tmp_buffer_frames
                  (set_tmp_buffer s (Some (alloc (wrap32 (frames * ba))))) frames
           else s in
         let s2 := set_getbuf_last s1 (to_int32 (- frames)) in
         let s3 :=
           set_tmp_buffer s2 (Some (silence_buffer s2 (tmp_bytes s2) 0 frames)) in
         (s3, S_OK, Some PtrTmp)
     else
       let offs := wrap32 (s.(wri_offs_frames) * ba) in
       let s1 := set_getbuf_last s (to_int32 frames) in
       let s2 :=
         set_local_buffer s1 (silence_buffer s1 s1.(local_buffer) offs frames) in
       (s2, S_OK, Some (PtrLocal offs)))
  end.

(** AUDCLNT_BUFFERFLAGS_SILENT of audioclient.h. *)
Definition AUDCLNT_BUFFERFLAGS_SILENT : Z := 2.

Definition release_render_buffer (s : coreaudio_stream) (frames flags : Z)
    : coreaudio_stream * HRESULT :=
  let ba := s.(fmt).(nBlockAlign) in
  if frames =? 0 then (set_getbuf_last s 0, S_OK)
  else if s.(getbuf_last) =? 0 then (s, AUDCLNT_E_OUT_OF_ORDER)
  else if frames >? wrap32 (if s.(getbuf_last) >=? 0 then s.(getbuf_last)
                            else to_int32 (- s.(getbuf_last)))
  then (s, AUDCLNT_E_INVALID_SIZE)
  else
    let direct := s.(getbuf_last) >=? 0 in
    let offs := wrap32 (s.(wri_offs_frames) * ba) in
    let s1 :=
      if negb (Z.land flags AUDCLNT_BUFFERFLAGS_SILENT =? 0) then
        if direct
        then set_local_buffer s (silence_buffer s s.(local_buffer) offs frames)
        else set_tmp_buffer s (Some (silence_buffer s (tmp_bytes s) 0 frames))
      else s in
    let s2 :=
      if s1.(getbuf_last) <? 0 then
        set_local_buffer s1
          (ca_wrap_buffer s1.(local_buffer)
             (wrap32 (s1.(wri_offs_frames) * ba))
             (wrap32 (s1.(bufsize_frames) * ba))
             (tmp_bytes s1) (wrap32 (frames * ba)))
      else s1 in
    let s3 :=
      set_wri_offs_frames s2
        (wrap32 (s2.(wri_offs_frames) + frames) mod s2.(bufsize_frames)) in
    let s4 := set_held_frames s3 (wrap32 (s3.(held_frames) + frames)) in
    let s5 := set_written_frames s4 (wrap64 (s4.(written_frames) + frames)) in
    (set_getbuf_last s5 0, S_OK).

(** What [get_capture_buffer] stores through its out pointers; [None] is
    a location left untouched. *)
Record capture_out : Type := {
  out_result : HRESULT;
  out_frames : option Z;
  out_flags : option Z;
  out_data : option data_ptr;
  out_devpos : option Z;
  out_qpcpos : option Z
}.

(** [get_capture_buffer].  [want_devpos] and [want_qpcpos] tell whether
    [params->devpos] and [params->qpcpos] are non-NULL; [stamp] and [freq]
    are what [NtQueryPerformanceCounter] returns. *)
Definition get_capture_buffer (fuel : nat) (s : coreaudio_stream)
    (want_devpos want_qpcpos : bool) (stamp freq : Z)
    : option (coreaudio_stream * capture_out) :=
  if negb (s.(getbuf_last) =? 0) then
    Some (s, {| out_result := AUDCLNT_E_OUT_OF_ORDER; out_frames := None;
                out_flags := None; out_data := None;
                out_devpos := None; out_qpcpos := None |})
  else
    match capture_resample fuel s with
    | None => None
    | Some s =>
      let ba := s.(fmt).(nBlockAlign) in
      Some
      (if s.(held_frames) <? s.(period_frames) then
         (s, {| out_result := AUDCLNT_S_BUFFER_EMPTY; out_frames := Some 0;
                out_flags := None; out_data := None;
                out_devpos := None; out_qpcpos := None |})
       else
         let chunk_frames := wrap32 (s.(bufsize_frames) - s.(lcl_offs_frames)) in
         let '(s1, data) :=
           if chunk_frames <? s.(period_frames) then
             let chunk_bytes := wrap32 (chunk_frames * ba) in
             let s0 :=
               match s.(tmp_buffer) with
               | None =>
                   set_tmp_buffer s
                     (Some (alloc (wrap32 (s.(period_frames) * ba))))
               | Some _ => s
               end in
             let t1 :=
               memcpy (tmp_bytes s0) 0 s0.(local_buffer)
                      (wrap32 (s0.(lcl_offs_frames) * ba)) chunk_bytes in
             let t2 :=
               memcpy t1 chunk_bytes s0.(local_buffer) 0
                      (wrap32 (wrap32 (s0.(period_frames) * ba) - chunk_bytes)) in
             (set_tmp_buffer s0 (Some t2), PtrTmp)
           else (s, PtrLocal (wrap32 (s.(lcl_offs_frames) * ba))) in
         let s2 := set_getbuf_last s1 (to_int32 s1.(period_frames)) in
         (s2, {| out_result := S_OK;
                 out_frames := Some s1.(period_frames);
                 out_flags := Some 0;
                 out_data := Some data;
                 out_devpos :=
                   if want_devpos then Some s2.(written_frames) else None;
                 out_qpcpos :=
                   if want_qpcpos
                   then Some (Z.quot (to_int64 (stamp * 10000000)) freq)
                   else None |}))
    end.

Definition release_capture_buffer (s : coreaudio_stream) (done : Z)
    : coreaudio_stream * HRESULT :=
  if done =? 0 then (set_getbuf_last s 0, S_OK)
  else if s.(getbuf_last) =? 0 then (s, AUDCLNT_E_OUT_OF_ORDER)
  else if negb (wrap32 s.(getbuf_last) =? done) then (s, AUDCLNT_E_INVALID_SIZE)
  else
    let s1 := set_written_frames s (wrap64 (s.(written_frames) + done)) in
    let s2 := set_held_frames s1 (wrap32 (s1.(held_frames) - done)) in
    let s3 :=
      set_lcl_offs_frames s2
        (wrap32 (s2.(lcl_offs_frames) + done) mod s2.(bufsize_frames)) in
    (set_getbuf_last s3 0, S_OK).

(** [get_next_packet_size]: the stream and [*params->frames]. *)
Definition get_next_packet_size (fuel : nat) (s : coreaudio_stream)
    : option (coreaudio_stream * Z) :=
  match capture_resample fuel s with
  | None => None
  | Some s =>
      Some (s, if s.(held_frames) >=? s.(period_frames)
               then s.(period_frames) else 0)
  end.

(** ** The calls of the client layer

    The stream entries of [__wine_unix_call_funcs] that take part in the
    buffer protocol, with their arguments. *)
Inductive unix_call : Type :=
| call_start
| call_stop
| call_reset
| call_get_render_buffer (alloc_ok : bool) (frames : Z)
| call_release_render_buffer (frames flags : Z)
| call_get_capture_buffer (want_devpos want_qpcpos : bool) (stamp freq : Z)
| call_release_capture_buffer (done : Z)
| call_get_current_padding
| call_get_next_packet_size.

(** The stream after the call and [params->result]. *)
Definition wine_unix_call (fuel : nat) (c : unix_call) (s : coreaudio_stream)
    : option (coreaudio_stream * HRESULT) :=
  match c with
  | call_start => Some (start s)
  | call_stop => Some (stop s)
  | call_reset => Some (reset s)
  | call_get_render_buffer alloc_ok frames =>
      match get_render_buffer fuel alloc_ok s frames with
      | Some (s', hr, _) => Some (s', hr)
      | None => None
      end
  | call_release_render_buffer frames flags =>
      Some (release_render_buffer s frames flags)
  | call_get_capture_buffer want_devpos want_qpcpos stamp freq =>
      match get_capture_buffer fuel s want_devpos want_qpcpos stamp freq with
      | Some (s', o) => Some (s', o.(out_result))
      | None => None
      end
  | call_release_capture_buffer done => Some (release_capture_buffer s done)
  | call_get_current_padding =>
      match get_current_padding_nolock fuel s with
      | Some (s', _) => Some (s', S_OK)
      | None => None
      end
  | call_get_next_packet_size =>
      match get_next_packet_size fuel s with
      | Some (s', _) => Some (s', S_OK)
      | None => None
      end
  end.

(** The calls a client can make on a stream: the render buffer belongs to
    the render direction, so [get_render_buffer] is not called on a capture
    stream (there its padding query would run the capture drain before
    any check).  No other call depends on the direction for what it does
    when it fails. *)
Definition client_visible (c : unix_call) (s : coreaudio_stream) : Prop :=
  match c with
  | call_get_render_buffer _ _ => s.(flow) <> eCapture
  | _ => True
  end.

(** ** Invariants of the data model *)

(** The client-visible ring: [local_buffer] with [lcl_offs_frames] (read
    offset), [wri_offs_frames] (write offset) and [held_frames]. *)
Definition ring_inv (s : coreaudio_stream) : Prop :=
  0 < s.(bufsize_frames)
  /\ 0 <= s.(held_frames) <= s.(bufsize_frames)
  /\ 0 <= s.(lcl_offs_frames) < s.(bufsize_frames)
  /\ 0 <= s.(wri_offs_frames) < s.(bufsize_frames)
  /\ s.(wri_offs_frames)
     = (s.(lcl_offs_frames) + s.(held_frames)) mod s.(bufsize_frames).

(** The same with the read offset known only up to one turn of the ring:
    what the drain keeps when it saturates the ring. *)
Definition ring_inv_mod (s : coreaudio_stream) : Prop :=
  0 < s.(bufsize_frames)
  /\ 0 <= s.(held_frames) <= s.(bufsize_frames)
  /\ 0 <= s.(lcl_offs_frames) < 2 * s.(bufsize_frames)
  /\ 0 <= s.(wri_offs_frames) < s.(bufsize_frames)
  /\ s.(wri_offs_frames)
     = (s.(lcl_offs_frames) + s.(held_frames)) mod s.(bufsize_frames).

(** The raw capture ring: [cap_buffer] with [cap_offs_frames] and
    [cap_held_frames]; its write offset is computed from the two. *)
Definition cap_ring_inv (s : coreaudio_stream) : Prop :=
  0 < s.(cap_bufsize_frames) < 4294967296
  /\ 0 <= s.(cap_held_frames) <= s.(cap_bufsize_frames)
  /\ 0 <= s.(cap_offs_frames) < s.(cap_bufsize_frames).

(** Sizes as [create_stream] leaves them: the frame counts are results of
    [muldiv], so below 2^31; [nBlockAlign] is a WORD; [local_buffer] has
    [bufsize_frames * nBlockAlign] bytes, a UINT32. *)
Definition sizes_ok (s : coreaudio_stream) : Prop :=
  0 < s.(bufsize_frames) <= 2147483647
  /\ 0 <= s.(period_frames) <= 2147483647
  /\ 0 < s.(fmt).(nBlockAlign) < 65536
  /\ s.(bufsize_frames) * s.(fmt).(nBlockAlign) < 4294967296
  /\ Z.of_nat (length s.(local_buffer))
     = s.(bufsize_frames) * s.(fmt).(nBlockAlign).

(** The state shared between the client and the callbacks that the
    protocol is about: the offsets and held counts of both rings, the
    written count, the outstanding-acquisition marker and [playing]. *)
Definition shared_state (s : coreaudio_stream)
    : Z * Z * Z * Z * Z * Z * Z * bool :=
  (s.(lcl_offs_frames), s.(wri_offs_frames), s.(held_frames),
   s.(cap_offs_frames), s.(cap_held_frames), s.(written_frames),
   s.(getbuf_last), s.(playing)).

(** The magnitude recorded by an acquisition. *)
Definition acquired (s : coreaudio_stream) : Z := Z.abs s.(getbuf_last).

(** The client-visible ring with its bookkeeping. *)
Definition client_ring (s : coreaudio_stream)
    : list Z * Z * Z * Z * Z * Z :=
  (s.(local_buffer), s.(lcl_offs_frames), s.(wri_offs_frames),
   s.(held_frames), s.(written_frames), s.(getbuf_last)).

(** What is fixed when the stream is created. *)
Definition stream_config (s : coreaudio_stream)
    : EDataFlow * Z * Z * Z * WAVEFORMATEX * Z :=
  (s.(flow), s.(period_frames), s.(bufsize_frames), s.(cap_bufsize_frames),
   s.(fmt), s.(dev_desc_mSampleRate)).

(** ** What is expected of the converter *)

(** The frame counts the converter passes to its input callback are
    UInt32 values. *)
Fixpoint conv_run_ok (r : conv_run) : Prop :=
  match r with
  | ConvDone _ _ _ _ => True
  | ConvPull req k =>
      0 <= req < 4294967296 /\ forall n data, conv_run_ok (k n data)
  end.

(** A converter run that produces no more than [w] frames. *)
Fixpoint produces_at_most (w : Z) (r : conv_run) : Prop :=
  match r with
  | ConvDone _ produced _ _ => 0 <= produced <= w
  | ConvPull _ k => forall n data, produces_at_most w (k n data)
  end.

(** A converter run that cannot end well without having asked its input
    callback for at least one frame. *)
Fixpoint pulls_input (r : conv_run) : Prop :=
  match r with
  | ConvDone sc _ _ _ => sc <> noErr
  | ConvPull req k => 0 < req \/ forall n data, pulls_input (k n data)
  end.

End Model.

Arguments coreaudio_stream : clear implicits.
Arguments conv_run : clear implicits.

(** * Devices and formats

    The entries of coreaudio.c that describe the hardware to the client
    layer: result codes, the format given to CoreAudio, channel layouts,
    the mix format, the format check and the enumeration of endpoints.
    What CoreAudio answers is data of the caller: a status and a value
    for each query. *)

(** ** Result codes *)

(** [params->result] of the entries below: a code of [HRESULT] or one of
    the codes only these entries return.  [ERROR_INSUFFICIENT_BUFFER]
    stands for [HRESULT_FROM_WIN32(ERROR_INSUFFICIENT_BUFFER)]. *)
Inductive DEVICE_HRESULT : Type :=
| HR (hr : HRESULT)
| E_FAIL
| E_POINTER
| E_INVALIDARG
| AUDCLNT_E_UNSUPPORTED_FORMAT
| AUDCLNT_E_DEVICE_INVALIDATED
| ERROR_INSUFFICIENT_BUFFER.

(** [FAILED] on these results. *)
Definition DEVICE_FAILED (r : DEVICE_HRESULT) : bool :=
  match r with
  | HR hr => FAILED hr
  | _ => true
  end.

(** OSStatus codes of CoreAudio's headers (four-character codes). *)
Definition kAudioFormatUnsupportedDataFormatError : Z := 1718449215.
Definition kAudioFormatUnknownFormatError : Z := 560360820.
Definition kAudioDeviceUnsupportedFormatError : Z := 560226676.
Definition kAudioHardwareBadDeviceError : Z := 560227702.

Definition osstatus_to_hresult (sc : Z) : DEVICE_HRESULT :=
  if (sc =? kAudioFormatUnsupportedDataFormatError)
     || (sc =? kAudioFormatUnknownFormatError)
     || (sc =? kAudioDeviceUnsupportedFormatError)
  then AUDCLNT_E_UNSUPPORTED_FORMAT
  else if sc =? kAudioHardwareBadDeviceError then AUDCLNT_E_DEVICE_INVALIDATED
  else E_FAIL.

(** ** Formats *)

(** WORD arithmetic. *)
Definition wrap16 (x : Z) : Z := x mod 65536.

(** Format tags of mmreg.h, besides the two above. *)
Definition WAVE_FORMAT_IEEE_FLOAT : Z := 3.
Definition WAVE_FORMAT_ALAW : Z := 6.
Definition WAVE_FORMAT_MULAW : Z := 7.

(** WAVEFORMATEXTENSIBLE.  [Format] holds the fields of WAVEFORMATEX that
    the stream engine reads; [nAvgBytesPerSec] and [cbSize], which it does
    not read, are kept beside it.  As for [SubFormat_is_PCM], each
    [SubFormat_is_...] is the outcome of [IsEqualGUID] on [SubFormat]. *)
Record WAVEFORMATEXTENSIBLE : Type := {
  Format : WAVEFORMATEX;
  nAvgBytesPerSec : Z;
  cbSize : Z;
  wValidBitsPerSample : Z;
  dwChannelMask : Z;
  SubFormat_is_IEEE_FLOAT : bool;
  SubFormat_is_MULAW : bool;
  SubFormat_is_ALAW : bool
}.

(** [sizeof(WAVEFORMATEX)] and [sizeof(WAVEFORMATEXTENSIBLE)]. *)
Definition sizeof_WAVEFORMATEX : Z := 18.
Definition sizeof_WAVEFORMATEXTENSIBLE : Z := 40.

(** [clone_format]: the copy, with [cbSize] set from the size copied;
    [None] when [malloc] fails.  For a tag other than
    WAVE_FORMAT_EXTENSIBLE the copy ends after [cbSize]: the fields after
    it are kept here, and nothing reads them under such a tag. *)
Definition clone_format (malloc_ok : bool) (f : WAVEFORMATEXTENSIBLE)
    : option WAVEFORMATEXTENSIBLE :=
  let size :=
    if f.(Format).(wFormatTag) =? WAVE_FORMAT_EXTENSIBLE
    then sizeof_WAVEFORMATEXTENSIBLE else sizeof_WAVEFORMATEX in
  if negb malloc_ok then None
  else Some {| Format := f.(Format);
               nAvgBytesPerSec := f.(nAvgBytesPerSec);
               cbSize := wrap16 (size - sizeof_WAVEFORMATEX);
               wValidBitsPerSample := f.(wValidBitsPerSample);
               dwChannelMask := f.(dwChannelMask);
               SubFormat_is_IEEE_FLOAT := f.(SubFormat_is_IEEE_FLOAT);
               SubFormat_is_MULAW := f.(SubFormat_is_MULAW);
               SubFormat_is_ALAW := f.(SubFormat_is_ALAW) |}.

(** [mFormatID] values the driver uses. *)
Inductive AudioFormatID : Type :=
| kAudioFormatLinearPCM
| kAudioFormatULaw
| kAudioFormatALaw.

(** Format flags of CoreAudioTypes.h. *)
Definition kAudioFormatFlagIsFloat : Z := 1.
Definition kAudioFormatFlagIsSignedInteger : Z := 4.

(** AudioStreamBasicDescription; [mSampleRate] is a Float64 holding an
    integer here. *)
Record AudioStreamBasicDescription : Type := {
  mSampleRate : Z;
  mFormatID : AudioFormatID;
  mFormatFlags : Z;
  mBytesPerPacket : Z;
  mFramesPerPacket : Z;
  mBytesPerFrame : Z;
  mChannelsPerFrame : Z;
  mBitsPerChannel : Z
}.

(** [ca_get_audiodesc]: the description, or [None] for
    AUDCLNT_E_UNSUPPORTED_FORMAT (the callers drop [*desc] then). *)
Definition ca_get_audiodesc (f : WAVEFORMATEXTENSIBLE)
    : option AudioStreamBasicDescription :=
  let fmt := f.(Format) in
  let ext := fmt.(wFormatTag) =? WAVE_FORMAT_EXTENSIBLE in
  let id_flags :=
    if (fmt.(wFormatTag) =? WAVE_FORMAT_PCM)
       || (ext && fmt.(SubFormat_is_PCM))
    then Some (kAudioFormatLinearPCM,
               if fmt.(wBitsPerSample) >? 8
               then kAudioFormatFlagIsSignedInteger else 0)
    else if (fmt.(wFormatTag) =? WAVE_FORMAT_IEEE_FLOAT)
            || (ext && f.(SubFormat_is_IEEE_FLOAT))
    then Some (kAudioFormatLinearPCM, kAudioFormatFlagIsFloat)
    else if (fmt.(wFormatTag) =? WAVE_FORMAT_MULAW)
            || (ext && f.(SubFormat_is_MULAW))
    then Some (kAudioFormatULaw, 0)
    else if (fmt.(wFormatTag) =? WAVE_FORMAT_ALAW)
            || (ext && f.(SubFormat_is_ALAW))
    then Some (kAudioFormatALaw, 0)
    else None in
  match id_flags with
  | None => None
  | Some (fid, flags) =>
      Some {| mSampleRate := fmt.(nSamplesPerSec);
              mFormatID := fid;
              mFormatFlags := flags;
              mBytesPerPacket := fmt.(nBlockAlign);
              mFramesPerPacket := 1;
              mBytesPerFrame := fmt.(nBlockAlign);
              mChannelsPerFrame := fmt.(nChannels);
              mBitsPerChannel := fmt.(wBitsPerSample) |}
  end.

(** What CoreAudio answers to [get_audiounit]: whether
    [AudioComponentFindNext] finds the component, and the status of each
    call after it. *)
Record audiounit_calls : Type := {
  AudioComponentFindNext_ok : bool;
  AudioComponentInstanceNew_sc : Z;
  EnableIO_input_sc : Z;
  EnableIO_output_sc : Z;
  CurrentDevice_sc : Z
}.

(** [get_audiounit]: whether a unit is returned (not NULL). *)
Definition get_audiounit (dataflow : EDataFlow) (u : audiounit_calls) : bool :=
  if negb u.(AudioComponentFindNext_ok) then false
  else if negb (u.(AudioComponentInstanceNew_sc) =? noErr) then false
  else if EDataFlow_eqb dataflow eCapture
          && negb (u.(EnableIO_input_sc) =? noErr) then false
  else if EDataFlow_eqb dataflow eCapture
          && negb (u.(EnableIO_output_sc) =? noErr) then false
  else if negb (u.(CurrentDevice_sc) =? noErr) then false
  else true.

(** What CoreAudio answers to [ca_setup_audiounit]: the status of the
    query and of the setting of the unit's format, the hardware's sample
    rate (as an integer), and the status of [AudioConverterNew]. *)
Record setup_calls : Type := {
  GetStreamFormat_sc : Z;
  hardware_mSampleRate : Z;
  SetStreamFormat_sc : Z;
  AudioConverterNew_sc : Z
}.

(** [ca_setup_audiounit]: the result, [*dev_desc] when it is set, and
    whether a converter was created. *)
Definition ca_setup_audiounit (dataflow : EDataFlow) (c : setup_calls)
    (f : WAVEFORMATEXTENSIBLE)
    : DEVICE_HRESULT * option AudioStreamBasicDescription * bool :=
  if EDataFlow_eqb dataflow eCapture then
    match ca_get_audiodesc f with
    | None => (AUDCLNT_E_UNSUPPORTED_FORMAT, None, false)
    | Some desc =>
        if negb (c.(GetStreamFormat_sc) =? noErr)
        then (osstatus_to_hresult c.(GetStreamFormat_sc), None, false)
        else
          let dev_desc :=
            {| mSampleRate := c.(hardware_mSampleRate);
               mFormatID := desc.(mFormatID);
               mFormatFlags := desc.(mFormatFlags);
               mBytesPerPacket := desc.(mBytesPerPacket);
               mFramesPerPacket := desc.(mFramesPerPacket);
               mBytesPerFrame := desc.(mBytesPerFrame);
               mChannelsPerFrame := desc.(mChannelsPerFrame);
               mBitsPerChannel := desc.(mBitsPerChannel) |} in
          if negb (c.(SetStreamFormat_sc) =? noErr)
          then (osstatus_to_hresult c.(SetStreamFormat_sc), Some dev_desc, false)
          else if negb (c.(AudioConverterNew_sc) =? noErr)
          then (osstatus_to_hresult c.(AudioConverterNew_sc), Some dev_desc, false)
          else (HR S_OK, Some dev_desc, true)
    end
  else
    match ca_get_audiodesc f with
    | None => (AUDCLNT_E_UNSUPPORTED_FORMAT, None, false)
    | Some dev_desc =>
        if negb (c.(SetStreamFormat_sc) =? noErr)
        then (osstatus_to_hresult c.(SetStreamFormat_sc), Some dev_desc, false)
        else (HR S_OK, Some dev_desc, false)
    end.

(** ** Channel layouts *)

(** Speaker positions and configurations of ksmedia.h. *)
Definition SPEAKER_FRONT_LEFT : Z := 1.
Definition SPEAKER_FRONT_RIGHT : Z := 2.
Definition SPEAKER_FRONT_CENTER : Z := 4.
Definition SPEAKER_LOW_FREQUENCY : Z := 8.
Definition SPEAKER_BACK_LEFT : Z := 16.
Definition SPEAKER_BACK_RIGHT : Z := 32.
Definition SPEAKER_FRONT_LEFT_OF_CENTER : Z := 64.
Definition SPEAKER_FRONT_RIGHT_OF_CENTER : Z := 128.
Definition SPEAKER_BACK_CENTER : Z := 256.
Definition SPEAKER_SIDE_LEFT : Z := 512.
Definition SPEAKER_SIDE_RIGHT : Z := 1024.
Definition SPEAKER_TOP_CENTER : Z := 2048.
Definition SPEAKER_TOP_FRONT_LEFT : Z := 4096.
Definition SPEAKER_TOP_FRONT_CENTER : Z := 8192.
Definition SPEAKER_TOP_FRONT_RIGHT : Z := 16384.
Definition SPEAKER_TOP_BACK_LEFT : Z := 32768.
Definition SPEAKER_TOP_BACK_CENTER : Z := 65536.
Definition SPEAKER_TOP_BACK_RIGHT : Z := 131072.
Definition SPEAKER_RESERVED : Z := 2147221504.

Definition KSAUDIO_SPEAKER_MONO : Z := SPEAKER_FRONT_CENTER.
Definition KSAUDIO_SPEAKER_STEREO : Z :=
  Z.lor SPEAKER_FRONT_LEFT SPEAKER_FRONT_RIGHT.
Definition KSAUDIO_SPEAKER_QUAD : Z :=
  Z.lor (Z.lor (Z.lor SPEAKER_FRONT_LEFT SPEAKER_FRONT_RIGHT)
           SPEAKER_BACK_LEFT) SPEAKER_BACK_RIGHT.
Definition KSAUDIO_SPEAKER_SURROUND : Z :=
  Z.lor (Z.lor (Z.lor SPEAKER_FRONT_LEFT SPEAKER_FRONT_RIGHT)
           SPEAKER_FRONT_CENTER) SPEAKER_BACK_CENTER.
Definition KSAUDIO_SPEAKER_5POINT1 : Z :=
  Z.lor (Z.lor (Z.lor (Z.lor (Z.lor SPEAKER_FRONT_LEFT SPEAKER_FRONT_RIGHT)
                         SPEAKER_FRONT_CENTER) SPEAKER_LOW_FREQUENCY)
           SPEAKER_BACK_LEFT) SPEAKER_BACK_RIGHT.
Definition KSAUDIO_SPEAKER_5POINT1_SURROUND : Z :=
  Z.lor (Z.lor (Z.lor (Z.lor (Z.lor SPEAKER_FRONT_LEFT SPEAKER_FRONT_RIGHT)
                         SPEAKER_FRONT_CENTER) SPEAKER_LOW_FREQUENCY)
           SPEAKER_SIDE_LEFT) SPEAKER_SIDE_RIGHT.
Definition KSAUDIO_SPEAKER_7POINT1 : Z :=
  Z.lor (Z.lor (Z.lor (Z.lor (Z.lor (Z.lor (Z.lor
    SPEAKER_FRONT_LEFT SPEAKER_FRONT_RIGHT) SPEAKER_FRONT_CENTER)
    SPEAKER_LOW_FREQUENCY) SPEAKER_BACK_LEFT) SPEAKER_BACK_RIGHT)
    SPEAKER_FRONT_LEFT_OF_CENTER) SPEAKER_FRONT_RIGHT_OF_CENTER.
Definition KSAUDIO_SPEAKER_7POINT1_SURROUND : Z :=
  Z.lor (Z.lor (Z.lor (Z.lor (Z.lor (Z.lor (Z.lor
    SPEAKER_FRONT_LEFT SPEAKER_FRONT_RIGHT) SPEAKER_FRONT_CENTER)
    SPEAKER_LOW_FREQUENCY) SPEAKER_BACK_LEFT) SPEAKER_BACK_RIGHT)
    SPEAKER_SIDE_LEFT) SPEAKER_SIDE_RIGHT.

(** Channel labels of CoreAudioTypes.h. *)
Definition kAudioChannelLabel_Left : Z := 1.
Definition kAudioChannelLabel_Right : Z := 2.
Definition kAudioChannelLabel_Center : Z := 3.
Definition kAudioChannelLabel_LFEScreen : Z := 4.
Definition kAudioChannelLabel_LeftSurround : Z := 5.
Definition kAudioChannelLabel_RightSurround : Z := 6.
Definition kAudioChannelLabel_LeftCenter : Z := 7.
Definition kAudioChannelLabel_RightCenter : Z := 8.
Definition kAudioChannelLabel_CenterSurround : Z := 9.
Definition kAudioChannelLabel_LeftSurroundDirect : Z := 10.
Definition kAudioChannelLabel_RightSurroundDirect : Z := 11.
Definition kAudioChannelLabel_TopCenterSurround : Z := 12.
Definition kAudioChannelLabel_VerticalHeightLeft : Z := 13.
Definition kAudioChannelLabel_VerticalHeightCenter : Z := 14.
Definition kAudioChannelLabel_VerticalHeightRight : Z := 15.
Definition kAudioChannelLabel_TopBackLeft : Z := 16.
Definition kAudioChannelLabel_TopBackCenter : Z := 17.
Definition kAudioChannelLabel_TopBackRight : Z := 18.
Definition kAudioChannelLabel_Mono : Z := 42.

(** [kAudioChannelLayoutTag_UseChannelDescriptions]. *)
Definition kAudioChannelLayoutTag_UseChannelDescriptions : Z := 0.

(** AudioChannelLayout: the tag and the [mChannelLabel] of each channel
    description; [mNumberChannelDescriptions] is the length of the
    list. *)
Record AudioChannelLayout : Type := {
  mChannelLayoutTag : Z;
  mChannelDescriptions : list Z
}.

Definition mNumberChannelDescriptions (l : AudioChannelLayout) : Z :=
  Z.of_nat (length l.(mChannelDescriptions)).

(** The [switch] of [ca_channel_layout_to_channel_mask]: the speaker a
    label stands for, [None] in the [default] case. *)
Definition channel_label_speaker (label : Z) : option Z :=
  if label =? kAudioChannelLabel_Left then Some SPEAKER_FRONT_LEFT
  else if (label =? kAudioChannelLabel_Mono)
          || (label =? kAudioChannelLabel_Center) then Some SPEAKER_FRONT_CENTER
  else if label =? kAudioChannelLabel_Right then Some SPEAKER_FRONT_RIGHT
  else if label =? kAudioChannelLabel_LeftSurround then Some SPEAKER_BACK_LEFT
  else if label =? kAudioChannelLabel_CenterSurround then Some SPEAKER_BACK_CENTER
  else if label =? kAudioChannelLabel_RightSurround then Some SPEAKER_BACK_RIGHT
  else if label =? kAudioChannelLabel_LFEScreen then Some SPEAKER_LOW_FREQUENCY
  else if label =? kAudioChannelLabel_LeftSurroundDirect then Some SPEAKER_SIDE_LEFT
  else if label =? kAudioChannelLabel_RightSurroundDirect then Some SPEAKER_SIDE_RIGHT
  else if label =? kAudioChannelLabel_TopCenterSurround then Some SPEAKER_TOP_CENTER
  else if label =? kAudioChannelLabel_VerticalHeightLeft then Some SPEAKER_TOP_FRONT_LEFT
  else if label =? kAudioChannelLabel_VerticalHeightCenter then Some SPEAKER_TOP_FRONT_CENTER
  else if label =? kAudioChannelLabel_VerticalHeightRight then Some SPEAKER_TOP_FRONT_RIGHT
  else if label =? kAudioChannelLabel_TopBackLeft then Some SPEAKER_TOP_BACK_LEFT
  else if label =? kAudioChannelLabel_TopBackCenter then Some SPEAKER_TOP_BACK_CENTER
  else if label =? kAudioChannelLabel_TopBackRight then Some SPEAKER_TOP_BACK_RIGHT
  else if label =? kAudioChannelLabel_LeftCenter then Some SPEAKER_FRONT_LEFT_OF_CENTER
  else if label =? kAudioChannelLabel_RightCenter then Some SPEAKER_FRONT_RIGHT_OF_CENTER
  else None.

Definition ca_channel_layout_to_channel_mask (layout : AudioChannelLayout) : Z :=
  fold_left
    (fun mask label =>
       match channel_label_speaker label with
       | Some speaker => Z.lor mask speaker
       | None => mask
       end)
    layout.(mChannelDescriptions) 0.

(** [convert_channel_layout]: [fmt->Format.nChannels] and
    [fmt->dwChannelMask]. *)
Definition convert_channel_layout (ca_layout : AudioChannelLayout) : Z * Z :=
  let ca_mask := ca_channel_layout_to_channel_mask ca_layout in
  let n := mNumberChannelDescriptions ca_layout in
  if n =? 1 then (1, ca_mask)
  else if (n <=? 2) && (Z.land ca_mask (Z.lnot KSAUDIO_SPEAKER_STEREO) =? 0)
  then (2, KSAUDIO_SPEAKER_STEREO)
  else if (n <=? 4) && (Z.land ca_mask (Z.lnot KSAUDIO_SPEAKER_QUAD) =? 0)
  then (4, KSAUDIO_SPEAKER_QUAD)
  else if (n <=? 4) && (Z.land ca_mask (Z.lnot KSAUDIO_SPEAKER_SURROUND) =? 0)
  then (4, KSAUDIO_SPEAKER_SURROUND)
  else if (n <=? 6) && (Z.land ca_mask (Z.lnot KSAUDIO_SPEAKER_5POINT1) =? 0)
  then (6, KSAUDIO_SPEAKER_5POINT1)
  else if (n <=? 6)
          && (Z.land ca_mask (Z.lnot KSAUDIO_SPEAKER_5POINT1_SURROUND) =? 0)
  then (6, KSAUDIO_SPEAKER_5POINT1_SURROUND)
  else if (n <=? 8) && (Z.land ca_mask (Z.lnot KSAUDIO_SPEAKER_7POINT1) =? 0)
  then (8, KSAUDIO_SPEAKER_7POINT1)
  else if (n <=? 8)
          && (Z.land ca_mask (Z.lnot KSAUDIO_SPEAKER_7POINT1_SURROUND) =? 0)
  then (8, KSAUDIO_SPEAKER_7POINT1_SURROUND)
  else (wrap16 n, ca_mask).

Definition get_channel_mask (channels : Z) : Z :=
  if channels =? 0 then 0
  else if channels =? 1 then KSAUDIO_SPEAKER_MONO
  else if channels =? 2 then KSAUDIO_SPEAKER_STEREO
  else if channels =? 3 then Z.lor KSAUDIO_SPEAKER_STEREO SPEAKER_LOW_FREQUENCY
  else if channels =? 4 then KSAUDIO_SPEAKER_QUAD
  else if channels =? 5 then Z.lor KSAUDIO_SPEAKER_QUAD SPEAKER_LOW_FREQUENCY
  else if channels =? 6 then KSAUDIO_SPEAKER_5POINT1
  else if channels =? 7 then Z.lor KSAUDIO_SPEAKER_5POINT1 SPEAKER_BACK_CENTER
  else if channels =? 8 then KSAUDIO_SPEAKER_7POINT1_SURROUND
  else 0.

(** The number of speakers of a channel mask (its set bits among the 32
    of a DWORD). *)
Definition speaker_count (mask : Z) : Z :=
  fold_left (fun n i => if Z.testbit mask (Z.of_nat i) then n + 1 else n)
            (seq 0 32) 0.


(** ** Device properties *)

(** What CoreAudio answers for one device, in the scope of the call's
    direction: for each property the status of the size query and of the
    query, and the value.  [StreamConfiguration] lists the
    [mNumberChannels] of the device's buffers, [Name] the UniChars of its
    name; [NominalSampleRate] is the Float64 rate as the DWORD it is
    converted to. *)
Record AudioDevice : Type := {
  AudioDeviceID : Z;
  StreamConfiguration_size_sc : Z;
  StreamConfiguration_sc : Z;
  StreamConfiguration : list Z;
  Name_sc : Z;
  Name : list Z;
  PreferredChannelLayout_size_sc : Z;
  PreferredChannelLayout_sc : Z;
  PreferredChannelLayout : AudioChannelLayout;
  NominalSampleRate_sc : Z;
  NominalSampleRate : Z
}.

(** [device_has_channels]; [malloc_ok] tells whether [malloc]
    succeeds. *)
Definition device_has_channels (malloc_ok : bool) (device : AudioDevice) : bool :=
  if negb (device.(StreamConfiguration_size_sc) =? noErr) then false
  else if negb malloc_ok then false
  else if negb (device.(StreamConfiguration_sc) =? noErr) then false
  else existsb (fun mNumberChannels => mNumberChannels >? 0)
               device.(StreamConfiguration).

(** ** The mix format *)

Definition set_Format (f : WAVEFORMATEXTENSIBLE) (v : WAVEFORMATEX)
    : WAVEFORMATEXTENSIBLE :=
  {| Format := v; nAvgBytesPerSec := f.(nAvgBytesPerSec);
     cbSize := f.(cbSize); wValidBitsPerSample := f.(wValidBitsPerSample);
     dwChannelMask := f.(dwChannelMask);
     SubFormat_is_IEEE_FLOAT := f.(SubFormat_is_IEEE_FLOAT);
     SubFormat_is_MULAW := f.(SubFormat_is_MULAW);
     SubFormat_is_ALAW := f.(SubFormat_is_ALAW) |}.

Definition set_wFormatTag (f : WAVEFORMATEXTENSIBLE) (v : Z)
    : WAVEFORMATEXTENSIBLE :=
  set_Format f
    {| wFormatTag := v; nChannels := f.(Format).(nChannels);
       nSamplesPerSec := f.(Format).(nSamplesPerSec);
       nBlockAlign := f.(Format).(nBlockAlign);
       wBitsPerSample := f.(Format).(wBitsPerSample);
       SubFormat_is_PCM := f.(Format).(SubFormat_is_PCM) |}.

Definition set_nChannels (f : WAVEFORMATEXTENSIBLE) (v : Z)
    : WAVEFORMATEXTENSIBLE :=
  set_Format f
    {| wFormatTag := f.(Format).(wFormatTag); nChannels := v;
       nSamplesPerSec := f.(Format).(nSamplesPerSec);
       nBlockAlign := f.(Format).(nBlockAlign);
       wBitsPerSample := f.(Format).(wBitsPerSample);
       SubFormat_is_PCM := f.(Format).(SubFormat_is_PCM) |}.

Definition set_dwChannelMask (f : WAVEFORMATEXTENSIBLE) (v : Z)
    : WAVEFORMATEXTENSIBLE :=
  {| Format := f.(Format); nAvgBytesPerSec := f.(nAvgBytesPerSec);
     cbSize := f.(cbSize); wValidBitsPerSample := f.(wValidBitsPerSample);
     dwChannelMask := v;
     SubFormat_is_IEEE_FLOAT := f.(SubFormat_is_IEEE_FLOAT);
     SubFormat_is_MULAW := f.(SubFormat_is_MULAW);
     SubFormat_is_ALAW := f.(SubFormat_is_ALAW) |}.

(** [get_mix_format]: [params->result] and [*params->fmt] after the call,
    from its contents [fmt] before.  [malloc_ok] tells whether the
    [malloc] of the stream configuration succeeds (the one of the layout
    is not tested by the code). *)
Definition get_mix_format (malloc_ok : bool) (device : AudioDevice)
    (fmt : WAVEFORMATEXTENSIBLE) : DEVICE_HRESULT * WAVEFORMATEXTENSIBLE :=
  let fmt := set_wFormatTag fmt WAVE_FORMAT_EXTENSIBLE in
  let fmt :=
    if device.(PreferredChannelLayout_size_sc) =? noErr then
      if device.(PreferredChannelLayout_sc) =? noErr then
        if device.(PreferredChannelLayout).(mChannelLayoutTag)
           =? kAudioChannelLayoutTag_UseChannelDescriptions
        then
          let '(channels, mask) :=
            convert_channel_layout device.(PreferredChannelLayout) in
          set_dwChannelMask (set_nChannels fmt channels) mask
        else set_nChannels fmt 0
      else set_nChannels fmt 0
    else set_nChannels fmt 0 in
  let guessed :=
    if fmt.(Format).(nChannels) =? 0 then
      if negb (device.(StreamConfiguration_size_sc) =? noErr)
      then inl (osstatus_to_hresult device.(StreamConfiguration_size_sc), fmt)
      else if negb malloc_ok then inl (HR E_OUTOFMEMORY, fmt)
      else if negb (device.(StreamConfiguration_sc) =? noErr)
      then inl (osstatus_to_hresult device.(StreamConfiguration_sc), fmt)
      else
        let channels :=
          fold_left (fun n mNumberChannels => wrap16 (n + mNumberChannels))
                    device.(StreamConfiguration) fmt.(Format).(nChannels) in
        let fmt := set_nChannels fmt channels in
        inr (set_dwChannelMask fmt (get_channel_mask fmt.(Format).(nChannels)))
    else inr fmt in
  match guessed with
  | inl failure => failure
  | inr fmt =>
      if negb (device.(NominalSampleRate_sc) =? noErr)
      then (osstatus_to_hresult device.(NominalSampleRate_sc), fmt)
      else
        let rate := device.(NominalSampleRate) in
        let bits := 32 in
        let block := wrap16 (Z.quot (bits * fmt.(Format).(nChannels)) 8) in
        (HR S_OK,
         {| Format :=
              {| wFormatTag := fmt.(Format).(wFormatTag);
                 nChannels := fmt.(Format).(nChannels);
                 nSamplesPerSec := rate;
                 nBlockAlign := block;
                 wBitsPerSample := bits;
                 SubFormat_is_PCM := false |};
            nAvgBytesPerSec := wrap32 (rate * block);
            cbSize := sizeof_WAVEFORMATEXTENSIBLE - sizeof_WAVEFORMATEX;
            wValidBitsPerSample := bits;
            dwChannelMask := fmt.(dwChannelMask);
            SubFormat_is_IEEE_FLOAT := true;
            SubFormat_is_MULAW := false;
            SubFormat_is_ALAW := false |})
  end.

(** ** The format check *)

(** AUDCLNT_SHAREMODE of audiosessiontypes.h. *)
Definition AUDCLNT_SHAREMODE_SHARED : Z := 0.
Definition AUDCLNT_SHAREMODE_EXCLUSIVE : Z := 1.

(** [is_format_supported]: [params->result] and [*params->fmt_out] after
    the call.  [fmt_in] and [fmt_out] are [None] for NULL pointers;
    [fmt_out] holds what the caller's buffer contains.  [c] is what
    CoreAudio answers to [ca_setup_audiounit] on the unit [get_audiounit]
    returns (NULL when it failed). *)
Definition is_format_supported (malloc_ok : bool) (device : AudioDevice)
    (c : setup_calls) (flow : EDataFlow) (share : Z)
    (fmt_in fmt_out : option WAVEFORMATEXTENSIBLE)
    : DEVICE_HRESULT * option WAVEFORMATEXTENSIBLE :=
  let unsupported :=
    match fmt_out with
    | Some out =>
        let '(result, out') := get_mix_format malloc_ok device out in
        (if negb (DEVICE_FAILED result) then HR S_FALSE else result, Some out')
    | None => (AUDCLNT_E_UNSUPPORTED_FORMAT, None)
    end in
  match fmt_in with
  | None => (E_POINTER, fmt_out)
  | Some f =>
    let fmt := f.(Format) in
    if (share =? AUDCLNT_SHAREMODE_SHARED)
       && (match fmt_out with None => true | Some _ => false end)
    then (E_POINTER, fmt_out)
    else if negb (share =? AUDCLNT_SHAREMODE_SHARED)
            && negb (share =? AUDCLNT_SHAREMODE_EXCLUSIVE)
    then (E_INVALIDARG, fmt_out)
    else
      let checks :=
        if fmt.(wFormatTag) =? WAVE_FORMAT_EXTENSIBLE then
          if f.(cbSize) <? sizeof_WAVEFORMATEXTENSIBLE - sizeof_WAVEFORMATEX
          then Some (Some E_INVALIDARG)
          else if (f.(nAvgBytesPerSec) =? 0) || (fmt.(nBlockAlign) =? 0)
                  || (f.(wValidBitsPerSample) >? fmt.(wBitsPerSample))
          then Some (Some E_INVALIDARG)
          else if f.(wValidBitsPerSample) <? fmt.(wBitsPerSample)
          then Some None
          else if (share =? AUDCLNT_SHAREMODE_EXCLUSIVE)
                  && ((f.(dwChannelMask) =? 0)
                      || negb (Z.land f.(dwChannelMask) SPEAKER_RESERVED =? 0))
          then Some None
          else None
        else None in
      match checks with
      | Some (Some failure) => (failure, fmt_out)
      | Some None => unsupported
      | None =>
          if negb (fmt.(nBlockAlign)
                   =? Z.quot (fmt.(nChannels) * fmt.(wBitsPerSample)) 8)
             || negb (f.(nAvgBytesPerSec)
                      =? wrap32 (fmt.(nBlockAlign) * fmt.(nSamplesPerSec)))
          then unsupported
          else if fmt.(nChannels) =? 0
          then (AUDCLNT_E_UNSUPPORTED_FORMAT, fmt_out)
          else
            let '(result, _, _) := ca_setup_audiounit flow c f in
            if DEVICE_FAILED result then unsupported
            else (HR S_OK, fmt_out)
      end
  end.

(** ** Endpoints *)

(** What CoreAudio answers for the system object: the default device of
    the direction, and the devices. *)
Record AudioSystemObject : Type := {
  DefaultDevice_sc : Z;
  DefaultDevice : Z;
  Devices_size_sc : Z;
  Devices_sc : Z;
  Devices : list AudioDevice
}.

(** [struct endpoint] as written to [params->endpoints]: [endpoint_offs]
    and [endpoint_name_offs] are the byte offsets in that buffer of the
    structure and of its name, [endpoint_name] the characters written
    there, with the terminating 0, and [endpoint_id] the device. *)
Record endpoint : Type := {
  endpoint_offs : Z;
  endpoint_name_offs : Z;
  endpoint_name : list Z;
  endpoint_id : Z
}.

(** [sizeof(WCHAR)]. *)
Definition sizeof_WCHAR : Z := 2.

(** The devices [get_endpoint_ids] keeps in [info]: those with channels
    whose name can be read. *)
Definition endpoint_info (malloc_ok : bool) (devices : list AudioDevice)
    : list AudioDevice :=
  filter (fun d => device_has_channels malloc_ok d && (d.(Name_sc) =? noErr))
         devices.

(** The bytes the names of [info] take in the buffer, each with its
    terminator. *)
Definition names_size (info : list AudioDevice) : Z :=
  fold_right
    (fun d n => (Z.of_nat (length d.(Name)) + 1) * sizeof_WCHAR + n) 0 info.

(** The state of the second loop of [get_endpoint_ids]. *)
Record endpoint_loop : Type := {
  loop_i : Z;
  loop_needed : Z;
  loop_endpoint : Z;
  loop_ptr : Z;
  loop_default_idx : Z;
  loop_written : list endpoint
}.

(** The second loop of [get_endpoint_ids], over [info]. *)
Fixpoint write_endpoints (sizeof_endpoint size default_id : Z)
    (info : list AudioDevice) (st : endpoint_loop) : endpoint_loop :=
  match info with
  | [] => st
  | d :: rest =>
      let len := Z.of_nat (length d.(Name)) in
      let needed := wrap32 (st.(loop_needed) + (len + 1) * sizeof_WCHAR) in
      let fits := needed <=? size in
      write_endpoints sizeof_endpoint size default_id rest
        {| loop_i := st.(loop_i) + 1;
           loop_needed := needed;
           loop_endpoint :=
             if fits then st.(loop_endpoint) + sizeof_endpoint
             else st.(loop_endpoint);
           loop_ptr :=
             if fits then st.(loop_ptr) + (len + 1) * sizeof_WCHAR
             else st.(loop_ptr);
           loop_default_idx :=
             if d.(AudioDeviceID) =? default_id then st.(loop_i)
             else st.(loop_default_idx);
           loop_written :=
             if fits
             then st.(loop_written)
                  ++ [{| endpoint_offs := st.(loop_endpoint);
                         endpoint_name_offs := st.(loop_ptr);
                         endpoint_name := d.(Name) ++ [0];
                         endpoint_id := d.(AudioDeviceID) |}]
             else st.(loop_written) |}
  end.

(** What [get_endpoint_ids] leaves in its parameters. *)
Record get_endpoint_ids_params : Type := {
  endpoints : list endpoint;
  size : Z;
  result : DEVICE_HRESULT;
  num : Z;
  default_idx : Z
}.

(** [get_endpoint_ids], for a buffer of [size] bytes.  [sizeof_endpoint]
    is [sizeof(struct endpoint)]; [malloc_ok] tells whether the two
    [malloc]s of the device list succeed, [has_channels_malloc_ok] the
    ones of [device_has_channels]. *)
Definition get_endpoint_ids (sizeof_endpoint : Z)
    (malloc_ok has_channels_malloc_ok : bool) (sys : AudioSystemObject)
    (flow : EDataFlow) (size : Z) : get_endpoint_ids_params :=
  let failure r :=
    {| endpoints := []; size := size; result := r; num := 0;
       default_idx := 0 |} in
  match flow with
  | eAll => failure E_INVALIDARG
  | _ =>
    let default_id :=
      if negb (sys.(DefaultDevice_sc) =? noErr) then wrap32 (-1)
      else sys.(DefaultDevice) in
    if negb (sys.(Devices_size_sc) =? noErr)
    then failure (osstatus_to_hresult sys.(Devices_size_sc))
    else if negb malloc_ok then failure (HR E_OUTOFMEMORY)
    else if negb (sys.(Devices_sc) =? noErr)
    then failure (osstatus_to_hresult sys.(Devices_sc))
    else
      let info := endpoint_info has_channels_malloc_ok sys.(Devices) in
      let num := Z.of_nat (length info) in
      let st :=
        write_endpoints sizeof_endpoint size default_id info
          {| loop_i := 0;
             loop_needed := wrap32 (sizeof_endpoint * num);
             loop_endpoint := 0;
             loop_ptr := sizeof_endpoint * num;
             loop_default_idx := 0;
             loop_written := [] |} in
      if st.(loop_needed) >? size
      then {| endpoints := st.(loop_written); size := st.(loop_needed);
              result := ERROR_INSUFFICIENT_BUFFER; num := num;
              default_idx := st.(loop_default_idx) |}
      else {| endpoints := st.(loop_written); size := size;
              result := HR S_OK; num := num;
              default_idx := st.(loop_default_idx) |}
  end.

(** * Creating and querying a stream *)

Section Stream.

Context {conv_state : Type}.

Definition set_cap_bufsize_frames (s : coreaudio_stream conv_state) (v : Z)
    : coreaudio_stream conv_state :=
  {| converter := s.(converter);
     dev_desc_mSampleRate := s.(dev_desc_mSampleRate); flow := s.(flow);
     playing := s.(playing); period_frames := s.(period_frames);
     bufsize_frames := s.(bufsize_frames);
     resamp_bufsize_frames := s.(resamp_bufsize_frames);
     lcl_offs_frames := s.(lcl_offs_frames); held_frames := s.(held_frames);
     wri_offs_frames := s.(wri_offs_frames);
     tmp_buffer_frames := s.(tmp_buffer_frames);
     cap_bufsize_frames := v;
     cap_offs_frames := s.(cap_offs_frames);
     cap_held_frames := s.(cap_held_frames);
     wrap_bufsize_frames := s.(wrap_bufsize_frames);
     written_frames := s.(written_frames); getbuf_last := s.(getbuf_last);
     fmt := s.(fmt); local_buffer := s.(local_buffer);
     cap_buffer := s.(cap_buffer); wrap_buffer := s.(wrap_buffer);
     resamp_buffer := s.(resamp_buffer); tmp_buffer := s.(tmp_buffer) |}.

(** A stream with the fields of [struct coreaudio_stream] that the buffer
    engine does not read. *)
Record created_stream : Type := {
  engine : coreaudio_stream conv_state;
  share : Z;
  period_ms : Z;
  dev_id : Z
}.

Definition set_engine (h : created_stream) (v : coreaudio_stream conv_state)
    : created_stream :=
  {| engine := v; share := h.(share); period_ms := h.(period_ms);
     dev_id := h.(dev_id) |}.

(** What the system answers to [create_stream]: whether each allocation
    succeeds, what CoreAudio answers to [get_audiounit] and to
    [ca_setup_audiounit], the converter [AudioConverterNew] makes, the
    status of the calls that install the callback and start the unit, and
    the bytes of the block [malloc] returns for the raw capture ring
    (empty for NULL). *)
Record create_stream_calls : Type := {
  calloc_ok : bool;
  clone_format_ok : bool;
  audiounit : audiounit_calls;
  setup : setup_calls;
  new_converter : conv_state;
  SetCallback_sc : Z;
  AudioUnitInitialize_sc : Z;
  AudioOutputUnitStart_sc : Z;
  NtAllocateVirtualMemory_ok : bool;
  malloc_cap_buffer : Z -> list Z
}.

(** [create_stream]: [params->result] and [*params->stream] when it is
    set.  [period] and [duration] are REFERENCE_TIMEs.  The result is
    [None] when the exclusive-mode rounding divides by a period of zero
    frames.  On a render stream [converter] stays NULL in the code and is
    never read; the field holds [new_converter] there too. *)
Definition create_stream (c : create_stream_calls)
    (params_fmt : WAVEFORMATEXTENSIBLE) (params_flow : EDataFlow)
    (params_share params_dev_id : Z)
    (period duration : Z)
    : option (DEVICE_HRESULT * option created_stream) :=
  if negb c.(calloc_ok) then Some (HR E_OUTOFMEMORY, None)
  else
    match clone_format c.(clone_format_ok) params_fmt with
    | None => Some (HR E_OUTOFMEMORY, None)
    | Some f =>
      let rate := f.(Format).(nSamplesPerSec) in
      let ba := f.(Format).(nBlockAlign) in
      let period_ms := wrap32 (Z.quot period 10000) in
      let period_frames :=
        wrap32 (muldiv (to_int32 period) (to_int32 rate) 10000000) in
      let bufsize_frames :=
        wrap32 (muldiv (to_int32 duration) (to_int32 rate) 10000000) in
      let rounded :=
        if params_share =? AUDCLNT_SHAREMODE_EXCLUSIVE then
          if period_frames =? 0 then None
          else Some (wrap32 (bufsize_frames - bufsize_frames mod period_frames))
        else Some bufsize_frames in
      match rounded with
      | None => None
      | Some bufsize_frames =>
        Some
        (if negb (get_audiounit params_flow c.(audiounit))
         then (AUDCLNT_E_DEVICE_INVALIDATED, None)
         else
           let '(result, dev_desc, _) := ca_setup_audiounit params_flow c.(setup) f in
           if DEVICE_FAILED result then (result, None)
           else if negb (c.(SetCallback_sc) =? noErr)
           then (osstatus_to_hresult c.(SetCallback_sc), None)
           else if negb (c.(AudioUnitInitialize_sc) =? noErr)
           then (osstatus_to_hresult c.(AudioUnitInitialize_sc), None)
           else if negb (c.(AudioOutputUnitStart_sc) =? noErr)
           then (osstatus_to_hresult c.(AudioOutputUnitStart_sc), None)
           else if negb c.(NtAllocateVirtualMemory_ok)
           then (HR E_OUTOFMEMORY, None)
           else
             let dev_rate :=
               match dev_desc with
               | Some d => d.(mSampleRate)
               | None => 0
               end in
             let local_buffer_size := wrap32 (bufsize_frames * ba) in
             let s0 :=
               {| converter := c.(new_converter);
                  dev_desc_mSampleRate := dev_rate;
                  flow := params_flow; playing := false;
                  period_frames := period_frames;
                  bufsize_frames := bufsize_frames;
                  resamp_bufsize_frames := 0;
                  lcl_offs_frames := 0; held_frames := 0;
                  wri_offs_frames := 0; tmp_buffer_frames := 0;
                  cap_bufsize_frames := 0; cap_offs_frames := 0;
                  cap_held_frames := 0; wrap_bufsize_frames := 0;
                  written_frames := 0; getbuf_last := 0;
                  fmt := f.(Format);
                  local_buffer := alloc local_buffer_size;
                  cap_buffer := []; wrap_buffer := []; resamp_buffer := [];
                  tmp_buffer := None |} in
             let s1 :=
               set_local_buffer s0
                 (silence_buffer s0 s0.(local_buffer) 0 bufsize_frames) in
             let s2 :=
               if EDataFlow_eqb params_flow eCapture then
                 let cap_bufsize_frames :=
                   wrap32 (muldiv (to_int32 duration) dev_rate 10000000) in
                 set_cap_buffer
                   (set_cap_bufsize_frames s1 cap_bufsize_frames)
                   (c.(malloc_cap_buffer) (wrap32 (cap_bufsize_frames * ba)))
               else s1 in
             (HR S_OK,
              Some {| engine := s2; share := params_share; period_ms := period_ms;
                      dev_id := params_dev_id |}))
      end
    end.

(** [get_buffer_size]: [*params->frames] and [params->result]. *)
Definition get_buffer_size (s : coreaudio_stream conv_state) : Z * HRESULT :=
  (s.(bufsize_frames), S_OK).

(** [is_started]: [params->result]. *)
Definition is_started (s : coreaudio_stream conv_state) : HRESULT :=
  if s.(playing) then S_OK else S_FALSE.

(** [get_position]: [*params->pos], [*params->qpctime] when the pointer
    is not NULL ([want_qpctime]) and [params->result]; [stamp] and [freq]
    are what [NtQueryPerformanceCounter] returns. *)
Definition get_position (h : created_stream) (want_qpctime : bool)
    (stamp freq : Z) : Z * option Z * HRESULT :=
  let s := h.(engine) in
  let pos := wrap64 (s.(written_frames) - s.(held_frames)) in
  let pos :=
    if h.(share) =? AUDCLNT_SHAREMODE_SHARED
    then wrap64 (pos * s.(fmt).(nBlockAlign)) else pos in
  (pos,
   if want_qpctime
   then Some (Z.quot (to_int64 (stamp * 10000000)) freq) else None,
   S_OK).

(** [get_frequency]: [*params->freq] and [params->result]. *)
Definition get_frequency (h : created_stream) : Z * HRESULT :=
  let s := h.(engine) in
  (if h.(share) =? AUDCLNT_SHAREMODE_SHARED
   then wrap64 (s.(fmt).(nSamplesPerSec) * s.(fmt).(nBlockAlign))
   else s.(fmt).(nSamplesPerSec),
   S_OK).

(** What CoreAudio answers to the latency queries: the device's latency,
    and for each of its streams the status and the value of the
    stream's. *)
Record latency_calls : Type := {
  DeviceLatency_sc : Z;
  DeviceLatency : Z;
  Streams_size_sc : Z;
  Streams_malloc_ok : bool;
  Streams_sc : Z;
  StreamLatency : list (Z * Z)
}.

(** [ca_get_max_stream_latency]: the result and [*max] when it is
    set. *)
Definition ca_get_max_stream_latency (c : latency_calls)
    : DEVICE_HRESULT * option Z :=
  if negb (c.(Streams_size_sc) =? noErr)
  then (osstatus_to_hresult c.(Streams_size_sc), None)
  else if negb c.(Streams_malloc_ok) then (HR E_OUTOFMEMORY, None)
  else if negb (c.(Streams_sc) =? noErr)
  then (osstatus_to_hresult c.(Streams_sc), None)
  else
    (HR S_OK,
     Some (fold_left
             (fun max '(sc, latency) =>
                if negb (sc =? noErr) then max
                else if latency >? max then latency else max)
             c.(StreamLatency) 0)).

(** [get_latency]: [params->result] and [*params->latency] when it is
    set. *)
Definition get_latency (h : created_stream) (c : latency_calls)
    : DEVICE_HRESULT * option Z :=
  let s := h.(engine) in
  if negb (c.(DeviceLatency_sc) =? noErr)
  then (osstatus_to_hresult c.(DeviceLatency_sc), None)
  else
    match ca_get_max_stream_latency c with
    | (result, Some stream_latency) =>
        if DEVICE_FAILED result then (result, None)
        else
          let latency := wrap32 (c.(DeviceLatency) + stream_latency) in
          (HR S_OK,
           Some (wrap32 (muldiv (to_int32 latency) 10000000
                                (to_int32 s.(fmt).(nSamplesPerSec))
                         + wrap32 (h.(period_ms) * 10000))))
    | (result, None) => (result, None)
    end.

End Stream.

Arguments created_stream : clear implicits.
Arguments create_stream_calls : clear implicits.

(** * The storage of the rings *)

Section Storage.

Context {conv_state : Type}.

(** The raw capture ring with its storage, as [create_stream] and the
    callbacks leave them: [cap_buffer] has
    [cap_bufsize_frames * nBlockAlign] bytes, a UINT32, and [wrap_buffer]
    room for [wrap_bufsize_frames] frames. *)
Definition cap_storage_ok (s : coreaudio_stream conv_state) : Prop :=
  cap_ring_inv s
  /\ s.(cap_bufsize_frames) <= 2147483647
  /\ 0 < s.(fmt).(nBlockAlign) < 65536
  /\ s.(cap_bufsize_frames) * s.(fmt).(nBlockAlign) < 4294967296
  /\ Z.of_nat (length s.(cap_buffer))
     = s.(cap_bufsize_frames) * s.(fmt).(nBlockAlign)
  /\ 0 <= s.(wrap_bufsize_frames)
  /\ s.(wrap_bufsize_frames) * s.(fmt).(nBlockAlign)
     <= Z.of_nat (length s.(wrap_buffer)).

(** The scratch buffer of the render side has room for
    [tmp_buffer_frames] frames. *)
Definition tmp_storage_ok (s : coreaudio_stream conv_state) : Prop :=
  0 <= s.(tmp_buffer_frames)
  /\ s.(tmp_buffer_frames) * s.(fmt).(nBlockAlign)
     <= Z.of_nat (length (tmp_bytes s)).

(** The client storing [d] through the pointer [get_render_buffer] handed
    back. *)
Definition client_write (s : coreaudio_stream conv_state) (p : data_ptr)
    (d : list Z) : coreaudio_stream conv_state :=
  match p with
  | PtrLocal offs_bytes =>
      set_local_buffer s
        (memcpy s.(local_buffer) offs_bytes d 0 (Z.of_nat (length d)))
  | PtrTmp =>
      set_tmp_buffer s
        (Some (memcpy (tmp_bytes s) 0 d 0 (Z.of_nat (length d))))
  end.

End Storage.

(** ** Concrete streams *)

(** A converter between equal rates: it asks for as many frames as it is
    to produce and hands on what it is given. *)
Definition copy_converter (c : unit) (wanted : Z) : conv_run unit :=
  ConvPull wanted (fun n data => ConvDone noErr n data tt).

(** A converter that fails once it has been served. *)
Definition failing_converter (c : unit) (wanted : Z) : conv_run unit :=
  ConvPull wanted (fun n data => ConvDone 1 0 [] tt).

(** Mono 8-bit PCM at 48 kHz. *)
Definition fmt_pcm8 : WAVEFORMATEX :=
  {| wFormatTag := WAVE_FORMAT_PCM; nChannels := 1; nSamplesPerSec := 48000;
     nBlockAlign := 1; wBitsPerSample := 8; SubFormat_is_PCM := false |}.

(** Stereo 16-bit PCM at 48 kHz. *)
Definition fmt_pcm16 : WAVEFORMATEX :=
  {| wFormatTag := WAVE_FORMAT_PCM; nChannels := 2; nSamplesPerSec := 48000;
     nBlockAlign := 4; wBitsPerSample := 16; SubFormat_is_PCM := false |}.

(** A playing render stream of 4 frames that holds 2 of them from
    offset 1 on, with an indirect acquisition of 2 frames outstanding. *)
Definition render_small : coreaudio_stream unit :=
  {| converter := tt; dev_desc_mSampleRate := 48000; flow := eRender;
     playing := true; period_frames := 2; bufsize_frames := 4;
     resamp_bufsize_frames := 0; lcl_offs_frames := 1; held_frames := 2;
     wri_offs_frames := 3; tmp_buffer_frames := 2;
     cap_bufsize_frames := 0; cap_offs_frames := 0; cap_held_frames := 0;
     wrap_bufsize_frames := 0; written_frames := 7; getbuf_last := -2;
     fmt := fmt_pcm8; local_buffer := [10; 11; 12; 13]; cap_buffer := [];
     wrap_buffer := []; resamp_buffer := []; tmp_buffer := Some [41; 42] |}.

(** A render stream of 480 frames of stereo 16-bit PCM as [create_stream]
    leaves it. *)
Definition render_480_fresh : coreaudio_stream unit :=
  {| converter := tt; dev_desc_mSampleRate := 48000; flow := eRender;
     playing := false; period_frames := 160; bufsize_frames := 480;
     resamp_bufsize_frames := 0; lcl_offs_frames := 0; held_frames := 0;
     wri_offs_frames := 0; tmp_buffer_frames := 0;
     cap_bufsize_frames := 0; cap_offs_frames := 0; cap_held_frames := 0;
     wrap_bufsize_frames := 0; written_frames := 0; getbuf_last := 0;
     fmt := fmt_pcm16; local_buffer := alloc 1920; cap_buffer := [];
     wrap_buffer := []; resamp_buffer := []; tmp_buffer := None |}.

(** The same stream, playing, once the client has written 481 frames and
    the hardware has played 479 of them: 2 frames are held, from offset
    479 round to offset 1, and nothing is outstanding. *)
Definition render_480 : coreaudio_stream unit :=
  {| converter := tt; dev_desc_mSampleRate := 48000; flow := eRender;
     playing := true; period_frames := 160; bufsize_frames := 480;
     resamp_bufsize_frames := 0; lcl_offs_frames := 479; held_frames := 2;
     wri_offs_frames := 1; tmp_buffer_frames := 0;
     cap_bufsize_frames := 0; cap_offs_frames := 0; cap_held_frames := 0;
     wrap_bufsize_frames := 0; written_frames := 481; getbuf_last := 0;
     fmt := fmt_pcm16; local_buffer := alloc 1920; cap_buffer := [];
     wrap_buffer := []; resamp_buffer := []; tmp_buffer := None |}.

(** A stopped capture stream of 5 frames with a period of 4 and a raw
    ring of 16 frames, with nothing in its rings and both of them zeroed.
    ([create_stream] gives the two rings the same number of frames at
    equal rates and fills an 8-bit ring with 128: [capture_11_created]
    below is a stream it makes.) *)
Definition capture_fresh : coreaudio_stream unit :=
  {| converter := tt; dev_desc_mSampleRate := 48000; flow := eCapture;
     playing := false; period_frames := 4; bufsize_frames := 5;
     resamp_bufsize_frames := 0; lcl_offs_frames := 0; held_frames := 0;
     wri_offs_frames := 0; tmp_buffer_frames := 0;
     cap_bufsize_frames := 16; cap_offs_frames := 0; cap_held_frames := 0;
     wrap_bufsize_frames := 0; written_frames := 0; getbuf_last := 0;
     fmt := fmt_pcm8; local_buffer := alloc 5; cap_buffer := alloc 16;
     wrap_buffer := []; resamp_buffer := []; tmp_buffer := None |}.

(** The same stream after the hardware has delivered 17 frames in three
    callbacks and the client has read one period and asked for the
    padding: the client ring holds 4 frames from offset 4 on, the raw
    ring 9 frames. *)
Definition capture_small : coreaudio_stream unit :=
  {| converter := tt; dev_desc_mSampleRate := 48000; flow := eCapture;
     playing := true; period_frames := 4; bufsize_frames := 5;
     resamp_bufsize_frames := 4; lcl_offs_frames := 4; held_frames := 4;
     wri_offs_frames := 3; tmp_buffer_frames := 0;
     cap_bufsize_frames := 16; cap_offs_frames := 8; cap_held_frames := 9;
     wrap_bufsize_frames := 4; written_frames := 4; getbuf_last := 0;
     fmt := fmt_pcm8; local_buffer := [6; 7; 8; 4; 5];
     cap_buffer := [17; 2; 3; 4; 5; 6; 7; 8; 9; 10; 11; 12; 13; 14; 15; 16];
     wrap_buffer := [14; 15; 16; 17]; resamp_buffer := [5; 6; 7; 8];
     tmp_buffer := None |}.

(** The calls and the callback that lead from [render_480_fresh] to
    [render_480]. *)
Definition render_480_history : option (coreaudio_stream unit) :=
  let s := fst (start render_480_fresh) in
  match get_render_buffer copy_converter 0 true s 480 with
  | None => None
  | Some (s, _, _) =>
      let s := fst (release_render_buffer s 480 0) in
      let s := fst (fst (ca_render_cb s 479 (alloc 1916))) in
      match get_render_buffer copy_converter 0 true s 1 with
      | None => None
      | Some (s, _, _) => Some (fst (release_render_buffer s 1 0))
      end
  end.

(** The calls and callbacks that lead from [capture_fresh] to
    [capture_small]. *)
Definition capture_small_history : option (coreaudio_stream unit) :=
  let s := fst (start capture_fresh) in
  let s := fst (ca_capture_cb s 9 noErr [1; 2; 3; 4; 5; 6; 7; 8; 9]) in
  match get_capture_buffer copy_converter 16 s true true 0 1 with
  | None => None
  | Some (s, _) =>
      let s := fst (release_capture_buffer s 4) in
      let s := fst (ca_capture_cb s 4 noErr [10; 11; 12; 13]) in
      match get_current_padding_nolock copy_converter 16 s with
      | None => None
      | Some (s, _) => Some (fst (ca_capture_cb s 4 noErr [14; 15; 16; 17]))
      end
  end.

(** The same capture stream with a capture acquisition of one period
    outstanding. *)
Definition capture_acquired : coreaudio_stream unit :=
  set_getbuf_last capture_small 4.

(** A client writing [n] frames: get, then release. *)
Definition acquire_release (s : coreaudio_stream unit) (n : Z)
    : option (coreaudio_stream unit * HRESULT) :=
  match get_render_buffer copy_converter 0 true s n with
  | Some (s1, S_OK, _) => Some (release_render_buffer s1 n 0)
  | Some (s1, hr, _) => Some (s1, hr)
  | None => None
  end.

(** [render_480_fresh] after three writes of 160 frames. *)
Definition render_480_full : option (coreaudio_stream unit) :=
  match acquire_release render_480_fresh 160 with
  | Some (s, _) =>
      match acquire_release s 160 with
      | Some (s, _) =>
          match acquire_release s 160 with
          | Some (s, _) => Some s
          | None => None
          end
      | None => None
      end
  | None => None
  end.

(** A capture stream at 48 kHz with a period of 480 frames on hardware
    running at 44.1 kHz. *)
Definition capture_441 : coreaudio_stream unit :=
  {| converter := tt; dev_desc_mSampleRate := 44100; flow := eCapture;
     playing := false; period_frames := 480; bufsize_frames := 4800;
     resamp_bufsize_frames := 0; lcl_offs_frames := 0; held_frames := 0;
     wri_offs_frames := 0; tmp_buffer_frames := 0;
     cap_bufsize_frames := 4410; cap_offs_frames := 0; cap_held_frames := 0;
     wrap_bufsize_frames := 0; written_frames := 0; getbuf_last := 0;
     fmt := fmt_pcm16; local_buffer := alloc 19200; cap_buffer := alloc 17640;
     wrap_buffer := []; resamp_buffer := []; tmp_buffer := None |}.

(** ** Concrete devices, formats and calls *)

(** Stereo 16-bit PCM at 48 kHz as a client passes it. *)
Definition fmt_pcm16_client : WAVEFORMATEXTENSIBLE :=
  {| Format := fmt_pcm16; nAvgBytesPerSec := 192000; cbSize := 0;
     wValidBitsPerSample := 0; dwChannelMask := 0;
     SubFormat_is_IEEE_FLOAT := false; SubFormat_is_MULAW := false;
     SubFormat_is_ALAW := false |}.

(** Stereo 32-bit float at 48 kHz, extensible. *)
Definition fmt_float_stereo : WAVEFORMATEXTENSIBLE :=
  {| Format :=
       {| wFormatTag := WAVE_FORMAT_EXTENSIBLE; nChannels := 2;
          nSamplesPerSec := 48000; nBlockAlign := 8; wBitsPerSample := 32;
          SubFormat_is_PCM := false |};
     nAvgBytesPerSec := 384000; cbSize := 22; wValidBitsPerSample := 32;
     dwChannelMask := KSAUDIO_SPEAKER_STEREO;
     SubFormat_is_IEEE_FLOAT := true; SubFormat_is_MULAW := false;
     SubFormat_is_ALAW := false |}.

(** An output device with a left and a right channel, named "Out". *)
Definition stereo_output : AudioDevice :=
  {| AudioDeviceID := 70;
     StreamConfiguration_size_sc := noErr; StreamConfiguration_sc := noErr;
     StreamConfiguration := [2];
     Name_sc := noErr; Name := [79; 117; 116];
     PreferredChannelLayout_size_sc := noErr;
     PreferredChannelLayout_sc := noErr;
     PreferredChannelLayout :=
       {| mChannelLayoutTag := kAudioChannelLayoutTag_UseChannelDescriptions;
          mChannelDescriptions :=
            [kAudioChannelLabel_Left; kAudioChannelLabel_Right] |};
     NominalSampleRate_sc := noErr; NominalSampleRate := 48000 |}.

(** An input device seen from the output side: it has no output
    channel. *)
Definition input_only : AudioDevice :=
  {| AudioDeviceID := 71;
     StreamConfiguration_size_sc := noErr; StreamConfiguration_sc := noErr;
     StreamConfiguration := [0];
     Name_sc := noErr; Name := [77; 105; 99];
     PreferredChannelLayout_size_sc := 1; PreferredChannelLayout_sc := 1;
     PreferredChannelLayout :=
       {| mChannelLayoutTag := 0; mChannelDescriptions := [] |};
     NominalSampleRate_sc := noErr; NominalSampleRate := 44100 |}.

(** A second output device, named "USB 2", whose layout cannot be
    read. *)
Definition usb_output : AudioDevice :=
  {| AudioDeviceID := 72;
     StreamConfiguration_size_sc := noErr; StreamConfiguration_sc := noErr;
     StreamConfiguration := [1; 1];
     Name_sc := noErr; Name := [85; 83; 66; 32; 50];
     PreferredChannelLayout_size_sc := 1; PreferredChannelLayout_sc := 1;
     PreferredChannelLayout :=
       {| mChannelLayoutTag := 0; mChannelDescriptions := [] |};
     NominalSampleRate_sc := noErr; NominalSampleRate := 44100 |}.

(** A system with these three devices, the last one the default. *)
Definition three_devices : AudioSystemObject :=
  {| DefaultDevice_sc := noErr; DefaultDevice := 72;
     Devices_size_sc := noErr; Devices_sc := noErr;
     Devices := [stereo_output; input_only; usb_output] |}.

(** CoreAudio accepting everything, with hardware at 44.1 kHz. *)
Definition setup_succeeds : setup_calls :=
  {| GetStreamFormat_sc := noErr; hardware_mSampleRate := 44100;
     SetStreamFormat_sc := noErr; AudioConverterNew_sc := noErr |}.

Definition audiounit_succeeds : audiounit_calls :=
  {| AudioComponentFindNext_ok := true; AudioComponentInstanceNew_sc := noErr;
     EnableIO_input_sc := noErr; EnableIO_output_sc := noErr;
     CurrentDevice_sc := noErr |}.

Definition create_stream_succeeds : create_stream_calls unit :=
  {| calloc_ok := true; clone_format_ok := true;
     audiounit := audiounit_succeeds; setup := setup_succeeds;
     new_converter := tt; SetCallback_sc := noErr;
     AudioUnitInitialize_sc := noErr; AudioOutputUnitStart_sc := noErr;
     NtAllocateVirtualMemory_ok := true; malloc_cap_buffer := alloc |}.

(** The render stream of 480 frames in shared mode. *)
Definition render_480_shared : created_stream unit :=
  {| engine := render_480; share := AUDCLNT_SHAREMODE_SHARED;
     period_ms := 3; dev_id := 70 |}.

(** Latency answers: 32 frames for the device, 16 and 24 for two of its
    three streams. *)
Definition latency_answers : latency_calls :=
  {| DeviceLatency_sc := noErr; DeviceLatency := 32;
     Streams_size_sc := noErr; Streams_malloc_ok := true;
     Streams_sc := noErr; StreamLatency := [(noErr, 16); (1, 99); (noErr, 24)] |}.

(** A converter between equal rates that never produces more than it was
    asked for. *)
Definition clipping_converter (c : unit) (wanted : Z) : conv_run unit :=
  ConvPull wanted
    (fun n data =>
       let produced := Z.max 0 (Z.min n wanted) in
       ConvDone noErr produced data tt).


(** ** Streams made by [create_stream] *)

(** CoreAudio accepting everything, with hardware at 48 kHz. *)
Definition setup_48000 : setup_calls :=
  {| GetStreamFormat_sc := noErr; hardware_mSampleRate := 48000;
     SetStreamFormat_sc := noErr; AudioConverterNew_sc := noErr |}.

Definition create_stream_48000 : create_stream_calls unit :=
  {| calloc_ok := true; clone_format_ok := true;
     audiounit := audiounit_succeeds; setup := setup_48000;
     new_converter := tt; SetCallback_sc := noErr;
     AudioUnitInitialize_sc := noErr; AudioOutputUnitStart_sc := noErr;
     NtAllocateVirtualMemory_ok := true; malloc_cap_buffer := alloc |}.

(** Mono 8-bit PCM at 48 kHz as a client passes it. *)
Definition fmt_pcm8_client : WAVEFORMATEXTENSIBLE :=
  {| Format := fmt_pcm8; nAvgBytesPerSec := 48000; cbSize := 0;
     wValidBitsPerSample := 0; dwChannelMask := 0;
     SubFormat_is_IEEE_FLOAT := false; SubFormat_is_MULAW := false;
     SubFormat_is_ALAW := false |}.

(** [*params->stream] of a [create_stream] that succeeds. *)
Definition created_engine
    (r : option (DEVICE_HRESULT * option (created_stream unit)))
    : option (coreaudio_stream unit) :=
  match r with
  | Some (HR S_OK, Some h) => Some (engine h)
  | _ => None
  end.

(** The capture stream [create_stream] makes in shared mode for a period
    of 83.3 microseconds and a duration of 229.2 microseconds: 4 and 11
    frames at 48 kHz. *)
Definition capture_11_created : option (coreaudio_stream unit) :=
  created_engine
    (create_stream create_stream_48000 fmt_pcm8_client eCapture
       AUDCLNT_SHAREMODE_SHARED 71 833 2292).

(** The stream it is: both rings have 11 frames, and the 8-bit client
    ring is filled with silence. *)
Definition capture_11_fresh : coreaudio_stream unit :=
  {| converter := tt; dev_desc_mSampleRate := 48000; flow := eCapture;
     playing := false; period_frames := 4; bufsize_frames := 11;
     resamp_bufsize_frames := 0; lcl_offs_frames := 0; held_frames := 0;
     wri_offs_frames := 0; tmp_buffer_frames := 0;
     cap_bufsize_frames := 11; cap_offs_frames := 0; cap_held_frames := 0;
     wrap_bufsize_frames := 0; written_frames := 0; getbuf_last := 0;
     fmt := fmt_pcm8; local_buffer := repeat 128 11; cap_buffer := alloc 11;
     wrap_buffer := []; resamp_buffer := []; tmp_buffer := None |}.

(** That stream, started, once the hardware has delivered 9 frames. *)
Definition capture_11 : coreaudio_stream unit :=
  fst (ca_capture_cb (fst (start capture_11_fresh)) 9 noErr
         [1; 2; 3; 4; 5; 6; 7; 8; 9]).

(** A capture callback that delivers [d], then a padding query. *)
Definition deliver (s : coreaudio_stream unit) (d : list Z)
    : option (coreaudio_stream unit) :=
  let s := fst (ca_capture_cb s (Z.of_nat (length d)) noErr d) in
  match get_current_padding_nolock copy_converter 16 s with
  | Some (s, _) => Some s
  | None => None
  end.

Fixpoint deliveries (s : coreaudio_stream unit) (ds : list (list Z))
    : option (coreaudio_stream unit) :=
  match ds with
  | [] => Some s
  | d :: ds' =>
      match deliver s d with
      | Some s' => deliveries s' ds'
      | None => None
      end
  end.

(** The created stream, started, after six deliveries of 29 frames in
    all, none of which the client has read. *)
Definition capture_11_history : option (coreaudio_stream unit) :=
  deliveries (fst (start capture_11_fresh))
    [[1; 2; 3; 4; 5; 6; 7; 8; 9]; [10; 11; 12; 13]; [14; 15; 16; 17];
     [18; 19; 20; 21]; [22; 23; 24; 25]; [26; 27; 28; 29]].

(** The capture stream [create_stream] makes for a period of 10
    microseconds, less than half a frame at 48 kHz. *)
Definition capture_0_created : option (coreaudio_stream unit) :=
  created_engine
    (create_stream create_stream_48000 fmt_pcm8_client eCapture
       AUDCLNT_SHAREMODE_SHARED 71 100 2292).

(** The stream it is: [period_frames] is 0. *)
Definition capture_0_fresh : coreaudio_stream unit :=
  {| converter := tt; dev_desc_mSampleRate := 48000; flow := eCapture;
     playing := false; period_frames := 0; bufsize_frames := 11;
     resamp_bufsize_frames := 0; lcl_offs_frames := 0; held_frames := 0;
     wri_offs_frames := 0; tmp_buffer_frames := 0;
     cap_bufsize_frames := 11; cap_offs_frames := 0; cap_held_frames := 0;
     wrap_bufsize_frames := 0; written_frames := 0; getbuf_last := 0;
     fmt := fmt_pcm8; local_buffer := repeat 128 11; cap_buffer := alloc 11;
     wrap_buffer := []; resamp_buffer := []; tmp_buffer := None |}.

(** That stream, started, once the hardware has delivered 3 frames. *)
Definition capture_0 : coreaudio_stream unit :=
  fst (ca_capture_cb (fst (start capture_0_fresh)) 3 noErr [1; 2; 3]).

(** ** More streams *)

(** The small render stream with nothing outstanding. *)
Definition render_small_idle : coreaudio_stream unit :=
  set_getbuf_last render_small 0.

(** The capture stream of the examples after the drain has run once
    more (its read offset is 7, see C2). *)
Definition capture_small_drained : coreaudio_stream unit :=
  Eval vm_compute in
    match capture_resample copy_converter 2 capture_small with
    | Some s => s
    | None => capture_small
    end.

(** The drained capture stream with an acquisition of one period
    outstanding. *)
Definition capture_drained_acquired : coreaudio_stream unit :=
  set_getbuf_last capture_small_drained 4.

(** * Properties *)

(** ** Machine integers *)

Lemma wrap32_small (x : Z) : 0 <= x < 4294967296 -> wrap32 x = x.
Proof. intros H. unfold wrap32. now apply Z.mod_small. Qed.

Lemma wrap64_small (x : Z) : 0 <= x < 18446744073709551616 -> wrap64 x = x.
Proof. intros H. unfold wrap64. now apply Z.mod_small. Qed.

Lemma wrap32_range (x : Z) : 0 <= wrap32 x < 4294967296.
Proof. unfold wrap32. apply Z.mod_pos_bound. lia. Qed.

Lemma to_int32_small (x : Z) : 0 <= x < 2147483648 -> to_int32 x = x.
Proof.
  intros H. unfold to_int32. rewrite wrap32_small by lia.
  destruct (Z.ltb_spec x 2147483648); lia.
Qed.

Lemma to_int32_neg (x : Z) : 0 < x <= 2147483648 -> to_int32 (- x) = - x.
Proof.
  intros H. unfold to_int32, wrap32.
  replace (- x) with (4294967296 - x + (-1) * 4294967296) by lia.
  rewrite Z.mod_add by lia. rewrite Z.mod_small by lia.
  destruct (Z.ltb_spec (4294967296 - x) 2147483648); lia.
Qed.

Lemma wrap32_to_int32 (x : Z) : wrap32 (to_int32 x) = wrap32 x.
Proof.
  unfold to_int32. destruct (Z.ltb_spec (wrap32 x) 2147483648).
  - apply wrap32_small. pose proof (wrap32_range x). lia.
  - unfold wrap32 at 1.
    replace (wrap32 x - 4294967296) with (wrap32 x + (-1) * 4294967296) by lia.
    rewrite Z.mod_add by lia. apply Z.mod_small, wrap32_range.
Qed.

Lemma min_spec (a b : Z) : min a b = Z.min a b.
Proof. unfold min. destruct (Z.ltb_spec a b); lia. Qed.

(** ** Memory *)

Lemma nth_splice {A : Type} (d : A) (pre mid post : list A) (i : nat) :
  nth i (pre ++ mid ++ post) d =
  if (i <? length pre)%nat then nth i pre d
  else if (i <? length pre + length mid)%nat then nth (i - length pre) mid d
  else nth (i - length pre - length mid) post d.
Proof.
  destruct (Nat.ltb_spec i (length pre)).
  - now apply app_nth1.
  - rewrite app_nth2 by lia.
    destruct (Nat.ltb_spec i (length pre + length mid)).
    + apply app_nth1. lia.
    + rewrite app_nth2 by lia. reflexivity.
Qed.

Lemma memcpy_length (dst src : list Z) (doff soff n : Z) :
  0 <= doff -> 0 <= n -> 0 <= soff ->
  doff + n <= Z.of_nat (length dst) ->
  soff + n <= Z.of_nat (length src) ->
  length (memcpy dst doff src soff n) = length dst.
Proof.
  intros. unfold memcpy.
  rewrite !length_app, !length_firstn, !length_skipn. lia.
Qed.

Lemma memcpy_byte_at (dst src : list Z) (doff soff n i : Z) :
  0 <= doff -> 0 <= n -> 0 <= soff ->
  doff + n <= Z.of_nat (length dst) ->
  soff + n <= Z.of_nat (length src) ->
  0 <= i ->
  byte_at (memcpy dst doff src soff n) i =
  if (doff <=? i) && (i <? doff + n) then byte_at src (soff + (i - doff))
  else byte_at dst i.
Proof.
  intros Hd Hn Hs Hdl Hsl Hi. unfold byte_at, memcpy.
  rewrite nth_splice, !length_firstn, !length_skipn.
  destruct (Z.leb_spec doff i) as [Hle|Hlt]; cbn [andb].
  - destruct (Nat.ltb_spec (Z.to_nat i) (Nat.min (Z.to_nat doff) (length dst))); [lia|].
    destruct (Z.ltb_spec i (doff + n)) as [Hin|Hout].
    + destruct (Nat.ltb_spec (Z.to_nat i)
                  (Nat.min (Z.to_nat doff) (length dst)
                   + Nat.min (Z.to_nat n) (length src - Z.to_nat soff))); [|lia].
      rewrite nth_firstn.
      destruct (Nat.ltb_spec
                  (Z.to_nat i - Nat.min (Z.to_nat doff) (length dst))
                  (Z.to_nat n)); [|lia].
      rewrite nth_skipn. f_equal. lia.
    + destruct (Nat.ltb_spec (Z.to_nat i)
                  (Nat.min (Z.to_nat doff) (length dst)
                   + Nat.min (Z.to_nat n) (length src - Z.to_nat soff))); [lia|].
      rewrite nth_skipn. f_equal. lia.
  - destruct (Nat.ltb_spec (Z.to_nat i) (Nat.min (Z.to_nat doff) (length dst))); [|lia].
    rewrite nth_firstn.
    destruct (Nat.ltb_spec (Z.to_nat i) (Z.to_nat doff)); [reflexivity|lia].
Qed.

Lemma memset_length (dst : list Z) (doff c n : Z) :
  0 <= doff -> 0 <= n -> doff + n <= Z.of_nat (length dst) ->
  length (memset dst doff c n) = length dst.
Proof.
  intros. unfold memset.
  rewrite !length_app, length_firstn, length_skipn, repeat_length. lia.
Qed.

Lemma memset_byte_at (dst : list Z) (doff c n i : Z) :
  0 <= doff -> 0 <= n -> doff + n <= Z.of_nat (length dst) -> 0 <= i ->
  byte_at (memset dst doff c n) i =
  if (doff <=? i) && (i <? doff + n) then c else byte_at dst i.
Proof.
  intros Hd Hn Hdl Hi. unfold byte_at, memset.
  rewrite nth_splice, length_firstn, repeat_length.
  destruct (Z.leb_spec doff i) as [Hle|Hlt]; cbn [andb].
  - destruct (Nat.ltb_spec (Z.to_nat i) (Nat.min (Z.to_nat doff) (length dst))); [lia|].
    destruct (Z.ltb_spec i (doff + n)) as [Hin|Hout].
    + destruct (Nat.ltb_spec (Z.to_nat i)
                  (Nat.min (Z.to_nat doff) (length dst) + Z.to_nat n)); [|lia].
      apply nth_repeat_lt. lia.
    + destruct (Nat.ltb_spec (Z.to_nat i)
                  (Nat.min (Z.to_nat doff) (length dst) + Z.to_nat n)); [lia|].
      rewrite nth_skipn. f_equal. lia.
  - destruct (Nat.ltb_spec (Z.to_nat i) (Nat.min (Z.to_nat doff) (length dst))); [|lia].
    rewrite nth_firstn.
    destruct (Nat.ltb_spec (Z.to_nat i) (Z.to_nat doff)); [reflexivity|lia].
Qed.

(** ** Wrap-around arithmetic *)

(** Case analysis on the integer comparisons of the goal. *)
Ltac zcmp :=
  repeat (match goal with
          | |- context [?a <? ?b] => destruct (Z.ltb_spec a b)
          | |- context [?a <=? ?b] => destruct (Z.leb_spec a b)
          | |- context [?a >? ?b] => destruct (Z.gtb_spec a b)
          | |- context [?a >=? ?b] => destruct (Z.geb_spec a b)
          | |- context [?a =? ?b] => destruct (Z.eqb_spec a b)
          end; cbn [andb orb negb]).

(** Projections of updated streams. *)
Ltac stream_cbn :=
  cbn [converter dev_desc_mSampleRate flow playing period_frames
       bufsize_frames resamp_bufsize_frames lcl_offs_frames held_frames
       wri_offs_frames tmp_buffer_frames cap_bufsize_frames cap_offs_frames
       cap_held_frames wrap_bufsize_frames written_frames getbuf_last fmt
       local_buffer cap_buffer wrap_buffer resamp_buffer tmp_buffer
       set_converter set_playing set_resamp_bufsize_frames
       set_lcl_offs_frames set_held_frames set_wri_offs_frames
       set_tmp_buffer_frames set_cap_offs_frames set_cap_held_frames
       set_wrap_bufsize_frames set_written_frames set_getbuf_last
       set_local_buffer set_cap_buffer set_wrap_buffer set_resamp_buffer
       set_tmp_buffer].

Ltac stream_cbn_in H :=
  cbn [converter dev_desc_mSampleRate flow playing period_frames
       bufsize_frames resamp_bufsize_frames lcl_offs_frames held_frames
       wri_offs_frames tmp_buffer_frames cap_bufsize_frames cap_offs_frames
       cap_held_frames wrap_bufsize_frames written_frames getbuf_last fmt
       local_buffer cap_buffer wrap_buffer resamp_buffer tmp_buffer
       set_converter set_playing set_resamp_bufsize_frames
       set_lcl_offs_frames set_held_frames set_wri_offs_frames
       set_tmp_buffer_frames set_cap_offs_frames set_cap_held_frames
       set_wrap_bufsize_frames set_written_frames set_getbuf_last
       set_local_buffer set_cap_buffer set_wrap_buffer set_resamp_buffer
       set_tmp_buffer] in H.

(** [a * c <= b * c] from [a <= b] and [0 <= c], as a hypothesis: the
    products of the byte offsets are then atoms for [lia]. *)
Ltac mul_le a b c :=
  let H := fresh "Hmul" in
  assert (H : a * c <= b * c) by (apply Z.mul_le_mono_nonneg_r; lia).

Lemma mod_below (x m : Z) : - m <= x < 0 -> x mod m = x + m.
Proof.
  intros H. replace x with (x + m + (-1) * m) at 1 by lia.
  rewrite Z.mod_add by lia. apply Z.mod_small. lia.
Qed.

Lemma mod_above (x m : Z) : m <= x < 2 * m -> x mod m = x - m.
Proof.
  intros H. replace x with (x - m + 1 * m) at 1 by lia.
  rewrite Z.mod_add by lia. apply Z.mod_small. lia.
Qed.

(** The wrap copy: [src_bytes] bytes of [src] land in [dst] from
    [dst_offs] on, going round the end of [dst]. *)
Lemma ca_wrap_buffer_spec (dst src : list Z) (dst_offs dst_bytes src_bytes : Z) :
  Z.of_nat (length dst) = dst_bytes -> dst_bytes < 4294967296 ->
  0 <= dst_offs < dst_bytes ->
  0 <= src_bytes <= dst_bytes ->
  src_bytes <= Z.of_nat (length src) ->
  length (ca_wrap_buffer dst dst_offs dst_bytes src src_bytes) = length dst
  /\ forall i, 0 <= i < dst_bytes ->
       byte_at (ca_wrap_buffer dst dst_offs dst_bytes src src_bytes) i =
       if (i - dst_offs) mod dst_bytes <? src_bytes
       then byte_at src ((i - dst_offs) mod dst_bytes)
       else byte_at dst i.
Proof.
  intros Hlen Hmax Hoffs Hsrc Hsl. unfold ca_wrap_buffer.
  rewrite (wrap32_small (dst_bytes - dst_offs)) by lia.
  destruct (Z.ltb_spec (dst_bytes - dst_offs) src_bytes) as [Hwrap|Hfit].
  - assert (Hl1 : length (memcpy dst dst_offs src 0 (dst_bytes - dst_offs))
                  = length dst) by (apply memcpy_length; lia).
    split.
    + rewrite memcpy_length; [exact Hl1|lia..].
    + intros i Hi.
      rewrite memcpy_byte_at by lia.
      rewrite memcpy_byte_at by lia.
      destruct (Z.leb_spec 0 i); [|lia]. cbn [andb].
      destruct (Z.ltb_spec i (0 + (src_bytes - (dst_bytes - dst_offs)))).
      * rewrite mod_below by lia.
        destruct (Z.ltb_spec (i - dst_offs + dst_bytes) src_bytes); [|lia].
        f_equal. lia.
      * destruct (Z.leb_spec dst_offs i); cbn [andb].
        -- destruct (Z.ltb_spec i (dst_offs + (dst_bytes - dst_offs))); [|lia].
           rewrite Z.mod_small by lia.
           destruct (Z.ltb_spec (i - dst_offs) src_bytes); [|lia].
           f_equal.
        -- rewrite mod_below by lia.
           destruct (Z.ltb_spec (i - dst_offs + dst_bytes) src_bytes); [lia|].
           reflexivity.
  - split.
    + apply memcpy_length; lia.
    + intros i Hi. rewrite memcpy_byte_at by lia.
      destruct (Z.leb_spec dst_offs i); cbn [andb].
      * rewrite Z.mod_small by lia.
        destruct (Z.ltb_spec i (dst_offs + src_bytes));
          destruct (Z.ltb_spec (i - dst_offs) src_bytes); try lia; reflexivity.
      * rewrite mod_below by lia.
        destruct (Z.ltb_spec (i - dst_offs + dst_bytes) src_bytes); [lia|].
        reflexivity.
Qed.

Section Properties.

Context {conv_state : Type}.
Variable AudioConverterFillComplexBuffer : conv_state -> Z -> conv_run conv_state.

Local Abbreviation stream := (coreaudio_stream conv_state).

(** ** The render callback *)

Lemma silence_byte_cases (f : WAVEFORMATEX) :
  let pcm := wFormatTag f = WAVE_FORMAT_PCM
             \/ (wFormatTag f = WAVE_FORMAT_EXTENSIBLE /\ SubFormat_is_PCM f = true) in
  (pcm /\ wBitsPerSample f = 8 -> silence_byte f = 128)
  /\ (~ (pcm /\ wBitsPerSample f = 8) -> silence_byte f = 0).
Proof.
  unfold silence_byte. cbn zeta.
  destruct (Z.eqb_spec (wFormatTag f) WAVE_FORMAT_PCM) as [Hp|Hp];
    destruct (Z.eqb_spec (wFormatTag f) WAVE_FORMAT_EXTENSIBLE) as [He|He];
    destruct (SubFormat_is_PCM f);
    destruct (Z.eqb_spec (wBitsPerSample f) 8) as [Hb|Hb];
    cbn; split; intros H; try reflexivity; try tauto;
    try (exfalso; apply H; tauto);
    try (destruct H as [[?|[? ?]] ?]; congruence).
Qed.

(** C3.  A render callback for [nframes] frames on a playing stream copies
    [min nframes held_frames] frames out of the ring from the read offset
    on, going round the end of the ring, advances the read offset by that
    many frames modulo [bufsize_frames], takes them off [held_frames] and
    fills the rest of the destination with silence; on a stream that is
    not playing the stream is left as it is and the whole destination is
    silence.  The silence byte is 128 for 8-bit PCM and 0 for every other
    format. *)
Theorem ca_render_cb_spec (s : stream) (nframes : Z) (data : list Z) :
  ring_inv s -> sizes_ok s ->
  0 <= nframes ->
  nframes * nBlockAlign (fmt s) < 4294967296 ->
  Z.of_nat (length data) = nframes * nBlockAlign (fmt s) ->
  let ba := nBlockAlign (fmt s) in
  let n := Z.min nframes (held_frames s) in
  let '(s', out, sc) := ca_render_cb s nframes data in
  sc = noErr
  /\ length out = length data
  /\ (playing s = true ->
      s' = set_held_frames
             (set_lcl_offs_frames s
                ((lcl_offs_frames s + n) mod bufsize_frames s))
             (held_frames s - n)
      /\ forall i, 0 <= i < nframes * ba ->
           byte_at out i =
           if i <? n * ba
           then byte_at (local_buffer s)
                  ((lcl_offs_frames s * ba + i) mod (bufsize_frames s * ba))
           else silence_byte (fmt s))
  /\ (playing s = false ->
      s' = s
      /\ forall i, 0 <= i < nframes * ba -> byte_at out i = silence_byte (fmt s))
  /\ (let pcm := wFormatTag (fmt s) = WAVE_FORMAT_PCM
                 \/ (wFormatTag (fmt s) = WAVE_FORMAT_EXTENSIBLE
                     /\ SubFormat_is_PCM (fmt s) = true) in
      (pcm /\ wBitsPerSample (fmt s) = 8 -> silence_byte (fmt s) = 128)
      /\ (~ (pcm /\ wBitsPerSample (fmt s) = 8) -> silence_byte (fmt s) = 0)).
Proof.
  intros (HB & Hheld & Hlcl & Hwri & Hinv) (HBmax & Hper & Hba & HBB & Hlen)
         Hn HFB Hdata ba n.
  unfold ca_render_cb. fold ba. rewrite min_spec. fold n.
  set (B := bufsize_frames s) in *.
  set (lcl := lcl_offs_frames s) in *.
  set (held := held_frames s) in *.
  set (c := silence_byte (fmt s)).
  assert (Hn0 : 0 <= n <= nframes) by (unfold n; lia).
  assert (Hnh : n <= held) by (unfold n; lia).
  assert (HLB : 0 <= lcl * ba /\ lcl * ba + (B - lcl) * ba = B * ba
                /\ lcl * ba < B * ba) by nia.
  assert (HNB : 0 <= n * ba /\ n * ba <= nframes * ba /\ n * ba <= B * ba) by nia.
  assert (HFN : (nframes - n) * ba = nframes * ba - n * ba) by ring.
  assert (Hnf : nframes < 4294967296) by nia.
  destruct (playing s) eqn:Hplay.
  - (* playing *)
    rewrite (wrap32_small (lcl * ba)) by lia.
    rewrite (wrap32_small (n * ba)) by lia.
    rewrite (wrap32_small (B - lcl)) by lia.
    rewrite (wrap32_small ((B - lcl) * ba)) by lia.
    rewrite (wrap32_small (lcl + n)) by lia.
    rewrite (wrap32_small (held - n)) by lia.
    set (data1 := if n * ba >? (B - lcl) * ba then _ else _).
    assert (Hd1 : length data1 = length data
                  /\ forall i, 0 <= i < nframes * ba ->
                       byte_at data1 i =
                       if i <? n * ba
                       then byte_at (local_buffer s) ((lcl * ba + i) mod (B * ba))
                       else byte_at data i).
    { unfold data1. destruct (Z.gtb_spec (n * ba) ((B - lcl) * ba)) as [Hw|Hf].
      - assert (Hl1 : length (memcpy data 0 (local_buffer s) (lcl * ba)
                                     ((B - lcl) * ba)) = length data)
          by (apply memcpy_length; lia).
        split.
        + rewrite memcpy_length; [exact Hl1|lia..].
        + intros i Hi. rewrite memcpy_byte_at by lia.
          rewrite memcpy_byte_at by lia.
          destruct (Z.ltb_spec (lcl * ba + i) (B * ba));
            [rewrite Z.mod_small by lia|
             destruct (Z.ltb_spec i (n * ba));
             [rewrite mod_above by lia|]];
            zcmp; try lia; try reflexivity; f_equal; lia.
      - split.
        + apply memcpy_length; lia.
        + intros i Hi. rewrite memcpy_byte_at by lia.
          destruct (Z.ltb_spec i (n * ba));
            [rewrite Z.mod_small by lia|];
            zcmp; try lia; try reflexivity; f_equal; lia. }
    destruct Hd1 as [Hl1 Hb1].
    split; [reflexivity|].
    unfold silence_buffer. cbn [fmt set_held_frames set_lcl_offs_frames].
    fold ba. fold c.
    destruct (Z.gtb_spec nframes n) as [Hs|Hs].
    + rewrite (wrap32_small (nframes - n)) by lia.
      rewrite (wrap32_small ((nframes - n) * ba)) by lia.
      split; [rewrite memset_length; [exact Hl1|lia..]|].
      split; [|split; [discriminate|apply silence_byte_cases]].
      intros _. split; [reflexivity|].
      intros i Hi. rewrite memset_byte_at by lia.
      destruct (Z.leb_spec (n * ba) i); cbn [andb].
      * destruct (Z.ltb_spec i (n * ba + (nframes - n) * ba)); [|lia].
        destruct (Z.ltb_spec i (n * ba)); [lia|reflexivity].
      * rewrite Hb1 by lia. destruct (Z.ltb_spec i (n * ba)); [reflexivity|lia].
    + split; [exact Hl1|].
      split; [|split; [discriminate|apply silence_byte_cases]].
      intros _. split; [reflexivity|].
      intros i Hi. rewrite Hb1 by lia.
      assert (Hnn : n * ba = nframes * ba) by (f_equal; lia).
      destruct (Z.ltb_spec i (n * ba)); [reflexivity|lia].
  - (* stopped *)
    split; [reflexivity|].
    unfold silence_buffer. fold ba. fold c.
    destruct (Z.gtb_spec nframes 0) as [Hs|Hs].
    + rewrite Z.sub_0_r. rewrite (wrap32_small nframes) by nia.
      rewrite (wrap32_small (nframes * ba)) by nia.
      split; [apply memset_length; lia|].
      split; [discriminate|].
      split; [|apply silence_byte_cases].
      intros _. split; [reflexivity|].
      intros i Hi. rewrite memset_byte_at by lia.
      destruct (Z.leb_spec 0 i); [|lia]. cbn [andb].
      destruct (Z.ltb_spec i (0 + nframes * ba)); [reflexivity|lia].
    + split; [reflexivity|].
      split; [discriminate|].
      split; [|apply silence_byte_cases].
      intros _. split; [reflexivity|]. intros i Hi. nia.
Qed.

(** ** Releasing a render buffer *)

Lemma getbuf_last_magnitude (gl : Z) :
  -2147483648 <= gl <= 2147483647 ->
  wrap32 (if gl >=? 0 then gl else to_int32 (- gl)) = Z.abs gl.
Proof.
  intros H. destruct (Z.geb_spec gl 0).
  - rewrite wrap32_small; lia.
  - rewrite wrap32_to_int32. rewrite wrap32_small; lia.
Qed.

(** C4.  With an acquisition of magnitude [m] outstanding,
    [release_render_buffer] fails with AUDCLNT_E_INVALID_SIZE when
    [frames > m]; with [0 < frames <= m] it succeeds, advances the write
    offset by [frames] modulo [bufsize_frames], adds [frames] to
    [held_frames] and to [written_frames] and clears [getbuf_last], after
    wrap-copying the scratch buffer into the ring when the acquisition was
    indirect.  With nothing outstanding and [frames > 0] it fails with
    AUDCLNT_E_OUT_OF_ORDER. *)
Theorem release_render_buffer_spec (s : stream) (frames flags : Z) :
  ring_inv s -> sizes_ok s ->
  -2147483648 <= getbuf_last s <= 2147483647 ->
  0 <= frames < 4294967296 ->
  let m := acquired s in
  let ba := nBlockAlign (fmt s) in
  let '(s', hr) := release_render_buffer s frames flags in
  (getbuf_last s <> 0 -> frames > m ->
   hr = AUDCLNT_E_INVALID_SIZE /\ s' = s)
  /\ (getbuf_last s <> 0 -> 0 < frames <= m ->
      hr = S_OK
      /\ wri_offs_frames s' = (wri_offs_frames s + frames) mod bufsize_frames s
      /\ held_frames s' = held_frames s + frames
      /\ written_frames s' = wrap64 (written_frames s + frames)
      /\ getbuf_last s' = 0
      /\ lcl_offs_frames s' = lcl_offs_frames s
      /\ (0 <= getbuf_last s -> tmp_buffer s' = tmp_buffer s)
      /\ (getbuf_last s < 0 ->
          frames <= bufsize_frames s ->
          frames * ba <= Z.of_nat (length (tmp_bytes s)) ->
          length (local_buffer s') = length (local_buffer s)
          /\ forall i, 0 <= i < bufsize_frames s * ba ->
               let j := (i - wri_offs_frames s * ba) mod (bufsize_frames s * ba) in
               byte_at (local_buffer s') i =
               if j <? frames * ba then byte_at (tmp_bytes s') j
               else byte_at (local_buffer s) i))
  /\ (getbuf_last s = 0 -> 0 < frames ->
      hr = AUDCLNT_E_OUT_OF_ORDER /\ s' = s).
Proof.
  intros (HB & Hheld & Hlcl & Hwri & Hinv) (HBmax & Hper & Hba & HBB & Hlen)
         Hgl Hfr m ba.
  unfold release_render_buffer. fold ba.
  rewrite getbuf_last_magnitude by exact Hgl. fold (acquired s). fold m.
  assert (Hm0 : 0 <= m /\ (m = 0 <-> getbuf_last s = 0))
    by (unfold m, acquired; lia).
  destruct (Z.eqb_spec frames 0) as [Hz|Hnz].
  { repeat split; intros; lia. }
  destruct (Z.eqb_spec (getbuf_last s) 0) as [Hg0|Hg0].
  { repeat split; intros; try lia; try congruence. }
  destruct (Z.gtb_spec frames m) as [Hbig|Hok].
  { repeat split; intros; try lia; try congruence. }
  assert (Hm : m <= 2147483648) by (unfold m, acquired; lia).
  split; [intros; lia|]. split; [|intros; congruence].
  intros _ Hf.
  set (s1 := if negb (Z.land flags AUDCLNT_BUFFERFLAGS_SILENT =? 0) then _ else s).
  assert (Hs1 : getbuf_last s1 = getbuf_last s
                /\ wri_offs_frames s1 = wri_offs_frames s
                /\ bufsize_frames s1 = bufsize_frames s
                /\ held_frames s1 = held_frames s
                /\ written_frames s1 = written_frames s
                /\ lcl_offs_frames s1 = lcl_offs_frames s
                /\ (0 <= getbuf_last s -> tmp_buffer s1 = tmp_buffer s)
                /\ (getbuf_last s < 0 ->
                    frames <= bufsize_frames s ->
                    frames * ba <= Z.of_nat (length (tmp_bytes s)) ->
                    local_buffer s1 = local_buffer s
                    /\ length (tmp_bytes s1) = length (tmp_bytes s))).
  { unfold s1.
    destruct (negb (Z.land flags AUDCLNT_BUFFERFLAGS_SILENT =? 0));
      [destruct (Z.geb_spec (getbuf_last s) 0)|]; stream_cbn;
      repeat split; intros; try reflexivity; try lia.
    unfold tmp_bytes at 1. stream_cbn. unfold silence_buffer. fold ba.
    assert (0 <= frames * ba) by nia.
    assert (frames * ba < 4294967296) by nia.
    rewrite wrap32_small by lia. apply memset_length; lia. }
  destruct Hs1 as (Hg1 & Hw1 & Hb1 & Hh1 & Hwr1 & Hl1 & Ht1 & Hi1).
  stream_cbn. rewrite Hg1.
  destruct (Z.ltb_spec (getbuf_last s) 0) as [Hind|Hdir]; stream_cbn;
    rewrite ?Hh1, ?Hwr1, ?Hl1, ?Hw1, ?Hb1;
    rewrite (wrap32_small (wri_offs_frames s + frames)) by lia;
    rewrite (wrap32_small (held_frames s + frames)) by lia;
    repeat (split; [reflexivity|]).
  - split; [intros; lia|]. intros _ HfB Htmp.
    destruct (Hi1 Hind HfB Htmp) as [Hloc Htl].
    assert (HWB : 0 <= wri_offs_frames s * ba < bufsize_frames s * ba) by nia.
    assert (HFB : 0 <= frames * ba <= bufsize_frames s * ba) by nia.
    rewrite (wrap32_small (wri_offs_frames s * ba)) by lia.
    rewrite (wrap32_small (bufsize_frames s * ba)) by lia.
    rewrite (wrap32_small (frames * ba)) by lia.
    rewrite Hloc.
    match goal with
    | |- context [tmp_bytes (set_getbuf_last ?x ?v)] =>
        change (tmp_bytes (set_getbuf_last x v)) with (tmp_bytes s1)
    end.
    apply ca_wrap_buffer_spec; try lia.
  - split; [intros _; apply Ht1; lia|]. intros; lia.
Qed.

(** ** Releasing a capture buffer *)

(** C6.  With a capture acquisition of [n] frames outstanding,
    [release_capture_buffer] fails with AUDCLNT_E_INVALID_SIZE for every
    [done] other than [n] and 0; with [done = n] it succeeds, advances the
    read offset by [n] modulo [bufsize_frames], takes [n] off
    [held_frames], adds [n] to [written_frames] and clears [getbuf_last].
    With nothing outstanding and [done > 0] it fails with
    AUDCLNT_E_OUT_OF_ORDER. *)
Theorem release_capture_buffer_spec (s : stream) (done : Z) :
  0 <= done < 4294967296 ->
  0 <= getbuf_last s <= 2147483647 ->
  let n := getbuf_last s in
  let '(s', hr) := release_capture_buffer s done in
  (0 < n -> done <> n -> done <> 0 ->
   hr = AUDCLNT_E_INVALID_SIZE /\ s' = s)
  /\ (0 < n -> done = n ->
      hr = S_OK
      /\ lcl_offs_frames s'
         = wrap32 (lcl_offs_frames s + n) mod bufsize_frames s
      /\ (0 <= lcl_offs_frames s -> lcl_offs_frames s + n < 4294967296 ->
          lcl_offs_frames s' = (lcl_offs_frames s + n) mod bufsize_frames s)
      /\ held_frames s' = wrap32 (held_frames s - n)
      /\ (n <= held_frames s < 4294967296 ->
          held_frames s' = held_frames s - n)
      /\ written_frames s' = wrap64 (written_frames s + n)
      /\ (0 <= written_frames s ->
          written_frames s + n < 18446744073709551616 ->
          written_frames s' = written_frames s + n)
      /\ getbuf_last s' = 0
      /\ wri_offs_frames s' = wri_offs_frames s
      /\ cap_offs_frames s' = cap_offs_frames s
      /\ cap_held_frames s' = cap_held_frames s
      /\ playing s' = playing s)
  /\ (n = 0 -> 0 < done -> hr = AUDCLNT_E_OUT_OF_ORDER /\ s' = s).
Proof.
  intros Hd Hgl n. unfold release_capture_buffer. fold n.
  rewrite (wrap32_small n) by (unfold n; lia).
  destruct (Z.eqb_spec done 0) as [Hz|Hnz].
  { repeat split; intros; lia. }
  destruct (Z.eqb_spec n 0) as [Hn0|Hn0].
  { repeat split; intros; try lia; try congruence. }
  destruct (Z.eqb_spec n done) as [He|Hne]; cbn [negb].
  - subst done. stream_cbn.
    split; [intros; lia|]. split; [|intros; lia].
    intros _ _. repeat (split; [reflexivity|]).
    split; [intros; rewrite wrap32_small by lia; reflexivity|].
    split; [reflexivity|].
    split; [intros; rewrite wrap32_small by lia; reflexivity|].
    split; [reflexivity|].
    split; [intros; rewrite wrap64_small by lia; reflexivity|].
    repeat split.
  - repeat split; intros; try lia; try congruence.
Qed.

(** ** Reset *)

(** C8.  [reset] fails with AUDCLNT_E_NOT_STOPPED on a playing stream and
    with AUDCLNT_E_BUFFER_OPERATION_PENDING on a stopped stream with an
    acquisition outstanding, leaving the stream as it is; otherwise it
    zeroes [held_frames], both offsets of the client ring and both
    counters of the raw capture ring, and sets [written_frames] to 0 on a
    render stream and to [written_frames + held_frames] on a capture
    stream. *)
Theorem reset_spec (s : stream) :
  let '(s', hr) := reset s in
  (playing s = true -> hr = AUDCLNT_E_NOT_STOPPED /\ s' = s)
  /\ (playing s = false -> getbuf_last s <> 0 ->
      hr = AUDCLNT_E_BUFFER_OPERATION_PENDING /\ s' = s)
  /\ (playing s = false -> getbuf_last s = 0 ->
      hr = S_OK
      /\ held_frames s' = 0
      /\ lcl_offs_frames s' = 0
      /\ wri_offs_frames s' = 0
      /\ cap_offs_frames s' = 0
      /\ cap_held_frames s' = 0
      /\ getbuf_last s' = 0
      /\ playing s' = false
      /\ (flow s = eRender -> written_frames s' = 0)
      /\ (flow s = eCapture ->
          written_frames s' = wrap64 (written_frames s + held_frames s)
          /\ (0 <= written_frames s -> 0 <= held_frames s ->
              written_frames s + held_frames s < 18446744073709551616 ->
              written_frames s' = written_frames s + held_frames s))).
Proof.
  unfold reset. destruct (playing s) eqn:Hp.
  { repeat split; intros; congruence. }
  destruct (Z.eqb_spec (getbuf_last s) 0) as [Hg|Hg]; cbn [negb].
  - split; [intros; congruence|]. split; [intros; congruence|].
    intros _ _. stream_cbn.
    destruct (flow s) eqn:Hf; cbn [EDataFlow_eqb]; stream_cbn;
      repeat split; intros; try congruence.
    rewrite wrap64_small by lia. reflexivity.
  - repeat split; intros; congruence.
Qed.

(** ** Zero-frame releases *)

(** C10.  On a stream with no acquisition outstanding,
    [release_render_buffer] and [release_capture_buffer] with a frame
    count of 0 return S_OK, not AUDCLNT_E_OUT_OF_ORDER, and leave the
    stream as it is: the count is tested before [getbuf_last]. *)
Theorem release_zero_frames_spec (s : stream) (flags : Z) :
  getbuf_last s = 0 ->
  release_render_buffer s 0 flags = (s, S_OK)
  /\ release_capture_buffer s 0 = (s, S_OK).
Proof.
  intros Hg. unfold release_render_buffer, release_capture_buffer.
  cbn [Z.eqb]. rewrite <- Hg. destruct s; split; reflexivity.
Qed.

(** ** The capture resampler *)

Lemma muldiv_rounds (a b c : Z) :
  0 <= a -> 0 <= b -> 0 < c ->
  (a * b + c / 2) / c <= 2147483647 ->
  muldiv a b c = (a * b + c / 2) / c
  /\ 2 * Z.abs (a * b - muldiv a b c * c) <= c.
Proof.
  intros Ha Hb Hc Hmax. unfold muldiv.
  destruct (Z.eqb_spec c 0); [lia|].
  destruct (Z.ltb_spec c 0); [lia|].
  destruct (Z.ltb_spec a 0); [lia|]. destruct (Z.ltb_spec b 0); [lia|].
  destruct (Z.geb_spec a 0); [|lia]. destruct (Z.geb_spec b 0); [|lia].
  cbn [andb orb].
  assert (Hab : 0 <= a * b) by nia.
  rewrite (Z.quot_div_nonneg c 2) by lia.
  assert (Hh : 0 <= c / 2) by (apply Z.div_pos; lia).
  rewrite Z.quot_div_nonneg by lia.
  set (q := (a * b + c / 2) / c) in *.
  assert (Hq : 0 <= q) by (apply Z.div_pos; lia).
  destruct (Z.gtb_spec q 2147483647); [lia|].
  destruct (Z.ltb_spec q (-2147483647)); [lia|]. cbn [orb].
  split; [reflexivity|].
  pose proof (Z.div_mod (a * b + c / 2) c ltac:(lia)) as Hdm.
  pose proof (Z.mod_pos_bound (a * b + c / 2) c Hc) as Hmb.
  fold q in Hdm.
  pose proof (Z.div_mod c 2 ltac:(lia)) as Hc2.
  pose proof (Z.mod_pos_bound c 2 ltac:(lia)) as Hm2.
  lia.
Qed.

Lemma feed_cb_spec (s : stream) (req : Z) :
  0 <= req < 4294967296 ->
  0 <= cap_held_frames s < 4294967296 ->
  let '(s', n, data) := feed_cb s req in
  n = Z.min req (cap_held_frames s)
  /\ cap_held_frames s' = cap_held_frames s - n
  /\ client_ring s' = client_ring s
  /\ stream_config s' = stream_config s
  /\ converter s' = converter s
  /\ resamp_buffer s' = resamp_buffer s
  /\ resamp_bufsize_frames s' = resamp_bufsize_frames s
  /\ playing s' = playing s.
Proof.
  intros Hreq Hheld. unfold feed_cb. rewrite min_spec.
  set (n := Z.min req (cap_held_frames s)).
  destruct (Z.eqb_spec n 0) as [Hz|Hnz].
  { repeat split; lia. }
  set (br := if wrap32 (cap_offs_frames s + n) >? cap_bufsize_frames s
             then _ else _).
  assert (Hbr : cap_held_frames (fst br) = cap_held_frames s
                /\ client_ring (fst br) = client_ring s
                /\ stream_config (fst br) = stream_config s
                /\ converter (fst br) = converter s
                /\ resamp_buffer (fst br) = resamp_buffer s
                /\ resamp_bufsize_frames (fst br) = resamp_bufsize_frames s
                /\ playing (fst br) = playing s).
  { unfold br.
    destruct (wrap32 (cap_offs_frames s + n) >? cap_bufsize_frames s);
      [destruct (wrap_bufsize_frames s <? n)|]; cbn [fst]; repeat split. }
  destruct br as [s1 data]. cbn [fst] in Hbr.
  destruct Hbr as (H1 & H2 & H3 & H4 & H5 & H6 & H7).
  stream_cbn. rewrite H1. rewrite wrap32_small by (unfold n; lia).
  repeat split; assumption.
Qed.

Lemma run_converter_spec (r : conv_run conv_state) :
  conv_run_ok r ->
  forall s : stream,
  0 <= cap_held_frames s < 4294967296 ->
  let '(s', sc, produced, out, c') := run_converter r s in
  0 <= cap_held_frames s' <= cap_held_frames s
  /\ (pulls_input r -> sc = noErr -> 0 < cap_held_frames s ->
      cap_held_frames s' < cap_held_frames s)
  /\ client_ring s' = client_ring s
  /\ stream_config s' = stream_config s
  /\ converter s' = converter s
  /\ resamp_buffer s' = resamp_buffer s
  /\ resamp_bufsize_frames s' = resamp_bufsize_frames s
  /\ playing s' = playing s.
Proof.
  induction r as [sc produced out c'|req k IH]; intros Hok s Hheld.
  - cbn. repeat split; try lia; congruence.
  - cbn [run_converter]. destruct Hok as [Hreq Hk].
    pose proof (feed_cb_spec s req Hreq Hheld) as Hf.
    destruct (feed_cb s req) as [[s1 n] data].
    destruct Hf as (Hn & Hh1 & Hr1 & Hc1 & Hv1 & Hb1 & Hz1 & Hp1).
    assert (Hheld1 : 0 <= cap_held_frames s1 < 4294967296) by lia.
    specialize (IH n data (Hk n data) s1 Hheld1).
    destruct (run_converter (k n data) s1) as [[[[s' sc] produced] out] c'].
    destruct IH as (Hh & Hstrict & Hr & Hc & Hv & Hb & Hz & Hp).
    split; [lia|]. split.
    + intros Hpull Hsc Hpos. cbn in Hpull. destruct Hpull as [Hpull|Hpull].
      * lia.
      * destruct (Z.eq_dec (cap_held_frames s1) 0) as [H0|H0]; [lia|].
        specialize (Hstrict (Hpull n data) Hsc). lia.
    + repeat split; congruence.
Qed.

Lemma grow_resamp_buffer_spec (s : stream) :
  cap_held_frames (grow_resamp_buffer s) = cap_held_frames s
  /\ client_ring (grow_resamp_buffer s) = client_ring s
  /\ stream_config (grow_resamp_buffer s) = stream_config s
  /\ converter (grow_resamp_buffer s) = converter s
  /\ playing (grow_resamp_buffer s) = playing s.
Proof.
  unfold grow_resamp_buffer.
  destruct (resamp_bufsize_frames s <? period_frames s); repeat split.
Qed.

(** One iteration of the drain: the converter is asked once, for
    [period_frames] frames; when it fails the iteration leaves the client
    ring alone and ends the loop, otherwise the frames it produced are
    wrap-copied in at the write offset. *)
Lemma capture_resample_body_spec (s : stream) :
  conv_run_ok (AudioConverterFillComplexBuffer (converter s) (period_frames s)) ->
  0 <= cap_held_frames s < 4294967296 ->
  let ba := nBlockAlign (fmt s) in
  let '(s2, sc, produced, out, c') :=
    run_converter
      (AudioConverterFillComplexBuffer (converter s) (period_frames s))
      (grow_resamp_buffer s) in
  let '(s', continue) :=
    capture_resample_body AudioConverterFillComplexBuffer s in
  continue = (sc =? noErr)
  /\ stream_config s' = stream_config s
  /\ playing s' = playing s
  /\ cap_held_frames s' = cap_held_frames s2
  /\ 0 <= cap_held_frames s' <= cap_held_frames s
  /\ (pulls_input
        (AudioConverterFillComplexBuffer (converter s) (period_frames s)) ->
      continue = true -> 0 < cap_held_frames s ->
      cap_held_frames s' < cap_held_frames s)
  /\ getbuf_last s' = getbuf_last s
  /\ written_frames s' = written_frames s
  /\ (continue = false -> client_ring s' = client_ring s)
  /\ (continue = true ->
      wri_offs_frames s'
      = wrap32 (wri_offs_frames s + produced) mod bufsize_frames s
      /\ held_frames s'
         = (if wrap32 (held_frames s + produced) >? bufsize_frames s
            then bufsize_frames s
            else wrap32 (held_frames s + produced))
      /\ local_buffer s'
         = ca_wrap_buffer (local_buffer s)
             (wrap32 (wri_offs_frames s * ba))
             (wrap32 (bufsize_frames s * ba))
             (resamp_buffer s') (wrap32 (produced * ba))
      /\ lcl_offs_frames s'
         = (if wrap32 (held_frames s + produced) >? bufsize_frames s
            then wrap32 (lcl_offs_frames s
                         + buf_ptr_diff (lcl_offs_frames s)
                             (wri_offs_frames s') (bufsize_frames s))
            else lcl_offs_frames s)).
Proof.
  intros Hconv Hheld ba. unfold capture_resample_body. fold ba.
  destruct (grow_resamp_buffer_spec s) as (Hg1 & Hg2 & Hg3 & Hg4 & Hg5).
  rewrite Hg4.
  pose proof (run_converter_spec
                (AudioConverterFillComplexBuffer (converter s) (period_frames s))
                Hconv (grow_resamp_buffer s)) as Hrun.
  rewrite Hg1 in Hrun. specialize (Hrun Hheld).
  destruct (run_converter _ (grow_resamp_buffer s))
    as [[[[s2 sc] produced] out] c'].
  destruct Hrun as (Hh & Hstrict & Hr & Hc & Hv & Hb & Hz & Hp).
  rewrite Hg2 in Hr. rewrite Hg3 in Hc. rewrite Hg5 in Hp.
  unfold client_ring in Hr. unfold stream_config in Hc.
  assert (E1 : local_buffer s2 = local_buffer s) by congruence.
  assert (E2 : lcl_offs_frames s2 = lcl_offs_frames s) by congruence.
  assert (E3 : wri_offs_frames s2 = wri_offs_frames s) by congruence.
  assert (E4 : held_frames s2 = held_frames s) by congruence.
  assert (E5 : written_frames s2 = written_frames s) by congruence.
  assert (E6 : getbuf_last s2 = getbuf_last s) by congruence.
  assert (E7 : bufsize_frames s2 = bufsize_frames s) by congruence.
  destruct (Z.eqb_spec sc noErr) as [Hsc|Hsc]; cbn [negb].
  - stream_cbn. rewrite ?E1, ?E2, ?E3, ?E4, ?E7.
    destruct (wrap32 (held_frames s + produced) >? bufsize_frames s);
      unfold client_ring, stream_config; stream_cbn;
      (split; [reflexivity|]); (split; [congruence|]);
      (split; [assumption|]); (split; [reflexivity|]);
      (split; [lia|]); (split; [intros; apply Hstrict; auto|]);
      (split; [congruence|]); (split; [congruence|]);
      (split; [discriminate|]); intros _; repeat split; exact E2.
  - unfold client_ring, stream_config; stream_cbn.
    split; [reflexivity|]. split; [congruence|].
    split; [assumption|]. split; [reflexivity|]. split; [lia|].
    split; [discriminate|]. split; [congruence|]. split; [congruence|].
    split; [intros _; congruence|discriminate].
Qed.

Lemma resamp_period_frames_config (s s' : stream) :
  stream_config s' = stream_config s ->
  resamp_period_frames s' = resamp_period_frames s.
Proof.
  unfold stream_config, resamp_period_frames. intros H.
  injection H as H1 H2 H3 H4 H5 H6. congruence.
Qed.

Section Drain.

(** The period the converter is asked for. *)
Variable period : Z.

Hypothesis converter_ok :
  forall c, conv_run_ok (AudioConverterFillComplexBuffer c period).
Hypothesis converter_pulls :
  forall c, pulls_input (AudioConverterFillComplexBuffer c period).

(** The loop ends when its fuel exceeds the frames held in the raw ring:
    every iteration that goes on has taken at least one. *)
Lemma capture_resample_loop_terminates (fuel : nat) (resamp : Z) :
  forall s : stream,
  period_frames s = period ->
  0 <= cap_held_frames s < 4294967296 ->
  (Z.to_nat (cap_held_frames s) < fuel)%nat ->
  exists s',
    capture_resample_loop AudioConverterFillComplexBuffer fuel resamp s = Some s'.
Proof.
  induction fuel as [|fuel IH]; intros s Hper Hheld Hfuel; [lia|].
  cbn [capture_resample_loop].
  destruct (Z.gtb_spec (cap_held_frames s) (wrap32 (resamp * 2))) as [Hgt|Hle];
    [|eauto].
  pose proof (wrap32_range (resamp * 2)) as Hw.
  assert (Hok : conv_run_ok (AudioConverterFillComplexBuffer (converter s)
                               (period_frames s)))
    by (rewrite Hper; apply converter_ok).
  pose proof (capture_resample_body_spec s Hok Hheld) as Hbody.
  cbn zeta in Hbody.
  destruct (run_converter _ (grow_resamp_buffer s))
    as [[[[s2 sc] produced] out] c'].
  destruct (capture_resample_body AudioConverterFillComplexBuffer s)
    as [s1 continue].
  destruct Hbody as (_ & Hcfg & _ & _ & Hh & Hstrict & _).
  destruct continue; [|eauto].
  apply IH; [unfold stream_config in Hcfg; congruence|lia|].
  rewrite Hper in Hstrict.
  specialize (Hstrict (converter_pulls _) eq_refl). lia.
Qed.

End Drain.

Lemma capture_resample_loop_fuel (fuel : nat) (resamp : Z) :
  forall (s s' : stream) (fuel' : nat),
  capture_resample_loop AudioConverterFillComplexBuffer fuel resamp s = Some s' ->
  (fuel <= fuel')%nat ->
  capture_resample_loop AudioConverterFillComplexBuffer fuel' resamp s = Some s'.
Proof.
  induction fuel as [|fuel IH]; intros s s' fuel' Hrun Hle.
  - cbn [capture_resample_loop] in Hrun.
    destruct fuel'; cbn [capture_resample_loop];
      destruct (cap_held_frames s >? wrap32 (resamp * 2));
      congruence.
  - destruct fuel' as [|fuel']; [lia|].
    cbn [capture_resample_loop] in *.
    destruct (cap_held_frames s >? wrap32 (resamp * 2)); [|assumption].
    destruct (capture_resample_body AudioConverterFillComplexBuffer s)
      as [s1 continue].
    destruct continue; [|assumption].
    apply IH; [assumption|lia].
Qed.

(** C7 (amended).  The drain computes [resamp_period_frames] as
    [period_frames * hardware rate / client rate] rounded to the nearest
    integer; it runs an iteration only while the raw capture ring holds
    strictly more than twice that many frames; an iteration asks the
    converter once, for [period_frames] frames, and never adds to the raw
    ring; when the converter fails the loop ends at once with the client
    ring as the earlier iterations left it.  An iteration takes raw frames
    off the ring, and the loop ends, when a conversion that succeeds has
    asked the input callback for at least one frame ([pulls_input]);
    nothing in the drain makes the converter do so. *)
Theorem capture_resample_spec (s : stream) :
  (forall c, conv_run_ok (AudioConverterFillComplexBuffer c (period_frames s))) ->
  0 <= cap_held_frames s < 4294967296 ->
  0 <= period_frames s <= 2147483647 ->
  0 <= dev_desc_mSampleRate s ->
  0 < nSamplesPerSec (fmt s) <= 2147483647 ->
  (period_frames s * dev_desc_mSampleRate s + nSamplesPerSec (fmt s) / 2)
    / nSamplesPerSec (fmt s) <= 2147483647 ->
  let p := period_frames s in
  let h := dev_desc_mSampleRate s in
  let c := nSamplesPerSec (fmt s) in
  let r := resamp_period_frames s in
  let ba := nBlockAlign (fmt s) in
  (* the period at the hardware rate *)
  (r = (p * h + c / 2) / c /\ 2 * Z.abs (p * h - r * c) <= c)
  (* the loop condition *)
  /\ (cap_held_frames s <= 2 * r ->
      forall fuel,
        capture_resample AudioConverterFillComplexBuffer fuel s = Some s)
  /\ (2 * r < cap_held_frames s ->
      forall fuel,
        capture_resample AudioConverterFillComplexBuffer (S fuel) s =
        (let '(s1, continue) :=
           capture_resample_body AudioConverterFillComplexBuffer s in
         if continue
         then capture_resample AudioConverterFillComplexBuffer fuel s1
         else Some s1))
  (* one iteration *)
  /\ (let '(s2, sc, produced, out, c') :=
        run_converter
          (AudioConverterFillComplexBuffer (converter s) p)
          (grow_resamp_buffer s) in
      let '(s1, continue) :=
        capture_resample_body AudioConverterFillComplexBuffer s in
      continue = (sc =? noErr)
      /\ 0 <= cap_held_frames s1 <= cap_held_frames s
      /\ (continue = true ->
          pulls_input (AudioConverterFillComplexBuffer (converter s) p) ->
          0 < cap_held_frames s ->
          cap_held_frames s1 < cap_held_frames s)
      /\ (continue = true ->
          wri_offs_frames s1
          = wrap32 (wri_offs_frames s + produced) mod bufsize_frames s
          /\ held_frames s1
             = (if wrap32 (held_frames s + produced) >? bufsize_frames s
                then bufsize_frames s
                else wrap32 (held_frames s + produced))
          /\ local_buffer s1
             = ca_wrap_buffer (local_buffer s)
                 (wrap32 (wri_offs_frames s * ba))
                 (wrap32 (bufsize_frames s * ba))
                 (resamp_buffer s1) (wrap32 (produced * ba))
          /\ lcl_offs_frames s1
             = (if wrap32 (held_frames s + produced) >? bufsize_frames s
                then wrap32 (lcl_offs_frames s
                             + buf_ptr_diff (lcl_offs_frames s)
                                 (wri_offs_frames s1) (bufsize_frames s))
                else lcl_offs_frames s))
      (* a failing conversion *)
      /\ (continue = false -> client_ring s1 = client_ring s))
  (* termination *)
  /\ ((forall c, pulls_input (AudioConverterFillComplexBuffer c p)) ->
      exists fuel s',
        capture_resample AudioConverterFillComplexBuffer fuel s = Some s'
        /\ forall fuel', (fuel <= fuel')%nat ->
             capture_resample AudioConverterFillComplexBuffer fuel' s = Some s').
Proof.
  intros Hok Hheld Hp Hh Hc Hmax p h c r ba.
  assert (Hq0 : 0 <= (p * h + c / 2) / c).
  { apply Z.div_pos; [|unfold c; lia].
    assert (0 <= c / 2) by (apply Z.div_pos; unfold c; lia).
    unfold p, h in *. nia. }
  assert (Hq1 : (p * h + c / 2) / c <= 2147483647) by exact Hmax.
  assert (Hr : r = (p * h + c / 2) / c /\ 2 * Z.abs (p * h - r * c) <= c).
  { unfold r, resamp_period_frames.
    rewrite !to_int32_small by lia. fold p h c.
    destruct (muldiv_rounds p h c) as [Hm Ha]; try (unfold p, h, c; lia).
    rewrite Hm in *. set (q := (p * h + c / 2) / c) in *. clearbody q.
    rewrite wrap32_small by lia. split; [reflexivity|assumption]. }
  assert (Hr2 : wrap32 (r * 2) = 2 * r).
  { destruct Hr as [Hr _]. rewrite Hr.
    set (q := (p * h + c / 2) / c) in *. clearbody q.
    rewrite wrap32_small; lia. }
  pose proof (capture_resample_body_spec s (Hok _) Hheld) as Hbody.
  cbn zeta in Hbody. fold p ba in Hbody.
  split; [exact Hr|]. split; [|split; [|split]].
  - intros Hle fuel. unfold capture_resample. fold r.
    destruct fuel; cbn [capture_resample_loop]; rewrite Hr2;
      destruct (Z.gtb_spec (cap_held_frames s) (2 * r)); try lia; reflexivity.
  - intros Hgt fuel. unfold capture_resample. fold r.
    cbn [capture_resample_loop]. rewrite Hr2.
    destruct (Z.gtb_spec (cap_held_frames s) (2 * r)); [|lia].
    destruct (run_converter _ (grow_resamp_buffer s))
      as [[[[s2 sc] produced] out] c'].
    destruct (capture_resample_body AudioConverterFillComplexBuffer s)
      as [s1 continue].
    destruct Hbody as (_ & Hcfg & _).
    rewrite (resamp_period_frames_config s s1 Hcfg). reflexivity.
  - destruct (run_converter _ (grow_resamp_buffer s))
      as [[[[s2 sc] produced] out] c'].
    destruct (capture_resample_body AudioConverterFillComplexBuffer s)
      as [s1 continue].
    destruct Hbody as (Hc1 & _ & _ & _ & Hle & Hstrict & _ & _ & Hfail & Hgo).
    split; [exact Hc1|]. split; [exact Hle|].
    split; [|split; [exact Hgo|exact Hfail]].
    intros Hcont Hpull Hpos. apply Hstrict; auto.
  - intros Hpull.
    destruct (capture_resample_loop_terminates (period_frames s) Hok Hpull
                (S (Z.to_nat (cap_held_frames s))) r s eq_refl Hheld)
      as [s' Hs']; [lia|].
    exists (S (Z.to_nat (cap_held_frames s))), s'. split; [exact Hs'|].
    intros fuel' Hle. unfold capture_resample.
    now apply capture_resample_loop_fuel with (fuel := S (Z.to_nat (cap_held_frames s))).
Qed.

(** ** Failures leave the shared state alone *)

Lemma get_current_padding_nolock_render (fuel : nat) (s : stream) :
  flow s <> eCapture ->
  get_current_padding_nolock AudioConverterFillComplexBuffer fuel s
  = Some (s, held_frames s).
Proof.
  intros Hf. unfold get_current_padding_nolock.
  destruct (flow s); cbn [EDataFlow_eqb]; congruence.
Qed.

(** C9 (amended).  A call of the client layer that returns one of the
    failure codes (AUDCLNT_E_OUT_OF_ORDER, AUDCLNT_E_INVALID_SIZE,
    AUDCLNT_E_BUFFER_TOO_LARGE, AUDCLNT_E_NOT_STOPPED,
    AUDCLNT_E_BUFFER_OPERATION_PENDING, E_OUTOFMEMORY) leaves the offsets
    and held counts of both rings, [written_frames], [getbuf_last] and
    [playing] as they were before the call, unless it is
    [get_render_buffer] on a capture stream ([client_visible]); the
    failure is then found before the drain would run, so without any
    fuel. *)
Theorem failed_call_leaves_shared_state (fuel : nat) (c : unix_call)
    (s s' : stream) (hr : HRESULT) :
  client_visible c s ->
  wine_unix_call AudioConverterFillComplexBuffer fuel c s = Some (s', hr) ->
  FAILED hr = true ->
  shared_state s' = shared_state s
  /\ wine_unix_call AudioConverterFillComplexBuffer 0 c s = Some (s', hr).
Proof.
  intros Hflow Hcall Hfail.
  destruct c as [| | |alloc_ok frames|frames flags|wd wq stamp freq|done| |];
    cbn [wine_unix_call] in *.
  - unfold start in *. destruct (playing s);
      injection Hcall as <- <-; [split; reflexivity|discriminate].
  - unfold stop in *. destruct (playing s); cbn [negb] in *;
      injection Hcall as <- <-; discriminate.
  - unfold reset in *. destruct (playing s);
      [injection Hcall as <- <-; split; reflexivity|].
    destruct (getbuf_last s =? 0); cbn [negb] in *;
      injection Hcall as <- <-; [discriminate|split; reflexivity].
  - cbn [client_visible] in Hflow. unfold get_render_buffer in *.
    rewrite get_current_padding_nolock_render in * by assumption.
    destruct (getbuf_last s =? 0); cbn [negb] in *;
      [|injection Hcall as <- <-; split; reflexivity].
    destruct (frames =? 0); [injection Hcall as <- <-; discriminate|].
    destruct (wrap32 (held_frames s + frames) >? bufsize_frames s);
      [injection Hcall as <- <-; split; reflexivity|].
    destruct (wrap32 (wri_offs_frames s + frames) >? bufsize_frames s);
      [|injection Hcall as <- <-; discriminate].
    destruct (tmp_buffer_frames s <? frames); destruct alloc_ok;
      cbn [andb negb] in *; injection Hcall as <- <-;
      try discriminate; split; reflexivity.
  - unfold release_render_buffer in *.
    destruct (frames =? 0); [injection Hcall as <- <-; discriminate|].
    destruct (getbuf_last s =? 0);
      [injection Hcall as <- <-; split; reflexivity|].
    destruct (frames >? _);
      injection Hcall as <- <-; [split; reflexivity|discriminate].
  - unfold get_capture_buffer in *.
    destruct (getbuf_last s =? 0); cbn [negb] in *;
      [|injection Hcall as <- <-; split; reflexivity].
    destruct (capture_resample AudioConverterFillComplexBuffer fuel s)
      as [s1|]; [|discriminate].
    destruct (held_frames s1 <? period_frames s1);
      [injection Hcall as <- <-; discriminate|].
    destruct (wrap32 (bufsize_frames s1 - lcl_offs_frames s1) <? period_frames s1);
      injection Hcall as <- <-; discriminate.
  - unfold release_capture_buffer in *.
    destruct (done =? 0); [injection Hcall as <- <-; discriminate|].
    destruct (getbuf_last s =? 0);
      [injection Hcall as <- <-; split; reflexivity|].
    destruct (wrap32 (getbuf_last s) =? done); cbn [negb] in *;
      injection Hcall as <- <-; [discriminate|split; reflexivity].
  - destruct (get_current_padding_nolock _ fuel s) as [[s1 pad]|];
      [injection Hcall as <- <-|]; discriminate.
  - destruct (get_next_packet_size _ fuel s) as [[s1 n]|];
      [injection Hcall as <- <-|]; discriminate.
Qed.

(** The call left out above: on a capture stream [get_render_buffer]
    opens with the padding query, so the drain has run when it fails, and
    the shared state it leaves is the one the drain left. *)
Lemma get_render_buffer_failure_after_drain (fuel : nat) (alloc_ok : bool)
    (s s' : stream) (frames : Z) (hr : HRESULT) (p : option data_ptr) :
  flow s = eCapture ->
  get_render_buffer AudioConverterFillComplexBuffer fuel alloc_ok s frames
  = Some (s', hr, p) ->
  FAILED hr = true ->
  exists s1,
    capture_resample AudioConverterFillComplexBuffer fuel s = Some s1
    /\ shared_state s' = shared_state s1.
Proof.
  intros Hflow Hcall Hfail. unfold get_render_buffer in Hcall.
  unfold get_current_padding_nolock in Hcall. rewrite Hflow in Hcall.
  cbn [EDataFlow_eqb] in Hcall.
  destruct (capture_resample AudioConverterFillComplexBuffer fuel s)
    as [s1|]; [|discriminate].
  exists s1. split; [reflexivity|].
  destruct (getbuf_last s1 =? 0); cbn [negb] in Hcall;
    [|injection Hcall as <- <- <-; reflexivity].
  destruct (frames =? 0); [injection Hcall as <- <- <-; discriminate|].
  destruct (wrap32 (held_frames s1 + frames) >? bufsize_frames s1);
    [injection Hcall as <- <- <-; reflexivity|].
  destruct (wrap32 (wri_offs_frames s1 + frames) >? bufsize_frames s1);
    [|injection Hcall as <- <- <-; discriminate].
  destruct (tmp_buffer_frames s1 <? frames); destruct alloc_ok;
    cbn [andb negb] in Hcall; injection Hcall as <- <- <-;
    try discriminate; reflexivity.
Qed.

(** ** Acquiring a render buffer *)

(** X29.  On a stream that is not a capture stream and holds no more
    than its ring can, as long as [held_frames + frames] fits 32 bits,
    [get_render_buffer] always returns, without running the drain: it
    fails with AUDCLNT_E_OUT_OF_ORDER when an acquisition is outstanding,
    fails with AUDCLNT_E_BUFFER_TOO_LARGE when nothing is outstanding and
    the frames held and requested exceed the ring, and returns S_OK for
    zero frames with nothing outstanding; in all three cases the stream
    is left as it is. *)
Lemma get_render_buffer_in_range (fuel : nat) (alloc_ok : bool) (s : stream)
    (frames : Z) :
  flow s <> eCapture ->
  0 <= held_frames s <= bufsize_frames s -> 0 <= frames ->
  held_frames s + frames < 4294967296 ->
  exists s' hr ptr,
    get_render_buffer AudioConverterFillComplexBuffer fuel alloc_ok s frames
    = Some (s', hr, ptr)
    /\ (getbuf_last s <> 0 -> hr = AUDCLNT_E_OUT_OF_ORDER /\ s' = s)
    /\ (getbuf_last s = 0 -> held_frames s + frames > bufsize_frames s ->
        hr = AUDCLNT_E_BUFFER_TOO_LARGE /\ s' = s)
    /\ (getbuf_last s = 0 -> frames = 0 -> hr = S_OK /\ s' = s).
Proof.
  intros Hflow Hheld Hfr Hsum. unfold get_render_buffer.
  rewrite get_current_padding_nolock_render by assumption.
  rewrite (wrap32_small (held_frames s + frames)) by lia.
  destruct (Z.eqb_spec (getbuf_last s) 0) as [Hg|Hg]; cbn [negb].
  2:{ do 3 eexists. split; [reflexivity|]. repeat split; intros; congruence. }
  destruct (Z.eqb_spec frames 0) as [Hz|Hnz].
  { do 3 eexists. split; [reflexivity|].
    repeat split; intros; try congruence; lia. }
  destruct (Z.gtb_spec (held_frames s + frames) (bufsize_frames s)).
  { do 3 eexists. split; [reflexivity|]. repeat split; intros; congruence. }
  match goal with
  | |- context [Some (if ?b then ?x else ?y)] =>
      destruct (if b then x else y) as [[s' hr] ptr]
  end.
  exists s', hr, ptr. split; [reflexivity|].
  repeat split; intros; try congruence; lia.
Qed.

(** The direct acquisition. *)
Lemma get_render_buffer_direct (fuel : nat) (alloc_ok : bool) (s : stream)
    (frames : Z) :
  flow s <> eCapture ->
  getbuf_last s = 0 -> frames <> 0 ->
  wrap32 (held_frames s + frames) <= bufsize_frames s ->
  wrap32 (wri_offs_frames s + frames) <= bufsize_frames s ->
  let offs := wrap32 (wri_offs_frames s * nBlockAlign (fmt s)) in
  get_render_buffer AudioConverterFillComplexBuffer fuel alloc_ok s frames
  = Some (set_local_buffer (set_getbuf_last s (to_int32 frames))
            (silence_buffer (set_getbuf_last s (to_int32 frames))
               (local_buffer s) offs frames),
          S_OK, Some (PtrLocal offs)).
Proof.
  intros Hflow Hg Hnz Hpad Hwri offs. unfold get_render_buffer.
  rewrite get_current_padding_nolock_render by assumption.
  destruct (Z.eqb_spec (getbuf_last s) 0); [|contradiction]. cbn [negb].
  destruct (Z.eqb_spec frames 0); [contradiction|].
  destruct (Z.gtb_spec (wrap32 (held_frames s + frames)) (bufsize_frames s));
    [lia|].
  destruct (Z.gtb_spec (wrap32 (wri_offs_frames s + frames)) (bufsize_frames s));
    [lia|].
  reflexivity.
Qed.

(** The indirect acquisition, when the scratch buffer has to grow. *)
Lemma get_render_buffer_indirect (fuel : nat) (s : stream) (frames : Z) :
  flow s <> eCapture ->
  getbuf_last s = 0 -> frames <> 0 ->
  wrap32 (held_frames s + frames) <= bufsize_frames s ->
  bufsize_frames s < wrap32 (wri_offs_frames s + frames) ->
  tmp_buffer_frames s < frames ->
  (exists s',
     get_render_buffer AudioConverterFillComplexBuffer fuel true s frames
     = Some (s', S_OK, Some PtrTmp)
     /\ getbuf_last s' = to_int32 (- frames)
     /\ tmp_buffer_frames s' = frames)
  /\ get_render_buffer AudioConverterFillComplexBuffer fuel false s frames
     = Some (set_tmp_buffer_frames
               (set_tmp_buffer s
                  (match tmp_buffer s with Some _ => Some [] | None => None end))
               0,
             E_OUTOFMEMORY, None).
Proof.
  intros Hflow Hg Hnz Hpad Hwri Htmp. unfold get_render_buffer.
  rewrite get_current_padding_nolock_render by assumption.
  destruct (Z.eqb_spec (getbuf_last s) 0); [|contradiction]. cbn [negb].
  destruct (Z.eqb_spec frames 0); [contradiction|].
  destruct (Z.gtb_spec (wrap32 (held_frames s + frames)) (bufsize_frames s));
    [lia|].
  destruct (Z.gtb_spec (wrap32 (wri_offs_frames s + frames)) (bufsize_frames s));
    [|lia].
  destruct (Z.ltb_spec (tmp_buffer_frames s) frames); [|lia].
  cbn [andb negb]. split; [|reflexivity].
  eexists. split; [reflexivity|]. split; reflexivity.
Qed.

(** ** Acquiring a capture buffer *)

(** [get_capture_buffer] refuses a second acquisition before the drain
    runs: no fuel is needed and the stream is left as it is. *)
Lemma get_capture_buffer_out_of_order (fuel : nat) (s : stream)
    (want_devpos want_qpcpos : bool) (stamp freq : Z) :
  getbuf_last s <> 0 ->
  exists o,
    get_capture_buffer AudioConverterFillComplexBuffer fuel s
      want_devpos want_qpcpos stamp freq = Some (s, o)
    /\ out_result o = AUDCLNT_E_OUT_OF_ORDER
    /\ out_frames o = None /\ out_data o = None.
Proof.
  intros Hg. unfold get_capture_buffer.
  destruct (Z.eqb_spec (getbuf_last s) 0); [contradiction|]. cbn [negb].
  eexists. split; [reflexivity|]. repeat split.
Qed.

(** With nothing outstanding the drain runs first; on the drained stream
    [s1], fewer than [period_frames] held frames give
    AUDCLNT_S_BUFFER_EMPTY with zero frames, and otherwise exactly
    [period_frames] frames are handed back, with the position.  As long
    as the read offset of [s1] lies inside the ring, they come through the
    scratch buffer exactly when they go round the end of the ring. *)
Lemma get_capture_buffer_drained (fuel : nat) (s s1 : stream)
    (want_devpos want_qpcpos : bool) (stamp freq : Z) :
  getbuf_last s = 0 ->
  capture_resample AudioConverterFillComplexBuffer fuel s = Some s1 ->
  exists s' o,
    get_capture_buffer AudioConverterFillComplexBuffer fuel s
      want_devpos want_qpcpos stamp freq = Some (s', o)
    /\ (held_frames s1 < period_frames s1 ->
        s' = s1 /\ out_result o = AUDCLNT_S_BUFFER_EMPTY
        /\ out_frames o = Some 0)
    /\ (period_frames s1 <= held_frames s1 ->
        out_result o = S_OK
        /\ out_frames o = Some (period_frames s1)
        /\ getbuf_last s' = to_int32 (period_frames s1)
        /\ shared_state (set_getbuf_last s' 0) = shared_state (set_getbuf_last s1 0)
        /\ out_devpos o
           = (if want_devpos then Some (written_frames s1) else None)
        /\ out_qpcpos o
           = (if want_qpcpos
              then Some (Z.quot (to_int64 (stamp * 10000000)) freq) else None)
        /\ (0 <= lcl_offs_frames s1 <= bufsize_frames s1 ->
            bufsize_frames s1 < 4294967296 ->
            (bufsize_frames s1 < lcl_offs_frames s1 + period_frames s1 ->
             out_data o = Some PtrTmp)
            /\ (lcl_offs_frames s1 + period_frames s1 <= bufsize_frames s1 ->
                out_data o
                = Some (PtrLocal (wrap32 (lcl_offs_frames s1
                                          * nBlockAlign (fmt s1))))
                /\ s' = set_getbuf_last s1 (to_int32 (period_frames s1))))).
Proof.
  intros Hg Hdrain. unfold get_capture_buffer.
  destruct (Z.eqb_spec (getbuf_last s) 0); [|contradiction]. cbn [negb].
  rewrite Hdrain.
  destruct (Z.ltb_spec (held_frames s1) (period_frames s1)) as [He|Hf].
  { do 2 eexists. split; [reflexivity|]. cbn.
    split; [intros _; repeat split|intros; lia]. }
  destruct (Z.ltb_spec (wrap32 (bufsize_frames s1 - lcl_offs_frames s1))
                       (period_frames s1)) as [Hw|Hd].
  - do 2 eexists. split; [reflexivity|]. cbn [out_result out_frames out_data
      out_devpos out_qpcpos].
    split; [intros; lia|]. intros _.
    destruct (tmp_buffer s1); stream_cbn;
      (do 6 (split; [reflexivity|])); intros Hl HB;
      rewrite wrap32_small in Hw by lia; (split; [reflexivity|intros; lia]).
  - do 2 eexists. split; [reflexivity|]. cbn [out_result out_frames out_data
      out_devpos out_qpcpos].
    split; [intros; lia|]. intros _. stream_cbn.
    do 6 (split; [reflexivity|]). intros Hl HB.
    rewrite wrap32_small in Hd by lia.
    split; [intros; lia|]. intros _. split; reflexivity.
Qed.


(** ** The ring invariants

    Every operation but the saturating branch of the drain keeps the
    invariants; that branch keeps the read offset only up to one turn of
    the ring (C2). *)

Lemma ring_inv_weaken (s : stream) : ring_inv s -> ring_inv_mod s.
Proof. unfold ring_inv, ring_inv_mod. intuition lia. Qed.

Lemma mod_add_sub (a b n m : Z) :
  0 < m -> ((a + n) mod m + (b - n)) mod m = (a + b) mod m.
Proof.
  intros Hm. rewrite Z.add_mod_idemp_l by lia. f_equal. lia.
Qed.

Lemma ca_render_cb_ring_inv (s : stream) (nframes : Z) (data : list Z) :
  ring_inv s -> bufsize_frames s <= 2147483647 -> 0 <= nframes ->
  ring_inv (fst (fst (ca_render_cb s nframes data))).
Proof.
  intros (HB & Hheld & Hlcl & Hwri & Hinv) HBmax Hn.
  unfold ca_render_cb. destruct (playing s); cbn [fst].
  - rewrite min_spec. unfold ring_inv. stream_cbn.
    set (n := Z.min nframes (held_frames s)).
    assert (Hn0 : 0 <= n <= held_frames s) by (unfold n; lia).
    rewrite (wrap32_small (lcl_offs_frames s + n)) by lia.
    rewrite (wrap32_small (held_frames s - n)) by lia.
    pose proof (Z.mod_pos_bound (lcl_offs_frames s + n) (bufsize_frames s) HB).
    rewrite mod_add_sub by lia. repeat split; lia.
  - unfold ring_inv. repeat split; lia.
Qed.

(** X27.  [release_render_buffer] keeps the invariant of the client
    ring, whether it succeeds or fails and whether the frames were
    acquired in place or through the scratch buffer, as long as the
    frames held and the frames acquired fit the ring together. *)
Lemma release_render_buffer_ring_inv (s : stream) (frames flags : Z) :
  ring_inv s -> bufsize_frames s <= 2147483647 ->
  -2147483648 <= getbuf_last s <= 2147483647 ->
  0 <= frames < 4294967296 ->
  held_frames s + acquired s <= bufsize_frames s ->
  ring_inv (fst (release_render_buffer s frames flags)).
Proof.
  intros (HB & Hheld & Hlcl & Hwri & Hinv) HBmax Hgl Hfr Hfit.
  unfold release_render_buffer.
  rewrite getbuf_last_magnitude by exact Hgl. fold (acquired s).
  destruct (Z.eqb_spec frames 0); [unfold ring_inv; cbn; repeat split; lia|].
  destruct (Z.eqb_spec (getbuf_last s) 0);
    [unfold ring_inv; cbn; repeat split; lia|].
  destruct (Z.gtb_spec frames (acquired s));
    [unfold ring_inv; cbn; repeat split; lia|].
  cbn [fst]. unfold ring_inv. stream_cbn.
  set (s1 := if negb (Z.land flags AUDCLNT_BUFFERFLAGS_SILENT =? 0) then _ else s).
  assert (Hs1 : getbuf_last s1 = getbuf_last s
                /\ wri_offs_frames s1 = wri_offs_frames s
                /\ bufsize_frames s1 = bufsize_frames s
                /\ held_frames s1 = held_frames s
                /\ lcl_offs_frames s1 = lcl_offs_frames s).
  { unfold s1. destruct (negb _); [destruct (getbuf_last s >=? 0)|];
      repeat split. }
  destruct Hs1 as (E1 & E2 & E3 & E4 & E5).
  set (s2 := if getbuf_last s1 <? 0 then _ else s1).
  assert (Hs2 : wri_offs_frames s2 = wri_offs_frames s
                /\ bufsize_frames s2 = bufsize_frames s
                /\ held_frames s2 = held_frames s
                /\ lcl_offs_frames s2 = lcl_offs_frames s).
  { unfold s2. destruct (getbuf_last s1 <? 0); stream_cbn;
      repeat split; assumption. }
  destruct Hs2 as (F2 & F3 & F4 & F5). rewrite F2, F3, F4, F5.
  rewrite (wrap32_small (wri_offs_frames s + frames)) by lia.
  rewrite (wrap32_small (held_frames s + frames)) by lia.
  pose proof (Z.mod_pos_bound (wri_offs_frames s + frames) (bufsize_frames s) HB).
  repeat split; try lia.
  rewrite Hinv. rewrite Z.add_mod_idemp_l by lia. f_equal. lia.
Qed.

(** X28.  A successful [release_capture_buffer] brings the read offset
    back into the ring: from a client ring whose read offset is right
    only up to one turn of the ring, as the drain can leave it, the
    release of the frames acquired gives a ring that satisfies the
    invariant. *)
Lemma release_capture_buffer_ring_inv (s : stream) (done : Z) :
  ring_inv_mod s -> bufsize_frames s <= 1073741823 ->
  0 < getbuf_last s <= held_frames s ->
  done = getbuf_last s ->
  ring_inv (fst (release_capture_buffer s done)).
Proof.
  intros (HB & Hheld & Hlcl & Hwri & Hinv) HBmax Hgl ->.
  unfold release_capture_buffer.
  destruct (Z.eqb_spec (getbuf_last s) 0); [lia|].
  rewrite (wrap32_small (getbuf_last s)) by lia.
  rewrite Z.eqb_refl. cbn [negb fst]. unfold ring_inv. stream_cbn.
  rewrite (wrap32_small (lcl_offs_frames s + getbuf_last s)) by lia.
  rewrite (wrap32_small (held_frames s - getbuf_last s)) by lia.
  pose proof (Z.mod_pos_bound (lcl_offs_frames s + getbuf_last s)
                (bufsize_frames s) HB).
  rewrite mod_add_sub by lia. repeat split; lia.
Qed.

Lemma reset_ring_inv (s : stream) :
  ring_inv s -> ring_inv (fst (reset s)).
Proof.
  intros H. unfold reset. destruct (playing s); [exact H|].
  destruct (negb (getbuf_last s =? 0)); [exact H|].
  destruct H as (HB & _). cbn [fst]. unfold ring_inv.
  destruct (EDataFlow_eqb (flow s) eRender); stream_cbn;
    rewrite Z.mod_0_l by lia; repeat split; lia.
Qed.

Lemma ca_capture_cb_cap_ring_inv (s : stream) (nframes hw_sc : Z)
    (hw_data : list Z) :
  cap_ring_inv s ->
  cap_ring_inv (fst (ca_capture_cb s nframes hw_sc hw_data)).
Proof.
  intros (HB & Hheld & Hoffs). unfold ca_capture_cb.
  set (use_wrap := negb (playing s) || _).
  set (s1 := if use_wrap then _ else s).
  assert (Hs1 : cap_bufsize_frames s1 = cap_bufsize_frames s
                /\ cap_held_frames s1 = cap_held_frames s
                /\ cap_offs_frames s1 = cap_offs_frames s
                /\ playing s1 = playing s).
  { unfold s1. destruct use_wrap; [destruct (wrap_bufsize_frames s <? nframes)|];
      repeat split. }
  destruct Hs1 as (E1 & E2 & E3 & E4).
  set (s2 := if use_wrap then _ else _).
  assert (Hs2 : cap_bufsize_frames s2 = cap_bufsize_frames s
                /\ cap_held_frames s2 = cap_held_frames s
                /\ cap_offs_frames s2 = cap_offs_frames s
                /\ playing s2 = playing s).
  { unfold s2. destruct use_wrap; stream_cbn; repeat split; assumption. }
  destruct Hs2 as (F1 & F2 & F3 & F4).
  assert (H2 : cap_ring_inv s2) by (unfold cap_ring_inv; rewrite F1, F2, F3; lia).
  destruct (negb (hw_sc =? noErr)); [exact H2|].
  destruct (playing s2); [|exact H2].
  set (s3 := if use_wrap then _ else s2).
  assert (Hs3 : cap_bufsize_frames s3 = cap_bufsize_frames s
                /\ cap_held_frames s3 = cap_held_frames s
                /\ cap_offs_frames s3 = cap_offs_frames s).
  { unfold s3. destruct use_wrap; stream_cbn; repeat split; assumption. }
  destruct Hs3 as (G1 & G2 & G3). rewrite G1, G2, G3.
  set (held := wrap32 _).
  assert (Hw : 0 <= held < 4294967296) by apply wrap32_range.
  destruct (Z.gtb_spec held (cap_bufsize_frames s)); cbn [fst];
    unfold cap_ring_inv; stream_cbn; rewrite ?G1.
  - pose proof (Z.mod_pos_bound
                  (wrap32 (cap_offs_frames s + held mod cap_bufsize_frames s))
                  (cap_bufsize_frames s) (proj1 HB)).
    repeat split; lia.
  - rewrite G3. repeat split; lia.
Qed.

(** The read offset after the saturating branch of the drain. *)
Lemma buf_ptr_diff_advance (lcl wri B : Z) :
  0 < B <= 1073741823 -> 0 <= lcl < 2 * B -> 0 <= wri < B ->
  wrap32 (lcl + buf_ptr_diff lcl wri B) = if lcl <=? wri then wri else B + wri.
Proof.
  intros HB Hlcl Hwri. unfold buf_ptr_diff.
  destruct (Z.leb_spec lcl wri).
  - rewrite (wrap32_small (wri - lcl)) by lia. rewrite wrap32_small; lia.
  - rewrite (wrap32_small (lcl - wri)) by lia.
    destruct (Z.le_gt_cases (lcl - wri) B).
    + rewrite (wrap32_small (B - (lcl - wri))) by lia.
      rewrite wrap32_small; lia.
    + unfold wrap32 at 2. rewrite mod_below by lia.
      unfold wrap32. rewrite mod_above by lia. lia.
Qed.

Lemma feed_cb_cap_ring_inv (s : stream) (req : Z) :
  0 <= req < 4294967296 -> cap_ring_inv s ->
  cap_ring_inv (fst (fst (feed_cb s req))).
Proof.
  intros Hreq (HB & Hheld & Hoffs). unfold feed_cb. rewrite min_spec.
  set (n := Z.min req (cap_held_frames s)).
  destruct (Z.eqb_spec n 0); [cbn [fst]; unfold cap_ring_inv; lia|].
  set (br := if wrap32 (cap_offs_frames s + n) >? cap_bufsize_frames s
             then _ else _).
  assert (Hbr : cap_held_frames (fst br) = cap_held_frames s
                /\ cap_offs_frames (fst br) = cap_offs_frames s
                /\ cap_bufsize_frames (fst br) = cap_bufsize_frames s).
  { unfold br.
    destruct (wrap32 (cap_offs_frames s + n) >? cap_bufsize_frames s);
      [destruct (wrap_bufsize_frames s <? n)|]; cbn [fst]; repeat split. }
  destruct br as [s1 data]. cbn [fst] in *. destruct Hbr as (E1 & E2 & E3).
  unfold cap_ring_inv. stream_cbn. rewrite E1, E3.
  rewrite (wrap32_small (cap_held_frames s - n)) by (unfold n; lia).
  pose proof (Z.mod_pos_bound (wrap32 (cap_offs_frames s1 + n))
                (cap_bufsize_frames s) (proj1 HB)).
  unfold n in *. repeat split; lia.
Qed.

Lemma run_converter_cap_ring_inv (r : conv_run conv_state) :
  conv_run_ok r ->
  forall s : stream,
  cap_ring_inv s ->
  cap_ring_inv (fst (fst (fst (fst (run_converter r s))))).
Proof.
  induction r as [sc produced out c'|req k IH]; intros Hok s Hinv.
  - exact Hinv.
  - cbn [run_converter]. destruct Hok as [Hreq Hk].
    pose proof (feed_cb_cap_ring_inv s req Hreq Hinv) as Hf.
    destruct (feed_cb s req) as [[s1 n] data]. cbn [fst] in Hf.
    exact (IH n data (Hk n data) s1 Hf).
Qed.

Lemma run_converter_produces (w : Z) (r : conv_run conv_state) :
  produces_at_most w r ->
  forall s : stream,
  let '(_, _, produced, _, _) := run_converter r s in 0 <= produced <= w.
Proof.
  induction r as [sc produced out c'|req k IH]; intros Hp s.
  - exact Hp.
  - cbn [run_converter]. destruct (feed_cb s req) as [[s1 n] data].
    exact (IH n data (Hp n data) s1).
Qed.

(** One iteration of the drain keeps the client ring up to one turn of
    the read offset, and the raw ring. *)
Lemma capture_resample_body_ring_inv_mod (s : stream) :
  conv_run_ok (AudioConverterFillComplexBuffer (converter s) (period_frames s)) ->
  produces_at_most (period_frames s)
    (AudioConverterFillComplexBuffer (converter s) (period_frames s)) ->
  0 <= period_frames s <= 2147483647 ->
  bufsize_frames s <= 1073741823 ->
  ring_inv_mod s -> cap_ring_inv s ->
  ring_inv_mod (fst (capture_resample_body AudioConverterFillComplexBuffer s))
  /\ cap_ring_inv (fst (capture_resample_body AudioConverterFillComplexBuffer s)).
Proof.
  intros Hok Hmost Hper HBmax (HB & Hheld & Hlcl & Hwri & Hinv) Hcap.
  assert (Hch : 0 <= cap_held_frames s < 4294967296)
    by (destruct Hcap as (? & ? & ?); lia).
  pose proof (capture_resample_body_spec s Hok Hch) as Hbody.
  pose proof (run_converter_produces _ _ Hmost (grow_resamp_buffer s)) as Hprod.
  pose proof (run_converter_cap_ring_inv _ Hok (grow_resamp_buffer s)) as Hcap2.
  cbn zeta in Hbody.
  destruct (run_converter _ (grow_resamp_buffer s))
    as [[[[s2 sc] produced] out] c'] eqn:Heqrun.
  cbn [fst] in Hcap2.
  destruct (capture_resample_body AudioConverterFillComplexBuffer s)
    as [s1 continue] eqn:Heqbody.
  destruct Hbody as (_ & Hcfg & _ & Hc2 & _ & _ & _ & _ & Hfail & Hgo).
  cbn [fst]. unfold stream_config in Hcfg.
  assert (EB : bufsize_frames s1 = bufsize_frames s) by congruence.
  assert (EC : cap_bufsize_frames s1 = cap_bufsize_frames s) by congruence.
  split.
  - destruct continue.
    + destruct (Hgo eq_refl) as (Hw1 & Hh1 & _ & Hl1).
      rewrite (wrap32_small (wri_offs_frames s + produced)) in Hw1 by lia.
      rewrite (wrap32_small (held_frames s + produced)) in Hh1, Hl1 by lia.
      pose proof (Z.mod_pos_bound (wri_offs_frames s + produced)
                    (bufsize_frames s) HB) as Hwb.
      unfold ring_inv_mod. rewrite EB.
      assert (Hw2 : wri_offs_frames s1
                    = (lcl_offs_frames s + held_frames s + produced)
                      mod bufsize_frames s).
      { rewrite Hw1, Hinv. rewrite Z.add_mod_idemp_l by lia. reflexivity. }
      destruct (Z.gtb_spec (held_frames s + produced) (bufsize_frames s)).
      * rewrite buf_ptr_diff_advance in Hl1 by lia.
        rewrite Hh1, Hl1.
        destruct (Z.leb_spec (lcl_offs_frames s) (wri_offs_frames s1)).
        -- repeat split; try lia.
           rewrite <- (Z.mul_1_l (bufsize_frames s)) at 1.
           rewrite Z.mod_add by lia. rewrite Z.mod_small; lia.
        -- repeat split; try lia.
           replace (bufsize_frames s + wri_offs_frames s1 + bufsize_frames s)
             with (wri_offs_frames s1 + 2 * bufsize_frames s) by lia.
           rewrite Z.mod_add by lia. rewrite Z.mod_small; lia.
      * rewrite Hh1, Hl1. repeat split; try lia.
        rewrite Hw2. f_equal. lia.
    + specialize (Hfail eq_refl). unfold client_ring in Hfail.
      unfold ring_inv_mod. rewrite EB.
      replace (held_frames s1) with (held_frames s) by congruence.
      replace (lcl_offs_frames s1) with (lcl_offs_frames s) by congruence.
      replace (wri_offs_frames s1) with (wri_offs_frames s) by congruence.
      repeat split; lia.
  - assert (Hg : cap_ring_inv (grow_resamp_buffer s)).
    { unfold grow_resamp_buffer.
      destruct (resamp_bufsize_frames s <? period_frames s); exact Hcap. }
    specialize (Hcap2 Hg). clear - Hcap2 Heqrun Heqbody.
    destruct (grow_resamp_buffer_spec s) as (_ & _ & _ & Gc & _).
    unfold capture_resample_body in Heqbody. cbn zeta in Heqbody.
    rewrite Gc, Heqrun in Heqbody.
    destruct (negb (sc =? noErr));
      [|destruct (wrap32 _ >? _)];
      injection Heqbody as <- _; exact Hcap2.
Qed.

Section DrainInvariant.

Variable period : Z.

Hypothesis converter_ok :
  forall c, conv_run_ok (AudioConverterFillComplexBuffer c period).
Hypothesis converter_bounded :
  forall c, produces_at_most period (AudioConverterFillComplexBuffer c period).

(** X26.  With a converter that produces no more frames than it is
    asked for, the drain as a whole keeps the invariant of the raw ring,
    and that of the client ring up to one turn of the read offset: the
    held count and the write offset stay inside the ring, the write
    offset is the read offset plus the held count modulo the ring size,
    and the read offset stays below twice the ring size. *)
Lemma capture_resample_loop_ring_inv_mod (fuel : nat) (resamp : Z) :
  forall s s' : stream,
  period_frames s = period -> 0 <= period <= 2147483647 ->
  bufsize_frames s <= 1073741823 ->
  ring_inv_mod s -> cap_ring_inv s ->
  capture_resample_loop AudioConverterFillComplexBuffer fuel resamp s = Some s' ->
  ring_inv_mod s' /\ cap_ring_inv s'.
Proof.
  induction fuel as [|fuel IH]; intros s s' Hper Hp HBmax Hinv Hcap Hrun;
    cbn [capture_resample_loop] in Hrun;
    destruct (cap_held_frames s >? wrap32 (resamp * 2));
    try discriminate; try (injection Hrun as <-; split; assumption).
  assert (Hok : conv_run_ok (AudioConverterFillComplexBuffer (converter s)
                               (period_frames s)))
    by (rewrite Hper; apply converter_ok).
  assert (Hmost : produces_at_most (period_frames s)
                    (AudioConverterFillComplexBuffer (converter s)
                       (period_frames s)))
    by (rewrite Hper; apply converter_bounded).
  assert (Hp' : 0 <= period_frames s <= 2147483647) by lia.
  pose proof (capture_resample_body_ring_inv_mod s Hok Hmost Hp' HBmax Hinv Hcap)
    as [Hinv1 Hcap1].
  assert (Hch : 0 <= cap_held_frames s < 4294967296)
    by (destruct Hcap as (? & ? & ?); lia).
  pose proof (capture_resample_body_spec s Hok Hch) as Hbody.
  cbn zeta in Hbody.
  destruct (run_converter _ (grow_resamp_buffer s))
    as [[[[s2 sc] produced] out] c'].
  destruct (capture_resample_body AudioConverterFillComplexBuffer s)
    as [s1 continue].
  destruct Hbody as (_ & Hcfg & _). unfold stream_config in Hcfg.
  cbn [fst] in Hinv1, Hcap1.
  destruct continue.
  - apply (IH s1 s'); try assumption; congruence.
  - injection Hrun as <-. split; assumption.
Qed.

End DrainInvariant.
End Properties.

(** * Arithmetic helpers of the driver *)

(** ** muldiv *)

(** X1.  [muldiv] returns -1 when the divisor is 0, and whatever its
    arguments its result lies between -2147483647 and 2147483647: a
    quotient outside that range is replaced by -1. *)
Theorem muldiv_range (a b c : Z) :
  (c = 0 -> muldiv a b c = -1)
  /\ -2147483647 <= muldiv a b c <= 2147483647.
Proof.
  unfold muldiv. split.
  - intros ->. reflexivity.
  - destruct (c =? 0); [lia|].
    match goal with
    | |- context [if (?r >? 2147483647) || (?r <? -2147483647) then _ else _] =>
        destruct (Z.gtb_spec r 2147483647); cbn [orb]; [lia|];
        destruct (Z.ltb_spec r (-2147483647)); lia
    end.
Qed.

Lemma quot_round_nonneg (p c : Z) :
  0 <= p -> 0 < c ->
  Z.quot (p + Z.quot c 2) c = (p + c / 2) / c
  /\ Z.quot (- p - Z.quot c 2) c = - ((p + c / 2) / c).
Proof.
  intros Hp Hc.
  assert (H2 : Z.quot c 2 = c / 2) by (apply Z.quot_div_nonneg; lia).
  rewrite H2.
  assert (0 <= c / 2) by (apply Z.div_pos; lia).
  split.
  - apply Z.quot_div_nonneg; lia.
  - replace (- p - c / 2) with (- (p + c / 2)) by lia.
    rewrite Z.quot_opp_l by lia. f_equal. apply Z.quot_div_nonneg; lia.
Qed.

(** X2.  For a divisor other than 0 and a quotient that fits, [muldiv a
    b c] is [a * b / c] rounded to the nearest integer, halves away from
    zero, whatever the signs of [a], [b] and [c]: its magnitude is [(|a
    * b| + |c| / 2) / |c|], its sign the sign of [a * b * c], and it is
    off the exact quotient by at most one half. *)
Theorem muldiv_nearest (a b c : Z) :
  -2147483647 <= a <= 2147483647 ->
  -2147483647 <= c <= 2147483647 -> c <> 0 ->
  (Z.abs (a * b) + Z.abs c / 2) / Z.abs c <= 2147483647 ->
  let q := (Z.abs (a * b) + Z.abs c / 2) / Z.abs c in
  muldiv a b c = Z.sgn (a * b) * Z.sgn c * q
  /\ 2 * Z.abs (a * b - muldiv a b c * c) <= Z.abs c.
Proof.
  intros Ha Hc Hc0 Hq q.
  assert (Hq0 : 0 <= q) by (apply Z.div_pos; [|lia];
    assert (0 <= Z.abs c / 2) by (apply Z.div_pos; lia); lia).
  assert (Hz : a * b = 0 -> q = 0).
  { intros E. unfold q. rewrite E. cbn [Z.abs]. rewrite Z.add_0_l.
    apply Z.div_small. split; [apply Z.div_pos; lia|].
    apply Z.div_lt; lia. }
  assert (Hmd : muldiv a b c = Z.sgn (a * b) * Z.sgn c * q).
  { unfold muldiv. destruct (Z.eqb_spec c 0) as [|_]; [lia|].
    set (a' := if c <? 0 then to_int32 (- a) else a).
    set (c' := if c <? 0 then to_int32 (- c) else c).
    assert (Hc' : c' = Z.abs c).
    { unfold c'. destruct (Z.ltb_spec c 0).
      - rewrite to_int32_small by lia. lia.
      - lia. }
    assert (Ha' : a' = Z.sgn c * a).
    { unfold a'. destruct (Z.ltb_spec c 0).
      - destruct (Z.le_gt_cases 0 (- a)).
        + rewrite to_int32_small by lia. nia.
        + replace (- a) with (- (a)) by lia.
          rewrite to_int32_neg by lia. nia.
      - nia. }
    assert (Hp : Z.abs (a' * b) = Z.abs (a * b)) by (rewrite Ha'; nia).
    assert (Hs : Z.sgn (a' * b) = Z.sgn (a * b) * Z.sgn c) by (rewrite Ha'; nia).
    rewrite Hc'.
    destruct (quot_round_nonneg (Z.abs (a * b)) (Z.abs c)) as [Q1 Q2]; [lia|lia|].
    fold q in Q1, Q2.
    assert (Hret :
      (if (a' <? 0) && (b <? 0) || (a' >=? 0) && (b >=? 0)
       then Z.quot (a' * b + Z.quot (Z.abs c) 2) (Z.abs c)
       else Z.quot (a' * b - Z.quot (Z.abs c) 2) (Z.abs c))
      = Z.sgn (a * b) * Z.sgn c * q).
    { destruct (Z.ltb_spec a' 0); destruct (Z.ltb_spec b 0);
        destruct (Z.geb_spec a' 0); destruct (Z.geb_spec b 0);
        cbn [andb orb]; try lia.
      - assert (a' * b = Z.abs (a * b)) by nia.
        replace (a' * b) with (Z.abs (a * b)) by lia. rewrite Q1. nia.
      - assert (a' * b = - Z.abs (a * b)) by nia.
        replace (a' * b) with (- Z.abs (a * b)) by lia. rewrite Q2.
        destruct (Z.eq_dec (a * b) 0) as [E|]; [rewrite (Hz E); nia|nia].
      - assert (a' * b = - Z.abs (a * b)) by nia.
        replace (a' * b) with (- Z.abs (a * b)) by lia. rewrite Q2.
        destruct (Z.eq_dec (a * b) 0) as [E|]; [rewrite (Hz E); nia|nia].
      - assert (a' * b = Z.abs (a * b)) by nia.
        replace (a' * b) with (Z.abs (a * b)) by lia. rewrite Q1.
        destruct (Z.eq_dec (a * b) 0) as [E|]; [rewrite (Hz E); nia|nia]. }
    rewrite Hret.
    destruct (Z.gtb_spec (Z.sgn (a * b) * Z.sgn c * q) 2147483647); [nia|].
    destruct (Z.ltb_spec (Z.sgn (a * b) * Z.sgn c * q) (-2147483647)); [nia|].
    reflexivity. }
  split; [exact Hmd|]. rewrite Hmd.
  assert (Hdm := Z.div_mod (Z.abs (a * b) + Z.abs c / 2) (Z.abs c) ltac:(lia)).
  assert (Hmb := Z.mod_pos_bound (Z.abs (a * b) + Z.abs c / 2) (Z.abs c) ltac:(lia)).
  fold q in Hdm.
  assert (Hh := Z.div_mod (Z.abs c) 2 ltac:(lia)).
  assert (Hhb := Z.mod_pos_bound (Z.abs c) 2 ltac:(lia)).
  set (m := (Z.abs (a * b) + Z.abs c / 2) mod Z.abs c) in *.
  set (h := Z.abs c / 2) in *.
  assert (Habs : Z.abs (a * b - Z.sgn (a * b) * Z.sgn c * q * c)
                 = Z.abs (Z.abs (a * b) - q * Z.abs c)).
  { destruct (Z.sgn_spec (a * b)) as [[? E]|[[? E]|[? E]]];
      destruct (Z.sgn_spec c) as [[? F]|[[? F]|[? F]]]; rewrite E, F; try lia;
      try (rewrite Hz by lia);
      rewrite ?(Z.abs_eq c), ?(Z.abs_neq c), ?(Z.abs_eq (a * b)),
        ?(Z.abs_neq (a * b)) by lia; lia. }
  rewrite Habs. nia.
Qed.

(** ** Distances and copies in a ring *)

(** X3.  For two offsets inside a ring of [bufsize] frames,
    [buf_ptr_diff left right bufsize] is the distance from [left]
    forward to [right]: it is at least 0 and below [bufsize], going
    forward by it from [left] arrives at [right] modulo [bufsize], and
    it is 0 exactly when the offsets are equal. *)
Theorem buf_ptr_diff_forward (left right bufsize : Z) :
  0 < bufsize < 4294967296 ->
  0 <= left < bufsize -> 0 <= right < bufsize ->
  let d := buf_ptr_diff left right bufsize in
  0 <= d < bufsize
  /\ (left + d) mod bufsize = right
  /\ (d = 0 <-> left = right).
Proof.
  intros HB Hl Hr d. unfold d, buf_ptr_diff.
  destruct (Z.leb_spec left right).
  - rewrite wrap32_small by lia.
    split; [lia|]. split; [|lia].
    replace (left + (right - left)) with right by lia.
    apply Z.mod_small; lia.
  - rewrite (wrap32_small (left - right)) by lia.
    rewrite wrap32_small by lia.
    split; [lia|]. split; [|lia].
    replace (left + (bufsize - (left - right))) with (right + 1 * bufsize) by lia.
    rewrite Z.mod_add by lia. apply Z.mod_small; lia.
Qed.

(** X4.  [ca_wrap_buffer] copies [src_bytes] bytes into a ring of
    [dst_bytes] bytes from [dst_offs] on, going round the end of the
    ring: read back from [dst_offs] modulo [dst_bytes] the ring gives
    the source bytes in order, every byte the copy does not reach is as
    before, and the ring keeps its length. *)
Theorem ca_wrap_buffer_round_trip (dst src : list Z)
    (dst_offs dst_bytes src_bytes : Z) :
  Z.of_nat (length dst) = dst_bytes -> dst_bytes < 4294967296 ->
  0 <= dst_offs < dst_bytes ->
  0 <= src_bytes <= dst_bytes ->
  src_bytes <= Z.of_nat (length src) ->
  let out := ca_wrap_buffer dst dst_offs dst_bytes src src_bytes in
  length out = length dst
  /\ (forall j, 0 <= j < src_bytes ->
        byte_at out ((dst_offs + j) mod dst_bytes) = byte_at src j)
  /\ (forall i, 0 <= i < dst_bytes ->
        src_bytes <= (i - dst_offs) mod dst_bytes ->
        byte_at out i = byte_at dst i).
Proof.
  intros Hlen Hmax Hoffs Hsrc Hsl out.
  destruct (ca_wrap_buffer_spec dst src dst_offs dst_bytes src_bytes
              Hlen Hmax Hoffs Hsrc Hsl) as [Hl Hb].
  fold out in Hl, Hb.
  split; [exact Hl|]. split.
  - intros j Hj.
    assert (Hm := Z.mod_pos_bound (dst_offs + j) dst_bytes ltac:(lia)).
    rewrite Hb by lia.
    assert (E : ((dst_offs + j) mod dst_bytes - dst_offs) mod dst_bytes = j).
    { rewrite Zminus_mod_idemp_l.
      replace (dst_offs + j - dst_offs) with j by lia.
      apply Z.mod_small; lia. }
    rewrite E. destruct (Z.ltb_spec j src_bytes); [reflexivity|lia].
  - intros i Hi Hfar. rewrite Hb by lia.
    destruct (Z.ltb_spec ((i - dst_offs) mod dst_bytes) src_bytes); [lia|].
    reflexivity.
Qed.

(** * Channel layouts *)

Lemma speaker_count_acc (l : list nat) (mask acc : Z) :
  fold_left (fun n i => if Z.testbit mask (Z.of_nat i) then n + 1 else n) l acc
  = acc + fold_left (fun n i => if Z.testbit mask (Z.of_nat i) then n + 1 else n) l 0.
Proof.
  revert acc. induction l as [|i l IH]; intros acc; cbn [fold_left].
  - lia.
  - rewrite IH. rewrite (IH (if Z.testbit mask (Z.of_nat i) then 0 + 1 else 0)).
    destruct (Z.testbit mask (Z.of_nat i)); lia.
Qed.

Lemma speaker_count_lor_bits (l : list nat) (a b : Z) :
  fold_left (fun n i => if Z.testbit (Z.lor a b) (Z.of_nat i) then n + 1 else n) l 0
  <= fold_left (fun n i => if Z.testbit a (Z.of_nat i) then n + 1 else n) l 0
     + fold_left (fun n i => if Z.testbit b (Z.of_nat i) then n + 1 else n) l 0.
Proof.
  induction l as [|i l IH]; cbn [fold_left]; [lia|].
  rewrite (speaker_count_acc l (Z.lor a b)), (speaker_count_acc l a),
    (speaker_count_acc l b).
  rewrite Z.lor_spec.
  destruct (Z.testbit a (Z.of_nat i)), (Z.testbit b (Z.of_nat i));
    cbn [orb]; lia.
Qed.

Lemma speaker_count_lor (a b : Z) :
  speaker_count (Z.lor a b) <= speaker_count a + speaker_count b.
Proof. apply speaker_count_lor_bits. Qed.

Lemma channel_label_speaker_one (label speaker : Z) :
  channel_label_speaker label = Some speaker ->
  speaker_count speaker = 1 /\ 0 < speaker /\ Z.shiftr speaker 18 = 0.
Proof.
  unfold channel_label_speaker.
  repeat match goal with
         | |- context [if ?c then _ else _] =>
             destruct c;
             [intros E; injection E as <-; repeat split; reflexivity|]
         end.
  discriminate.
Qed.

Lemma layout_mask_bits (l : list Z) (m : Z) (i : Z) :
  Z.testbit
    (fold_left
       (fun mask label =>
          match channel_label_speaker label with
          | Some speaker => Z.lor mask speaker
          | None => mask
          end) l m) i
  = Z.testbit m i
    || existsb (fun label =>
                  match channel_label_speaker label with
                  | Some speaker => Z.testbit speaker i
                  | None => false
                  end) l.
Proof.
  revert m. induction l as [|x l IH]; intros m; cbn [fold_left existsb].
  - now rewrite orb_false_r.
  - rewrite IH. destruct (channel_label_speaker x).
    + rewrite Z.lor_spec. now rewrite orb_assoc.
    + reflexivity.
Qed.

Lemma layout_mask_bound (l : list Z) (m : Z) :
  0 <= m -> Z.shiftr m 18 = 0 ->
  let r := fold_left
       (fun mask label =>
          match channel_label_speaker label with
          | Some speaker => Z.lor mask speaker
          | None => mask
          end) l m in
  0 <= r /\ Z.shiftr r 18 = 0
  /\ speaker_count r <= speaker_count m + Z.of_nat (length l).
Proof.
  revert m. induction l as [|x l IH]; intros m Hm Hs; cbn [fold_left length].
  - cbn zeta. lia.
  - destruct (channel_label_speaker x) as [sp|] eqn:E.
    + destruct (channel_label_speaker_one _ _ E) as (C1 & P & S).
      destruct (IH (Z.lor m sp)) as (R1 & R2 & R3).
      * apply Z.lor_nonneg. lia.
      * rewrite Z.shiftr_lor, Hs, S. reflexivity.
      * cbn zeta in *. split; [exact R1|]. split; [exact R2|].
        pose proof (speaker_count_lor m sp). lia.
    + destruct (IH m Hm Hs) as (R1 & R2 & R3). cbn zeta in *.
      split; [exact R1|]. split; [exact R2|]. lia.
Qed.

Lemma shiftr_18_bound (m : Z) : 0 <= m -> Z.shiftr m 18 = 0 -> m < 262144.
Proof.
  intros Hm Hs. rewrite Z.shiftr_div_pow2 in Hs by lia.
  change (2 ^ 18) with 262144 in Hs.
  destruct (Z.lt_ge_cases m 262144); [assumption|].
  assert (1 <= m / 262144) by (apply Z.div_le_lower_bound; lia). lia.
Qed.

Lemma below_reserved (m : Z) : 0 <= m < 262144 -> Z.land m SPEAKER_RESERVED = 0.
Proof.
  intros H. apply Z.bits_inj'. intros i Hi.
  rewrite Z.land_spec, Z.bits_0.
  destruct (Z.lt_ge_cases i 18).
  - replace (Z.testbit SPEAKER_RESERVED i) with false; [apply andb_false_r|].
    change SPEAKER_RESERVED with (8191 * 2 ^ 18).
    symmetry. apply Z.mul_pow2_bits_low. lia.
  - replace (Z.testbit m i) with false; [reflexivity|].
    symmetry. destruct (Z.eq_dec m 0) as [->|]; [apply Z.bits_0|].
    apply Z.bits_above_log2; [lia|].
    assert (Z.log2 m < 18) by (apply Z.log2_lt_pow2; lia). lia.
Qed.

(** X5.  [get_channel_mask] gives a mask with exactly [channels]
    speakers for every count from 0 to 8 and the empty mask for every
    other count, and never sets a reserved bit. *)
Theorem get_channel_mask_speakers (channels : Z) :
  (0 <= channels <= 8 ->
   speaker_count (get_channel_mask channels) = channels)
  /\ (channels < 0 \/ 8 < channels -> get_channel_mask channels = 0)
  /\ Z.land (get_channel_mask channels) SPEAKER_RESERVED = 0.
Proof.
  split; [|split].
  - intros H.
    assert (E : channels = 0 \/ channels = 1 \/ channels = 2 \/ channels = 3
                \/ channels = 4 \/ channels = 5 \/ channels = 6
                \/ channels = 7 \/ channels = 8) by lia.
    repeat (destruct E as [->|E]; [reflexivity|]). subst. reflexivity.
  - intros H. unfold get_channel_mask.
    repeat match goal with
           | |- context [?a =? ?b] => destruct (Z.eqb_spec a b); [lia|]
           end.
    reflexivity.
  - unfold get_channel_mask.
    repeat match goal with
           | |- context [?a =? ?b] =>
               destruct (Z.eqb_spec a b); [reflexivity|]
           end.
    reflexivity.
Qed.

(** X6.  The mask [ca_channel_layout_to_channel_mask] computes is the
    union of the speakers of the layout's channel labels, so it does not
    depend on their order; labels the switch does not handle add
    nothing.  The mask stays within the 18 speaker positions, sets no
    reserved bit and has at most as many speakers as the layout has
    channel descriptions. *)
Theorem ca_channel_layout_to_channel_mask_union (layout : AudioChannelLayout) :
  let mask := ca_channel_layout_to_channel_mask layout in
  (forall i,
     Z.testbit mask i = true <->
     exists label speaker,
       In label (mChannelDescriptions layout)
       /\ channel_label_speaker label = Some speaker
       /\ Z.testbit speaker i = true)
  /\ 0 <= mask < 262144
  /\ Z.land mask SPEAKER_RESERVED = 0
  /\ speaker_count mask <= mNumberChannelDescriptions layout.
Proof.
  intros mask.
  destruct (layout_mask_bound (mChannelDescriptions layout) 0)
    as (R1 & R2 & R3); [lia|reflexivity|].
  cbn zeta in R1, R2, R3.
  change (fold_left _ (mChannelDescriptions layout) 0) with mask in R1, R2, R3.
  assert (Hb : 0 <= mask < 262144) by (split; [lia|now apply shiftr_18_bound]).
  split; [|split; [exact Hb|split; [now apply below_reserved|]]].
  - intros i. unfold mask, ca_channel_layout_to_channel_mask.
    rewrite layout_mask_bits, Z.bits_0. cbn [orb].
    rewrite existsb_exists. split.
    + intros (label & Hin & Hbit).
      destruct (channel_label_speaker label) as [sp|] eqn:E; [|discriminate].
      exists label, sp. auto.
    + intros (label & sp & Hin & E & Hbit). exists label. rewrite E. auto.
  - change (speaker_count 0) with 0 in R3. unfold mNumberChannelDescriptions. lia.
Qed.

Lemma wrap16_small (x : Z) : 0 <= x < 65536 -> wrap16 x = x.
Proof. intros H. unfold wrap16. now apply Z.mod_small. Qed.

Lemma wrap16_range (x : Z) : 0 <= wrap16 x < 65536.
Proof. unfold wrap16. apply Z.mod_pos_bound. lia. Qed.



(** * Formats *)

Lemma osstatus_to_hresult_failed (sc : Z) :
  DEVICE_FAILED (osstatus_to_hresult sc) = true
  /\ osstatus_to_hresult sc <> HR S_OK
  /\ osstatus_to_hresult sc <> HR S_FALSE
  /\ osstatus_to_hresult sc <> E_POINTER
  /\ osstatus_to_hresult sc <> E_INVALIDARG.
Proof.
  unfold osstatus_to_hresult.
  destruct (_ || _); [repeat split; discriminate|].
  destruct (_ =? _); repeat split; discriminate.
Qed.



Lemma convert_channel_layout_nonneg (l : AudioChannelLayout) :
  0 <= fst (convert_channel_layout l).
Proof.
  unfold convert_channel_layout.
  repeat match goal with
         | |- context [if ?c then _ else _] => destruct c; [cbn; lia|]
         end.
  cbn. apply wrap16_range.
Qed.

Lemma quot_block (ch : Z) : 0 <= ch -> Z.quot (32 * ch) 8 = 4 * ch.
Proof.
  intros H. replace (32 * ch) with (4 * ch * 8) by lia.
  apply Z.quot_mul. lia.
Qed.

Lemma sum_channels_nonneg (l : list Z) (n : Z) :
  0 <= n -> 0 <= fold_left (fun n m => wrap16 (n + m)) l n.
Proof.
  revert n. induction l as [|x l IH]; intros n Hn; cbn [fold_left]; [lia|].
  apply IH. apply wrap16_range.
Qed.

(** X9.  [get_mix_format] never returns S_FALSE, and when it succeeds
    the format is extensible 32-bit IEEE float at the device's nominal
    rate, with [cbSize] 22, all 32 bits valid, [nBlockAlign] four bytes
    per channel and [nAvgBytesPerSec] the rate times [nBlockAlign].  The
    channels and the mask are those of [convert_channel_layout] when the
    preferred layout can be read, uses channel descriptions and converts
    to a count other than 0; otherwise the channel count is the sum of
    the channels of the stream configuration and the mask that of
    [get_channel_mask]. *)
Theorem get_mix_format_spec (malloc_ok : bool) (device : AudioDevice)
    (fmt : WAVEFORMATEXTENSIBLE) :
  let layout := PreferredChannelLayout device in
  let described :=
    (PreferredChannelLayout_size_sc device =? noErr)
    && (PreferredChannelLayout_sc device =? noErr)
    && (mChannelLayoutTag layout
        =? kAudioChannelLayoutTag_UseChannelDescriptions)
    && negb (fst (convert_channel_layout layout) =? 0) in
  let '(result, out) := get_mix_format malloc_ok device fmt in
  result <> HR S_FALSE
  /\ (DEVICE_FAILED result = false -> result = HR S_OK)
  /\ (result = HR S_OK ->
      wFormatTag (Format out) = WAVE_FORMAT_EXTENSIBLE
      /\ cbSize out = 22
      /\ wBitsPerSample (Format out) = 32
      /\ wValidBitsPerSample out = 32
      /\ SubFormat_is_IEEE_FLOAT out = true
      /\ SubFormat_is_PCM (Format out) = false
      /\ nSamplesPerSec (Format out) = NominalSampleRate device
      /\ 0 <= nChannels (Format out) < 65536
      /\ nBlockAlign (Format out) = wrap16 (4 * nChannels (Format out))
      /\ nAvgBytesPerSec out
         = wrap32 (nSamplesPerSec (Format out) * nBlockAlign (Format out))
      /\ (described = true ->
          (nChannels (Format out), dwChannelMask out)
          = convert_channel_layout layout)
      /\ (described = false ->
          nChannels (Format out)
          = fold_left (fun n m => wrap16 (n + m)) (StreamConfiguration device) 0
          /\ dwChannelMask out = get_channel_mask (nChannels (Format out))
          /\ StreamConfiguration_size_sc device = noErr
          /\ StreamConfiguration_sc device = noErr /\ malloc_ok = true)
      /\ NominalSampleRate_sc device = noErr).
Proof.
  intros layout descr. unfold get_mix_format. fold layout.
  set (f1 := set_wFormatTag fmt WAVE_FORMAT_EXTENSIBLE).
  set (f2 := if PreferredChannelLayout_size_sc device =? noErr then _ else _).
  assert (Hf2 : wFormatTag (Format f2) = WAVE_FORMAT_EXTENSIBLE
                /\ 0 <= nChannels (Format f2) < 65536
                /\ (descr = true ->
                    (nChannels (Format f2), dwChannelMask f2)
                    = convert_channel_layout layout
                    /\ nChannels (Format f2) <> 0)
                /\ (descr = false -> nChannels (Format f2) = 0)).
  { unfold f2, descr.
    destruct (PreferredChannelLayout_size_sc device =? noErr); cbn [andb];
      [|cbn; repeat split; try lia; try discriminate].
    destruct (PreferredChannelLayout_sc device =? noErr); cbn [andb];
      [|cbn; repeat split; try lia; try discriminate].
    destruct (mChannelLayoutTag layout
              =? kAudioChannelLayoutTag_UseChannelDescriptions); cbn [andb];
      [|cbn; repeat split; try lia; try discriminate].
    pose proof (convert_channel_layout_nonneg layout) as Hnn.
    assert (Hlt : fst (convert_channel_layout layout) < 65536).
    { unfold convert_channel_layout.
      repeat match goal with
             | |- context [if ?c then _ else _] => destruct c; [cbn; lia|]
             end.
      cbn. apply wrap16_range. }
    destruct (convert_channel_layout layout) as [ch mk]. cbn [fst] in *.
    cbn. split; [reflexivity|]. split; [lia|].
    destruct (Z.eqb_spec ch 0); cbn [negb]; split; try discriminate; auto. }
  destruct Hf2 as (Ht & Hc & Hd & Hnd). clearbody f2.
  destruct (Z.eqb_spec (nChannels (Format f2)) 0) as [E0|E0].
  - (* the layout is guessed from the stream configuration *)
    assert (Hdf : descr = false).
    { destruct descr; [destruct (Hd eq_refl); contradiction|reflexivity]. }
    destruct (StreamConfiguration_size_sc device =? noErr) eqn:S1; cbn [negb].
    2:{ destruct (osstatus_to_hresult_failed (StreamConfiguration_size_sc device))
          as (F1 & F2 & F3 & _).
        split; [assumption|]. split; [congruence|]. intros; contradiction. }
    destruct malloc_ok; cbn [negb].
    2:{ split; [discriminate|]. split; discriminate. }
    destruct (StreamConfiguration_sc device =? noErr) eqn:S2; cbn [negb].
    2:{ destruct (osstatus_to_hresult_failed (StreamConfiguration_sc device))
          as (F1 & F2 & F3 & _).
        split; [assumption|]. split; [congruence|]. intros; contradiction. }
    destruct (NominalSampleRate_sc device =? noErr) eqn:S3; cbn [negb].
    2:{ destruct (osstatus_to_hresult_failed (NominalSampleRate_sc device))
          as (F1 & F2 & F3 & _).
        split; [assumption|]. split; [congruence|]. intros; contradiction. }
    split; [discriminate|]. split; [reflexivity|]. intros _.
    cbn [Format nAvgBytesPerSec cbSize wValidBitsPerSample dwChannelMask
         SubFormat_is_IEEE_FLOAT wFormatTag nChannels nSamplesPerSec
         nBlockAlign wBitsPerSample SubFormat_is_PCM set_dwChannelMask
         set_nChannels set_Format].
    rewrite E0.
    pose proof (sum_channels_nonneg (StreamConfiguration device) 0 ltac:(lia)) as Hs.
    set (ch := fold_left _ (StreamConfiguration device) 0) in *.
    assert (Hch : ch < 65536).
    { unfold ch. destruct (StreamConfiguration device) as [|x l] using rev_ind.
      - cbn. lia.
      - rewrite fold_left_app. cbn [fold_left]. apply wrap16_range. }
    split; [exact Ht|]. split; [reflexivity|]. do 5 (split; [reflexivity|]).
    split; [lia|].
    split; [f_equal; apply quot_block; lia|].
    split; [reflexivity|].
    split; [rewrite Hdf; discriminate|].
    split; [|now apply Z.eqb_eq].
    intros _. apply Z.eqb_eq in S1, S2. auto.
  - assert (Hdt : descr = true).
    { destruct descr; [reflexivity|]. now specialize (Hnd eq_refl). }
    destruct (Hd Hdt) as [Hconv _].
    destruct (NominalSampleRate_sc device =? noErr) eqn:S3; cbn [negb].
    2:{ destruct (osstatus_to_hresult_failed (NominalSampleRate_sc device))
          as (F1 & F2 & F3 & _).
        split; [assumption|]. split; [congruence|]. intros; contradiction. }
    split; [discriminate|]. split; [reflexivity|]. intros _.
    cbn [Format nAvgBytesPerSec cbSize wValidBitsPerSample dwChannelMask
         SubFormat_is_IEEE_FLOAT wFormatTag nChannels nSamplesPerSec
         nBlockAlign wBitsPerSample SubFormat_is_PCM].
    split; [exact Ht|]. split; [reflexivity|]. do 5 (split; [reflexivity|]).
    split; [lia|].
    split; [f_equal; apply quot_block; lia|].
    split; [reflexivity|].
    split; [intros _; exact Hconv|].
    split; [rewrite Hdt; discriminate|now apply Z.eqb_eq].
Qed.

Lemma ca_setup_audiounit_result (flow : EDataFlow) (c : setup_calls)
    (f : WAVEFORMATEXTENSIBLE) :
  let result := fst (fst (ca_setup_audiounit flow c f)) in
  DEVICE_FAILED result = false ->
  result = HR S_OK
  /\ ca_get_audiodesc f <> None
  /\ SetStreamFormat_sc c = noErr
  /\ (flow = eCapture ->
      GetStreamFormat_sc c = noErr /\ AudioConverterNew_sc c = noErr
      /\ snd (ca_setup_audiounit flow c f) = true).
Proof.
  unfold ca_setup_audiounit.
  destruct (EDataFlow_eqb flow eCapture) eqn:Ef.
  - destruct (ca_get_audiodesc f); [|discriminate].
    destruct (Z.eqb_spec (GetStreamFormat_sc c) noErr); cbn [negb fst].
    2:{ intros F.
        destruct (osstatus_to_hresult_failed (GetStreamFormat_sc c)) as [F1 _].
        congruence. }
    destruct (Z.eqb_spec (SetStreamFormat_sc c) noErr); cbn [negb fst].
    2:{ intros F.
        destruct (osstatus_to_hresult_failed (SetStreamFormat_sc c)) as [F1 _].
        congruence. }
    destruct (Z.eqb_spec (AudioConverterNew_sc c) noErr); cbn [negb fst].
    2:{ intros F.
        destruct (osstatus_to_hresult_failed (AudioConverterNew_sc c)) as [F1 _].
        congruence. }
    intros _. repeat split; try assumption; discriminate.
  - destruct (ca_get_audiodesc f); [|discriminate].
    destruct (Z.eqb_spec (SetStreamFormat_sc c) noErr); cbn [negb fst].
    2:{ intros F.
        destruct (osstatus_to_hresult_failed (SetStreamFormat_sc c)) as [F1 _].
        congruence. }
    intros _. split; [reflexivity|]. split; [discriminate|].
    split; [assumption|]. intros ->. discriminate.
Qed.


Lemma get_mix_format_result (malloc_ok : bool) (device : AudioDevice)
    (fmt : WAVEFORMATEXTENSIBLE) :
  let result := fst (get_mix_format malloc_ok device fmt) in
  result <> HR S_FALSE /\ result <> E_POINTER /\ result <> E_INVALIDARG
  /\ (DEVICE_FAILED result = false -> result = HR S_OK).
Proof.
  unfold get_mix_format.
  set (f2 := if PreferredChannelLayout_size_sc device =? noErr then _ else _).
  clearbody f2.
  destruct (nChannels (Format f2) =? 0).
  - destruct (StreamConfiguration_size_sc device =? noErr); cbn [negb].
    2:{ cbn [fst].
        destruct (osstatus_to_hresult_failed (StreamConfiguration_size_sc device))
          as (F1 & F2 & F3 & F4 & F5). repeat split; try assumption; congruence. }
    destruct malloc_ok; cbn [negb].
    2:{ cbn. repeat split; discriminate. }
    destruct (StreamConfiguration_sc device =? noErr); cbn [negb].
    2:{ cbn [fst].
        destruct (osstatus_to_hresult_failed (StreamConfiguration_sc device))
          as (F1 & F2 & F3 & F4 & F5). repeat split; try assumption; congruence. }
    destruct (NominalSampleRate_sc device =? noErr); cbn [negb fst].
    2:{ destruct (osstatus_to_hresult_failed (NominalSampleRate_sc device))
          as (F1 & F2 & F3 & F4 & F5). repeat split; try assumption; congruence. }
    repeat split; discriminate.
  - destruct (NominalSampleRate_sc device =? noErr); cbn [negb fst].
    2:{ destruct (osstatus_to_hresult_failed (NominalSampleRate_sc device))
          as (F1 & F2 & F3 & F4 & F5). repeat split; try assumption; congruence. }
    repeat split; discriminate.
Qed.

(** The exit of [is_format_supported] through [unsupported:]. *)
Lemma unsupported_exit (malloc_ok : bool) (device : AudioDevice)
    (fmt_out : option WAVEFORMATEXTENSIBLE) :
  let r :=
    match fmt_out with
    | Some out =>
        let '(result, out') := get_mix_format malloc_ok device out in
        (if negb (DEVICE_FAILED result) then HR S_FALSE else result, Some out')
    | None => (AUDCLNT_E_UNSUPPORTED_FORMAT, None)
    end in
  fst r <> HR S_OK
  /\ fst r <> E_POINTER /\ fst r <> E_INVALIDARG
  /\ (fst r = HR S_FALSE ->
      exists out0 suggestion,
        fmt_out = Some out0 /\ snd r = Some suggestion
        /\ get_mix_format malloc_ok device out0 = (HR S_OK, suggestion))
  /\ (fmt_out = None -> fst r = AUDCLNT_E_UNSUPPORTED_FORMAT).
Proof.
  destruct fmt_out as [out|]; cbn zeta.
  - pose proof (get_mix_format_result malloc_ok device out) as (H1 & H2 & H3 & H4).
    destruct (get_mix_format malloc_ok device out) as [result out'] eqn:G.
    cbn [fst snd] in *.
    destruct (DEVICE_FAILED result) eqn:F; cbn [negb fst snd].
    + split; [intros ->; discriminate|]. split; [assumption|].
      split; [assumption|]. split; [intros; contradiction|discriminate].
    + rewrite (H4 eq_refl) in G.
      split; [discriminate|]. split; [discriminate|]. split; [discriminate|].
      split; [|discriminate]. intros _. exists out, out'. auto.
  - cbn. repeat split; try discriminate.
Qed.

(** The fields [get_mix_format] sets last, on success. *)
Lemma get_mix_format_fields (malloc_ok : bool) (device : AudioDevice)
    (fmt mix : WAVEFORMATEXTENSIBLE) :
  get_mix_format malloc_ok device fmt = (HR S_OK, mix) ->
  wFormatTag (Format mix) = WAVE_FORMAT_EXTENSIBLE
  /\ cbSize mix = 22
  /\ wBitsPerSample (Format mix) = 32
  /\ wValidBitsPerSample mix = 32
  /\ SubFormat_is_IEEE_FLOAT mix = true
  /\ SubFormat_is_PCM (Format mix) = false
  /\ nBlockAlign (Format mix)
     = wrap16 (Z.quot (32 * nChannels (Format mix)) 8)
  /\ nAvgBytesPerSec mix
     = wrap32 (nSamplesPerSec (Format mix) * nBlockAlign (Format mix)).
Proof.
  unfold get_mix_format.
  set (f2 := if PreferredChannelLayout_size_sc device =? noErr then _ else _).
  assert (Ht : wFormatTag (Format f2) = WAVE_FORMAT_EXTENSIBLE).
  { unfold f2.
    repeat match goal with
           | |- context [if ?b then _ else _] => destruct b
           end; try reflexivity.
    destruct (convert_channel_layout _). reflexivity. }
  clearbody f2.
  set (guessed := if nChannels (Format f2) =? 0 then _ else _).
  assert (Hg : forall g, guessed = inr g ->
                 wFormatTag (Format g) = WAVE_FORMAT_EXTENSIBLE).
  { unfold guessed. intros g.
    repeat match goal with
           | |- context [if ?b then _ else _] => destruct b
           end; try discriminate; intros E; injection E as <-; exact Ht. }
  assert (Hg2 : forall r o, guessed = inl (r, o) -> r <> HR S_OK).
  { unfold guessed. intros r o.
    repeat match goal with
           | |- context [if ?b then _ else _] => destruct b
           end; try discriminate; intros E; injection E as <- _;
      try discriminate; apply osstatus_to_hresult_failed. }
  destruct guessed as [[r o]|g].
  - intros E. injection E as -> _. now destruct (Hg2 _ _ eq_refl).
  - specialize (Hg g eq_refl).
    destruct (NominalSampleRate_sc device =? noErr); cbn [negb].
    + intros E. injection E as <-. cbn. rewrite Hg. repeat split.
    + intros E. injection E as E _.
      now destruct (osstatus_to_hresult_failed (NominalSampleRate_sc device))
        as (_ & F & _).
Qed.

(** X10.  The mix format passes the driver's own format check: a format
    [get_mix_format] returned with between 1 and 16383 channels and a
    byte rate other than 0 is accepted by [is_format_supported] in
    shared mode with S_OK, the closest-match buffer left as it is,
    whenever CoreAudio accepts the format for the audio unit. *)
Theorem mix_format_is_supported (malloc_ok : bool) (device : AudioDevice)
    (c : setup_calls) (flow : EDataFlow)
    (fmt mix fmt_out : WAVEFORMATEXTENSIBLE) :
  get_mix_format malloc_ok device fmt = (HR S_OK, mix) ->
  0 < nChannels (Format mix) < 16384 ->
  nAvgBytesPerSec mix <> 0 ->
  SetStreamFormat_sc c = noErr ->
  (flow = eCapture ->
   GetStreamFormat_sc c = noErr /\ AudioConverterNew_sc c = noErr) ->
  is_format_supported malloc_ok device c flow AUDCLNT_SHAREMODE_SHARED
    (Some mix) (Some fmt_out)
  = (HR S_OK, Some fmt_out).
Proof.
  intros Hmix Hch Havg Hset Hcap.
  destruct (get_mix_format_fields _ _ _ _ Hmix)
    as (Ht & Hcb & Hbits & Hvalid & Hfloat & Hpcm & Hba & Hav).
  assert (Hq : Z.quot (32 * nChannels (Format mix)) 8
               = 4 * nChannels (Format mix)).
  { replace (32 * nChannels (Format mix))
      with (4 * nChannels (Format mix) * 8) by lia.
    apply Z.quot_mul. lia. }
  rewrite Hq, wrap16_small in Hba by lia.
  unfold is_format_supported.
  cbn [andb negb Z.eqb AUDCLNT_SHAREMODE_SHARED].
  rewrite Ht, Z.eqb_refl, Hcb, Hvalid, Hbits.
  change (22 <? sizeof_WAVEFORMATEXTENSIBLE - sizeof_WAVEFORMATEX) with false.
  destruct (Z.eqb_spec (nAvgBytesPerSec mix) 0); [contradiction|].
  destruct (Z.eqb_spec (nBlockAlign (Format mix)) 0); [lia|].
  cbn [orb andb Z.gtb Z.ltb Z.compare Pos.compare Pos.compare_cont].
  change (0 =? AUDCLNT_SHAREMODE_EXCLUSIVE) with false. cbn [andb].
  assert (Hq2 : Z.quot (nChannels (Format mix) * 32) 8 = nBlockAlign (Format mix)).
  { rewrite Z.mul_comm, Hq. lia. }
  rewrite Hq2, Z.eqb_refl.
  rewrite Hav, (Z.mul_comm (nSamplesPerSec (Format mix))), Z.eqb_refl.
  cbn [negb orb].
  destruct (Z.eqb_spec (nChannels (Format mix)) 0); [lia|].
  assert (Hsetup : fst (fst (ca_setup_audiounit flow c mix)) = HR S_OK).
  { unfold ca_setup_audiounit, ca_get_audiodesc.
    rewrite Ht, Hpcm, Hfloat.
    change (WAVE_FORMAT_EXTENSIBLE =? WAVE_FORMAT_PCM) with false.
    change (WAVE_FORMAT_EXTENSIBLE =? WAVE_FORMAT_IEEE_FLOAT) with false.
    rewrite Z.eqb_refl. cbn [andb orb].
    rewrite Hset. cbn [negb Z.eqb noErr].
    destruct (EDataFlow_eqb flow eCapture) eqn:Ef; [|reflexivity].
    assert (flow = eCapture) by (destruct flow; (reflexivity || discriminate)).
    destruct (Hcap H) as [-> ->]. reflexivity. }
  destruct (ca_setup_audiounit flow c mix) as [[r dd] cv].
  cbn [fst] in Hsetup. rewrite Hsetup. reflexivity.
Qed.

(** X11.  [is_format_supported] returns S_OK only for a share mode that
    is shared or exclusive, with a closest-match buffer in shared mode,
    and for a format whose block alignment is [nChannels *
    wBitsPerSample / 8], whose byte rate is the block alignment times
    the rate, that has at least one channel and that CoreAudio accepts;
    an extensible format must also have [cbSize] at least 22, all its
    bits valid and, in exclusive mode, a channel mask that is not empty
    and has no reserved bit.  The closest-match buffer is left as it is. *)
Theorem is_format_supported_accepts (malloc_ok : bool) (device : AudioDevice)
    (c : setup_calls) (flow : EDataFlow) (share : Z)
    (fmt_in fmt_out out' : option WAVEFORMATEXTENSIBLE) :
  is_format_supported malloc_ok device c flow share fmt_in fmt_out
  = (HR S_OK, out') ->
  out' = fmt_out
  /\ (share = AUDCLNT_SHAREMODE_SHARED \/ share = AUDCLNT_SHAREMODE_EXCLUSIVE)
  /\ (share = AUDCLNT_SHAREMODE_SHARED -> fmt_out <> None)
  /\ exists f,
       fmt_in = Some f
       /\ nChannels (Format f) <> 0
       /\ nBlockAlign (Format f)
          = Z.quot (nChannels (Format f) * wBitsPerSample (Format f)) 8
       /\ nAvgBytesPerSec f
          = wrap32 (nBlockAlign (Format f) * nSamplesPerSec (Format f))
       /\ (wFormatTag (Format f) = WAVE_FORMAT_EXTENSIBLE ->
           22 <= cbSize f
           /\ nAvgBytesPerSec f <> 0 /\ nBlockAlign (Format f) <> 0
           /\ wValidBitsPerSample f = wBitsPerSample (Format f)
           /\ (share = AUDCLNT_SHAREMODE_EXCLUSIVE ->
               dwChannelMask f <> 0
               /\ Z.land (dwChannelMask f) SPEAKER_RESERVED = 0))
       /\ ca_get_audiodesc f <> None
       /\ fst (fst (ca_setup_audiounit flow c f)) = HR S_OK.
Proof.
  unfold is_format_supported.
  pose proof (unsupported_exit malloc_ok device fmt_out) as U. cbn zeta in U.
  set (unsupported := match fmt_out with Some _ => _ | None => _ end) in *.
  destruct U as (U1 & _). clearbody unsupported.
  assert (Hu : unsupported = (HR S_OK, out') -> False).
  { intros E. rewrite E in U1. now apply U1. }
  destruct fmt_in as [f|]; [|discriminate].
  destruct ((share =? AUDCLNT_SHAREMODE_SHARED)
            && match fmt_out with None => true | Some _ => false end) eqn:E1;
    [discriminate|].
  destruct (negb (share =? AUDCLNT_SHAREMODE_SHARED)
            && negb (share =? AUDCLNT_SHAREMODE_EXCLUSIVE)) eqn:E2;
    [discriminate|].
  assert (Hs1 : share = AUDCLNT_SHAREMODE_SHARED -> fmt_out <> None).
  { intros ->. cbn in E1. destruct fmt_out; [discriminate|discriminate]. }
  assert (Hs2 : share = AUDCLNT_SHAREMODE_SHARED
                \/ share = AUDCLNT_SHAREMODE_EXCLUSIVE).
  { destruct (Z.eqb_spec share AUDCLNT_SHAREMODE_SHARED); [auto|].
    destruct (Z.eqb_spec share AUDCLNT_SHAREMODE_EXCLUSIVE); [auto|].
    discriminate. }
  clear E1 E2.
  set (checks := if wFormatTag (Format f) =? WAVE_FORMAT_EXTENSIBLE then _ else _).
  assert (Hchecks :
    checks = None ->
    wFormatTag (Format f) = WAVE_FORMAT_EXTENSIBLE ->
    22 <= cbSize f
    /\ nAvgBytesPerSec f <> 0 /\ nBlockAlign (Format f) <> 0
    /\ wValidBitsPerSample f = wBitsPerSample (Format f)
    /\ (share = AUDCLNT_SHAREMODE_EXCLUSIVE ->
        dwChannelMask f <> 0
        /\ Z.land (dwChannelMask f) SPEAKER_RESERVED = 0)).
  { unfold checks. intros Hc Ht.
    destruct (Z.eqb_spec (wFormatTag (Format f)) WAVE_FORMAT_EXTENSIBLE);
      [|contradiction].
    change (sizeof_WAVEFORMATEXTENSIBLE - sizeof_WAVEFORMATEX) with 22 in Hc.
    destruct (Z.ltb_spec (cbSize f) 22); [discriminate|].
    destruct (Z.eqb_spec (nAvgBytesPerSec f) 0); [discriminate|].
    destruct (Z.eqb_spec (nBlockAlign (Format f)) 0); [discriminate|].
    destruct (Z.gtb_spec (wValidBitsPerSample f) (wBitsPerSample (Format f)));
      [discriminate|]. cbn [orb] in Hc.
    destruct (Z.ltb_spec (wValidBitsPerSample f) (wBitsPerSample (Format f)));
      [discriminate|].
    split; [lia|]. split; [assumption|]. split; [assumption|].
    split; [lia|]. intros Ex.
    destruct (Z.eqb_spec share AUDCLNT_SHAREMODE_EXCLUSIVE); [|contradiction].
    cbn [andb] in Hc.
    destruct (Z.eqb_spec (dwChannelMask f) 0); [discriminate|].
    destruct (Z.eqb_spec (Z.land (dwChannelMask f) SPEAKER_RESERVED) 0);
      [|discriminate]. auto. }
  assert (Hfail : forall failure,
            checks = Some (Some failure) -> failure = E_INVALIDARG).
  { unfold checks. intros failure.
    repeat match goal with
           | |- context [if ?b then _ else _] => destruct b
           end; congruence. }
  destruct checks as [[failure|]|].
  - rewrite (Hfail failure eq_refl). discriminate.
  - intros E. now apply Hu in E.
  - specialize (Hchecks eq_refl).
    destruct (Z.eqb_spec (nBlockAlign (Format f))
                (Z.quot (nChannels (Format f) * wBitsPerSample (Format f)) 8));
      cbn [negb orb]; [|intros E; now apply Hu in E].
    destruct (Z.eqb_spec (nAvgBytesPerSec f)
                (wrap32 (nBlockAlign (Format f) * nSamplesPerSec (Format f))));
      cbn [negb]; [|intros E; now apply Hu in E].
    destruct (Z.eqb_spec (nChannels (Format f)) 0); [discriminate|].
    destruct (ca_setup_audiounit flow c f) as [[result dd] cv] eqn:Es.
    destruct (DEVICE_FAILED result) eqn:F; [intros E; now apply Hu in E|].
    intros E. injection E as <-.
    split; [reflexivity|]. split; [exact Hs2|]. split; [exact Hs1|].
    exists f. split; [reflexivity|]. split; [assumption|].
    split; [assumption|]. split; [assumption|]. split; [exact Hchecks|].
    pose proof (ca_setup_audiounit_result flow c f) as R.
    rewrite Es in R. cbn [fst] in R. destruct (R F) as (R1 & R2 & _).
    split; [exact R2|]. rewrite Es. exact R1.
Qed.

(** X12.  [is_format_supported] returns E_POINTER exactly when the
    format pointer is NULL or, in shared mode, the closest-match pointer
    is NULL, and E_INVALIDARG for any other share mode than shared or
    exclusive; then the closest-match buffer is not written.  It returns
    S_FALSE only after it has written the mix format of the device to
    the closest-match buffer, and never without such a buffer. *)
Theorem is_format_supported_rejects (malloc_ok : bool) (device : AudioDevice)
    (c : setup_calls) (flow : EDataFlow) (share : Z)
    (fmt_in fmt_out : option WAVEFORMATEXTENSIBLE) :
  let '(result, out') :=
    is_format_supported malloc_ok device c flow share fmt_in fmt_out in
  let bad_pointer :=
    fmt_in = None \/ (share = AUDCLNT_SHAREMODE_SHARED /\ fmt_out = None) in
  (bad_pointer -> result = E_POINTER /\ out' = fmt_out)
  /\ (~ bad_pointer ->
      share <> AUDCLNT_SHAREMODE_SHARED ->
      share <> AUDCLNT_SHAREMODE_EXCLUSIVE ->
      result = E_INVALIDARG /\ out' = fmt_out)
  /\ (result = E_POINTER -> bad_pointer)
  /\ (result = HR S_FALSE ->
      exists out0 suggestion,
        fmt_out = Some out0 /\ out' = Some suggestion
        /\ get_mix_format malloc_ok device out0 = (HR S_OK, suggestion))
  /\ (fmt_out = None -> result <> HR S_FALSE /\ out' = None).
Proof.
  unfold is_format_supported.
  pose proof (unsupported_exit malloc_ok device fmt_out) as U. cbn zeta in U.
  set (unsupported := match fmt_out with Some _ => _ | None => _ end) in *.
  assert (Hun : fmt_out = None -> snd unsupported = None).
  { intros ->. reflexivity. }
  clearbody unsupported.
  destruct U as (U1 & U2 & U3 & U4 & U5).
  assert (Hexit :
    let '(result, out') := unsupported in
    (result = E_POINTER -> False)
    /\ (result = HR S_FALSE ->
        exists out0 suggestion,
          fmt_out = Some out0 /\ out' = Some suggestion
          /\ get_mix_format malloc_ok device out0 = (HR S_OK, suggestion))
    /\ (fmt_out = None -> result <> HR S_FALSE /\ out' = None)).
  { destruct unsupported as [r o]. cbn [fst snd] in *.
    split; [assumption|]. split; [assumption|].
    intros E. split; [rewrite (U5 E); discriminate|auto]. }
  destruct fmt_in as [f|].
  2:{ split; [auto|]. split; [intros H; exfalso; apply H; auto|].
      split; [auto|]. split; [discriminate|].
      intros ->. split; [discriminate|reflexivity]. }
  destruct (Z.eqb_spec share AUDCLNT_SHAREMODE_SHARED) as [Sh|Sh];
    cbn [andb negb].
  - destruct fmt_out as [out|].
    2:{ split; [auto|]. split; [intros H; exfalso; apply H; auto|].
        split; [auto|]. split; [discriminate|].
        intros _. split; [discriminate|reflexivity]. }
    assert (Hbp : ~ (Some f = None \/ share = AUDCLNT_SHAREMODE_SHARED /\ Some out = None)).
    { intros [H|[_ H]]; discriminate. }
    set (checks := if wFormatTag (Format f) =? WAVE_FORMAT_EXTENSIBLE then _ else _).
    assert (Hfail : forall failure,
              checks = Some (Some failure) -> failure = E_INVALIDARG).
    { unfold checks. intros failure.
      repeat match goal with
             | |- context [if ?b then _ else _] => destruct b
             end; congruence. }
    destruct checks as [[failure|]|].
    + rewrite (Hfail failure eq_refl).
      split; [intros H; contradiction|]. split; [intros; contradiction|].
      split; [discriminate|]. split; [discriminate|discriminate].
    + destruct unsupported as [r o]. destruct Hexit as (X1 & X2 & X3).
      split; [intros H; contradiction|]. split; [intros; contradiction|].
      split; [intros H; now apply X1 in H|]. split; [assumption|discriminate].
    + destruct (negb _ || negb _).
      * destruct unsupported as [r o]. destruct Hexit as (X1 & X2 & X3).
        split; [intros H; contradiction|]. split; [intros; contradiction|].
        split; [intros H; now apply X1 in H|]. split; [assumption|discriminate].
      * destruct (nChannels (Format f) =? 0).
        -- split; [intros H; contradiction|]. split; [intros; contradiction|].
           split; [discriminate|]. split; [discriminate|discriminate].
        -- destruct (ca_setup_audiounit flow c f) as [[r0 dd] cv].
           destruct (DEVICE_FAILED r0).
           ++ destruct unsupported as [r o]. destruct Hexit as (X1 & X2 & X3).
              split; [intros H; contradiction|]. split; [intros; contradiction|].
              split; [intros H; now apply X1 in H|].
              split; [assumption|discriminate].
           ++ split; [intros H; contradiction|]. split; [intros; contradiction|].
              split; [discriminate|]. split; [discriminate|discriminate].
  - assert (Hbp : ~ (Some f = None \/ share = AUDCLNT_SHAREMODE_SHARED /\ fmt_out = None)).
    { intros [H|[H _]]; [discriminate|contradiction]. }
    destruct (Z.eqb_spec share AUDCLNT_SHAREMODE_EXCLUSIVE) as [Ex|Ex];
      cbn [negb].
    2:{ split; [intros H; contradiction|]. split; [auto|].
        split; [discriminate|]. split; [discriminate|].
        intros ->. split; [discriminate|reflexivity]. }
    set (checks := if wFormatTag (Format f) =? WAVE_FORMAT_EXTENSIBLE then _ else _).
    assert (Hfail : forall failure,
              checks = Some (Some failure) -> failure = E_INVALIDARG).
    { unfold checks. intros failure.
      repeat match goal with
             | |- context [if ?b then _ else _] => destruct b
             end; congruence. }
    destruct checks as [[failure|]|].
    + rewrite (Hfail failure eq_refl).
      split; [intros H; contradiction|]. split; [intros; contradiction|].
      split; [discriminate|]. split; [discriminate|].
      intros ->. split; [discriminate|reflexivity].
    + destruct unsupported as [r o]. destruct Hexit as (X1 & X2 & X3).
      split; [intros H; contradiction|]. split; [intros; contradiction|].
      split; [intros H; now apply X1 in H|]. split; assumption.
    + destruct (negb _ || negb _).
      * destruct unsupported as [r o]. destruct Hexit as (X1 & X2 & X3).
        split; [intros H; contradiction|]. split; [intros; contradiction|].
        split; [intros H; now apply X1 in H|]. split; assumption.
      * destruct (nChannels (Format f) =? 0).
        -- split; [intros H; contradiction|]. split; [intros; contradiction|].
           split; [discriminate|]. split; [discriminate|].
           intros ->. split; [discriminate|reflexivity].
        -- destruct (ca_setup_audiounit flow c f) as [[r0 dd] cv].
           destruct (DEVICE_FAILED r0).
           ++ destruct unsupported as [r o]. destruct Hexit as (X1 & X2 & X3).
              split; [intros H; contradiction|]. split; [intros; contradiction|].
              split; [intros H; now apply X1 in H|]. split; assumption.
           ++ split; [intros H; contradiction|]. split; [intros; contradiction|].
              split; [discriminate|]. split; [discriminate|].
              intros ->. split; [discriminate|reflexivity].
Qed.

(** * Endpoints *)

Lemma names_size_nonneg (info : list AudioDevice) : 0 <= names_size info.
Proof.
  induction info as [|d info IH]; cbn [names_size fold_right]; [lia|].
  fold (names_size info). unfold sizeof_WCHAR. lia.
Qed.

(** The second loop of [get_endpoint_ids], from any of its states. *)
Lemma write_endpoints_spec (sizeof_endpoint size_in default_id total_num : Z) :
  0 < sizeof_endpoint ->
  forall (info : list AudioDevice) (st : endpoint_loop),
  0 <= loop_i st ->
  loop_i st + Z.of_nat (length info) = total_num ->
  sizeof_endpoint * total_num <= loop_needed st ->
  loop_needed st + names_size info < 4294967296 ->
  (loop_needed st <= size_in ->
   loop_ptr st = loop_needed st
   /\ loop_endpoint st = sizeof_endpoint * loop_i st) ->
  let st' := write_endpoints sizeof_endpoint size_in default_id info st in
  loop_needed st' = loop_needed st + names_size info
  /\ exists k : nat,
       (k <= length info)%nat
       /\ (loop_needed st' <= size_in -> k = length info)
       /\ (size_in < loop_needed st' ->
           size_in < loop_needed st \/ (k < length info)%nat)
       /\ (size_in < loop_needed st -> k = 0%nat)
       /\ exists written,
            loop_written st' = loop_written st ++ written
            /\ map endpoint_id written = map AudioDeviceID (firstn k info)
            /\ map endpoint_name written
               = map (fun d => Name d ++ [0]) (firstn k info)
            /\ forall e, In e written ->
                 0 <= endpoint_offs e
                 /\ endpoint_offs e + sizeof_endpoint
                    <= sizeof_endpoint * total_num
                 /\ sizeof_endpoint * total_num <= endpoint_name_offs e
                 /\ endpoint_name_offs e
                    + sizeof_WCHAR * Z.of_nat (length (endpoint_name e))
                    <= size_in.
Proof.
  intros Hse info.
  induction info as [|d info IH]; intros st Hi Hnum Hbase Hmax Hinv;
    cbn [write_endpoints].
  - cbn [names_size fold_right length]. cbn zeta. split; [lia|].
    exists 0%nat. split; [lia|]. split; [reflexivity|].
    split; [auto|]. split; [reflexivity|].
    exists []. rewrite app_nil_r. do 3 (split; [reflexivity|]).
    intros e [].
  - cbn [names_size fold_right] in *. fold (names_size info) in *.
    pose proof (names_size_nonneg info) as Hnn.
    set (len := Z.of_nat (length (Name d))) in *.
    assert (Hlen : 0 <= len) by (unfold len; lia).
    unfold sizeof_WCHAR in Hmax |- *.
    rewrite (wrap32_small (loop_needed st + (len + 1) * 2))
      by (cbn [length] in Hnum; nia).
    set (st1 := {| loop_i := _ |}).
    cbn [length] in Hnum.
    specialize (IH st1).
    cbn [loop_i loop_needed loop_ptr loop_endpoint st1] in IH.
    destruct (Z.leb_spec (loop_needed st + (len + 1) * 2) size_in) as [Hfit|Hno].
    + destruct Hinv as [Hp He]; [lia|].
      destruct IH as (N & k & Hk & Hall & Hlt & Hzero & written & Hw & Hid & Hnm & Hb);
        [lia|lia|lia|lia| |].
      { intros _. split; [lia|]. rewrite He. lia. }
      cbn zeta. split; [lia|].
      exists (S k). split; [cbn [length]; lia|].
      split; [intros H; cbn [length]; f_equal; apply Hall; lia|].
      split; [intros H; right; cbn [length];
              destruct Hlt as [Hlt|Hlt]; [lia|lia|lia]|].
      split; [intros H; lia|].
      cbn [loop_written st1] in Hw.
      eexists. split.
      { rewrite Hw. rewrite <- app_assoc. reflexivity. }
      cbn [firstn map app endpoint_id endpoint_name]. rewrite Hid, Hnm.
      split; [reflexivity|]. split; [reflexivity|].
      intros e [<-|Hin]; [|now apply Hb].
      cbn [endpoint_offs endpoint_name_offs endpoint_name].
      rewrite length_app. cbn [length]. fold len.
      rewrite He, Hp. split; [nia|]. split; [nia|]. split; [lia|].
      rewrite Nat2Z.inj_add. fold len. lia.
    + destruct IH as (N & k & Hk & Hall & Hlt & Hzero & written & Hw & Hid & Hnm & Hb);
        [lia|lia|lia|lia| |].
      { intros H. lia. }
      cbn zeta. split; [lia|].
      assert (k = 0%nat) by (apply Hzero; lia). subst k.
      exists 0%nat. split; [lia|].
      split; [intros H; lia|].
      split; [intros H; right; cbn [length]; lia|].
      split; [reflexivity|].
      cbn [loop_written st1] in Hw.
      exists written. split; [exact Hw|].
      cbn [firstn] in *. auto.
Qed.

(** The default index the second loop leaves. *)
Lemma write_endpoints_default (sizeof_endpoint size_in default_id : Z) :
  forall (info : list AudioDevice) (st : endpoint_loop),
  let st' := write_endpoints sizeof_endpoint size_in default_id info st in
  ((forall d, In d info -> AudioDeviceID d <> default_id) ->
   loop_default_idx st' = loop_default_idx st)
  /\ ((exists d, In d info /\ AudioDeviceID d = default_id) ->
      loop_i st <= loop_default_idx st' < loop_i st + Z.of_nat (length info)
      /\ exists d,
           nth_error info (Z.to_nat (loop_default_idx st' - loop_i st)) = Some d
           /\ AudioDeviceID d = default_id).
Proof.
  induction info as [|d info IH]; intros st; cbn [write_endpoints].
  - cbn zeta. split; [reflexivity|]. intros (d & [] & _).
  - set (st1 := {| loop_i := _ |}).
    destruct (IH st1) as [IHno IHyes].
    cbn [st1 loop_i loop_default_idx] in IHno, IHyes.
    cbn zeta. split.
    + intros Hno. rewrite IHno by (intros d0 Hd0; apply Hno; now right).
      destruct (Z.eqb_spec (AudioDeviceID d) default_id) as [E|E];
        [|reflexivity].
      exfalso. apply (Hno d); [now left|exact E].
    + intros (d0 & Hin & Hid). cbn [length].
      destruct (existsb (fun x => AudioDeviceID x =? default_id) info) eqn:Ex.
      * apply existsb_exists in Ex as (x & Hx & Ex). apply Z.eqb_eq in Ex.
        destruct IHyes as (R & d1 & Hn & Hd1); [exists x; auto|].
        split; [lia|]. exists d1. split; [|exact Hd1].
        replace (Z.to_nat (loop_default_idx
                   (write_endpoints sizeof_endpoint size_in default_id info st1)
                 - loop_i st))
          with (S (Z.to_nat (loop_default_idx
                   (write_endpoints sizeof_endpoint size_in default_id info st1)
                 - (loop_i st + 1)))) by lia.
        exact Hn.
      * assert (Hnone : forall d, In d info -> AudioDeviceID d <> default_id).
        { intros y Hy Ey.
          assert (existsb (fun x => AudioDeviceID x =? default_id) info = true).
          { apply existsb_exists. exists y. split; [exact Hy|].
            now apply Z.eqb_eq. }
          congruence. }
        rewrite (IHno Hnone).
        destruct Hin as [<-|Hin]; [|now destruct (Hnone d0 Hin)].
        destruct (Z.eqb_spec (AudioDeviceID d) default_id); [|contradiction].
        split; [lia|]. exists d. rewrite Z.sub_diag. cbn. auto.
Qed.

(** X13.  When the device list can be read, [get_endpoint_ids] counts in
    [num] the devices that have channels and a readable name, whatever
    the size of the buffer.  With a buffer that holds the endpoint
    structures and the names with their terminators it returns S_OK and
    writes every endpoint, in device order, leaving [size] alone; with a
    smaller buffer it returns ERROR_INSUFFICIENT_BUFFER, stores the size
    needed in [size] and has written a proper prefix of the endpoints.
    Every structure and name it writes lies inside the buffer, the names
    after the structures, and a second call with the size the first one
    asked for succeeds. *)
Theorem get_endpoint_ids_size_protocol (sizeof_endpoint : Z)
    (malloc_ok has_channels_malloc_ok : bool) (sys : AudioSystemObject)
    (flow : EDataFlow) (size_in : Z) :
  0 < sizeof_endpoint -> 0 <= size_in < 4294967296 ->
  flow <> eAll ->
  Devices_size_sc sys = noErr -> malloc_ok = true ->
  Devices_sc sys = noErr ->
  let info := endpoint_info has_channels_malloc_ok (Devices sys) in
  let total := sizeof_endpoint * Z.of_nat (length info) + names_size info in
  total < 4294967296 ->
  let out :=
    get_endpoint_ids sizeof_endpoint malloc_ok has_channels_malloc_ok sys
      flow size_in in
  num out = Z.of_nat (length info)
  /\ (total <= size_in ->
      result out = HR S_OK /\ size out = size_in
      /\ map endpoint_id (endpoints out) = map AudioDeviceID info
      /\ map endpoint_name (endpoints out) = map (fun d => Name d ++ [0]) info)
  /\ (size_in < total ->
      result out = ERROR_INSUFFICIENT_BUFFER /\ size out = total
      /\ exists k : nat,
           (k < length info)%nat
           /\ map endpoint_id (endpoints out)
              = map AudioDeviceID (firstn k info)
           /\ map endpoint_name (endpoints out)
              = map (fun d => Name d ++ [0]) (firstn k info))
  /\ (forall e, In e (endpoints out) ->
        0 <= endpoint_offs e
        /\ endpoint_offs e + sizeof_endpoint
           <= sizeof_endpoint * Z.of_nat (length info)
        /\ sizeof_endpoint * Z.of_nat (length info) <= endpoint_name_offs e
        /\ endpoint_name_offs e
           + sizeof_WCHAR * Z.of_nat (length (endpoint_name e))
           <= size_in)
  /\ result (get_endpoint_ids sizeof_endpoint malloc_ok
               has_channels_malloc_ok sys flow total) = HR S_OK.
Proof.
  intros Hse Hsize Hflow Hs1 Hm Hs2 info total Htotal out.
  pose proof (names_size_nonneg info) as Hnn.
  assert (Hgen : forall sz, 0 <= sz < 4294967296 ->
    let o := get_endpoint_ids sizeof_endpoint malloc_ok has_channels_malloc_ok
               sys flow sz in
    num o = Z.of_nat (length info)
    /\ (total <= sz ->
        result o = HR S_OK /\ size o = sz
        /\ map endpoint_id (endpoints o) = map AudioDeviceID info
        /\ map endpoint_name (endpoints o) = map (fun d => Name d ++ [0]) info)
    /\ (sz < total ->
        result o = ERROR_INSUFFICIENT_BUFFER /\ size o = total
        /\ exists k : nat,
             (k < length info)%nat
             /\ map endpoint_id (endpoints o)
                = map AudioDeviceID (firstn k info)
             /\ map endpoint_name (endpoints o)
                = map (fun d => Name d ++ [0]) (firstn k info))
    /\ (forall e, In e (endpoints o) ->
          0 <= endpoint_offs e
          /\ endpoint_offs e + sizeof_endpoint
             <= sizeof_endpoint * Z.of_nat (length info)
          /\ sizeof_endpoint * Z.of_nat (length info) <= endpoint_name_offs e
          /\ endpoint_name_offs e
             + sizeof_WCHAR * Z.of_nat (length (endpoint_name e))
             <= sz)).
  { intros sz Hsz. unfold get_endpoint_ids.
    rewrite Hs1, Hs2, Hm. change (noErr =? noErr) with true. cbn [negb].
    fold info.
    set (default_id :=
           if negb (DefaultDevice_sc sys =? noErr) then wrap32 (-1)
           else DefaultDevice sys).
    match goal with
    | |- context [write_endpoints _ _ _ _ ?st] => set (st0 := st)
    end.
    destruct (write_endpoints_spec sizeof_endpoint sz default_id
                (Z.of_nat (length info)) Hse info st0)
      as (N & k & Hk & Hall & Hlt & Hzero & written & Hw & Hid & Hnm & Hb);
      cbn [st0 loop_i loop_needed loop_ptr loop_endpoint loop_written].
    - lia.
    - lia.
    - rewrite wrap32_small by nia. lia.
    - rewrite wrap32_small by nia. fold total. lia.
    - rewrite wrap32_small by nia. lia.
    - cbn [st0 loop_needed loop_written app] in N, Hall, Hlt, Hzero, Hw.
      rewrite wrap32_small in N, Hzero, Hlt by nia.
      fold total in N.
      assert (Hk0 : sz < total -> (k < length info)%nat).
      { intros H. destruct Hlt as [Hlt|Hlt]; [lia| |exact Hlt].
        rewrite (Hzero Hlt).
        destruct info; [cbn [names_size fold_right length] in *; lia
                       |cbn [length]; lia]. }
      assert (Hfull : total <= sz ->
                map endpoint_id written = map AudioDeviceID info
                /\ map endpoint_name written
                   = map (fun d => Name d ++ [0]) info).
      { intros H. rewrite (Hall ltac:(lia)) in Hid, Hnm.
        rewrite firstn_all in Hid, Hnm. auto. }
      destruct flow; [| |now destruct Hflow].
      all: destruct (Z.gtb_spec
                       (loop_needed
                          (write_endpoints sizeof_endpoint sz default_id info st0))
                       sz) as [Hgt|Hle];
        cbn [num result size endpoints]; rewrite Hw.
      all: split; [reflexivity|].
      all: split; [intros H; first [lia|destruct (Hfull H); auto]|].
      all: split; [intros H;
                   first [lia|split; [reflexivity|]; split; [lia|];
                              exists k; auto]|].
      all: exact Hb. }
  destruct (Hgen size_in Hsize) as (G1 & G2 & G3 & G4).
  split; [exact G1|]. split; [exact G2|]. split; [exact G3|].
  split; [exact G4|].
  destruct (Hgen total ltac:(nia)) as (_ & T & _).
  apply T. lia.
Qed.

(** X14.  When the device list can be read, [default_idx] is the index,
    among the endpoints, of an endpoint of the default device (the
    device id -1 when the default device cannot be read), and 0 when no
    endpoint is of that device; it is set whether or not the buffer is
    large enough. *)
Theorem get_endpoint_ids_default_idx (sizeof_endpoint : Z)
    (malloc_ok has_channels_malloc_ok : bool) (sys : AudioSystemObject)
    (flow : EDataFlow) (size_in : Z) :
  flow <> eAll ->
  Devices_size_sc sys = noErr -> malloc_ok = true ->
  Devices_sc sys = noErr ->
  let info := endpoint_info has_channels_malloc_ok (Devices sys) in
  let default_id :=
    if DefaultDevice_sc sys =? noErr then DefaultDevice sys else 4294967295 in
  let out :=
    get_endpoint_ids sizeof_endpoint malloc_ok has_channels_malloc_ok sys
      flow size_in in
  ((exists d, In d info /\ AudioDeviceID d = default_id) ->
   0 <= default_idx out < num out
   /\ exists d,
        nth_error info (Z.to_nat (default_idx out)) = Some d
        /\ AudioDeviceID d = default_id)
  /\ ((forall d, In d info -> AudioDeviceID d <> default_id) ->
      default_idx out = 0).
Proof.
  intros Hflow Hs1 Hm Hs2 info default_id out.
  unfold out, get_endpoint_ids.
  rewrite Hs1, Hs2, Hm. change (noErr =? noErr) with true. cbn [negb].
  fold info.
  assert (Hd : (if negb (DefaultDevice_sc sys =? noErr) then wrap32 (-1)
                else DefaultDevice sys) = default_id).
  { unfold default_id. destruct (DefaultDevice_sc sys =? noErr); reflexivity. }
  rewrite Hd.
  match goal with
  | |- context [write_endpoints _ _ _ _ ?st] => set (st0 := st)
  end.
  destruct (write_endpoints_default sizeof_endpoint size_in default_id info st0)
    as [Hno Hyes].
  cbn [st0 loop_i loop_default_idx] in Hno, Hyes.
  destruct flow; [| |now destruct Hflow].
  all: destruct (_ >? _); cbn [default_idx num].
  all: split; [intros H; destruct (Hyes H) as (R & d & Hn & Hdd);
               rewrite Z.sub_0_r in Hn; split; [lia|eauto]
              |exact Hno].
Qed.

(** X15.  [get_endpoint_ids] returns E_INVALIDARG for a direction that
    is neither render nor capture.  It returns S_OK or
    ERROR_INSUFFICIENT_BUFFER only if the direction is render or capture
    and the device list could be read; with any other result it has
    failed, reports no endpoint and leaves [size] and [default_idx] at
    their initial values.  ERROR_INSUFFICIENT_BUFFER always comes with a
    [size] larger than the one passed in. *)
Theorem get_endpoint_ids_failure (sizeof_endpoint : Z)
    (malloc_ok has_channels_malloc_ok : bool) (sys : AudioSystemObject)
    (flow : EDataFlow) (size_in : Z) :
  let out :=
    get_endpoint_ids sizeof_endpoint malloc_ok has_channels_malloc_ok sys
      flow size_in in
  (flow = eAll -> result out = E_INVALIDARG)
  /\ (result out = HR S_OK \/ result out = ERROR_INSUFFICIENT_BUFFER ->
      flow <> eAll /\ Devices_size_sc sys = noErr /\ malloc_ok = true
      /\ Devices_sc sys = noErr)
  /\ (result out <> HR S_OK -> result out <> ERROR_INSUFFICIENT_BUFFER ->
      DEVICE_FAILED (result out) = true
      /\ num out = 0 /\ endpoints out = [] /\ size out = size_in
      /\ default_idx out = 0)
  /\ (result out = ERROR_INSUFFICIENT_BUFFER -> size_in < size out)
  /\ (result out = HR S_OK -> size out = size_in).
Proof.
  assert (Hos : forall sc,
            osstatus_to_hresult sc <> HR S_OK
            /\ osstatus_to_hresult sc <> ERROR_INSUFFICIENT_BUFFER
            /\ DEVICE_FAILED (osstatus_to_hresult sc) = true).
  { intros sc. unfold osstatus_to_hresult.
    destruct (_ || _); [repeat split; discriminate|].
    destruct (_ =? _); repeat split; discriminate. }
  cbn zeta. unfold get_endpoint_ids.
  destruct flow.
  3:{ cbn. split; [reflexivity|].
      split; [intros [H|H]; discriminate|].
      split; [auto|]. split; discriminate. }
  all: split; [discriminate|].
  all: destruct (Z.eqb_spec (Devices_size_sc sys) noErr) as [S1|S1];
    cbn [negb];
    [|cbn [result num endpoints size default_idx];
      destruct (Hos (Devices_size_sc sys)) as (O1 & O2 & O3);
      split; [intros [H|H]; contradiction|];
      split; [auto|]; split; [intros; contradiction|intros; contradiction]].
  all: destruct malloc_ok; cbn [negb];
    [|cbn [result num endpoints size default_idx];
      split; [intros [H|H]; discriminate|];
      split; [auto|]; split; discriminate].
  all: destruct (Z.eqb_spec (Devices_sc sys) noErr) as [S2|S2];
    cbn [negb];
    [|cbn [result num endpoints size default_idx];
      destruct (Hos (Devices_sc sys)) as (O1 & O2 & O3);
      split; [intros [H|H]; contradiction|];
      split; [auto|]; split; [intros; contradiction|intros; contradiction]].
  all: match goal with
       | |- context [?a >? ?b] => destruct (Z.gtb_spec a b)
       end; cbn [result num endpoints size default_idx].
  all: split; [intros _; repeat split; (assumption || discriminate)|].
  all: split; [intros H1 H2; contradiction|].
  all: split; [intros H0; (lia || discriminate)|].
  all: intros H0; (reflexivity || discriminate).
Qed.

(** * Creating and querying a stream *)

Section StreamProperties.

Context {conv_state : Type}.
Variable AudioConverterFillComplexBuffer : conv_state -> Z -> conv_run conv_state.

Local Abbreviation stream := (coreaudio_stream conv_state).


(** X17.  For a period no longer than the duration and values that fit
    31 bits, a stream [create_stream] returns has [period_frames] and
    [bufsize_frames] equal to the period and the duration times the
    sample rate, in units of 100 ns, rounded to the nearest frame; in
    exclusive mode the buffer size is rounded down to a multiple of the
    period.  The stream is stopped and empty with no acquisition
    outstanding, keeps the format, direction and share mode asked for,
    and has [period_ms] the period in milliseconds.  When the ring has
    at least one frame and its size in bytes fits 32 bits, it satisfies
    the invariants and is filled with silence; on a capture stream the
    raw ring is sized from the hardware's rate. *)
Theorem create_stream_fresh (c : create_stream_calls conv_state)
    (params_fmt : WAVEFORMATEXTENSIBLE) (params_flow : EDataFlow)
    (params_share params_dev_id period duration : Z)
    (h : created_stream conv_state) :
  create_stream c params_fmt params_flow params_share params_dev_id
    period duration = Some (HR S_OK, Some h) ->
  let rate := nSamplesPerSec (Format params_fmt) in
  let ba := nBlockAlign (Format params_fmt) in
  0 < rate <= 2147483647 ->
  0 <= period <= duration -> duration <= 2147483647 ->
  (duration * rate + 5000000) / 10000000 <= 2147483647 ->
  let P := (period * rate + 5000000) / 10000000 in
  let B := (duration * rate + 5000000) / 10000000 in
  let s := engine h in
  period_frames s = P
  /\ (params_share <> AUDCLNT_SHAREMODE_EXCLUSIVE -> bufsize_frames s = B)
  /\ (params_share = AUDCLNT_SHAREMODE_EXCLUSIVE ->
      0 < P /\ bufsize_frames s = B - B mod P
      /\ bufsize_frames s mod P = 0 /\ B - P < bufsize_frames s <= B)
  /\ shared_state s = (0, 0, 0, 0, 0, 0, 0, false)
  /\ tmp_buffer s = None
  /\ fmt s = Format params_fmt /\ flow s = params_flow
  /\ share h = params_share /\ period_ms h = period / 10000
  /\ dev_id h = params_dev_id
  /\ (0 < bufsize_frames s -> 0 < ba < 65536 ->
      bufsize_frames s * ba < 4294967296 ->
      ring_inv s /\ sizes_ok s
      /\ forall i, 0 <= i < bufsize_frames s * ba ->
           byte_at (local_buffer s) i = silence_byte (fmt s))
  /\ (params_flow = eCapture ->
      dev_desc_mSampleRate s = hardware_mSampleRate (setup c)
      /\ (0 <= hardware_mSampleRate (setup c) ->
          (duration * hardware_mSampleRate (setup c) + 5000000) / 10000000
          <= 2147483647 ->
          cap_bufsize_frames s
          = (duration * hardware_mSampleRate (setup c) + 5000000) / 10000000)
      /\ cap_buffer s
         = malloc_cap_buffer c (wrap32 (cap_bufsize_frames s * ba))).
Proof.
  intros Hcreate rate ba Hrate Hper Hdur HB P B s.
  assert (HP : 0 <= P <= B).
  { unfold P, B. split; [apply Z.div_pos; nia|].
    apply Z.div_le_mono; [lia|nia]. }
  assert (Hmd : forall t, 0 <= t ->
            (t * rate + 5000000) / 10000000 <= 2147483647 ->
            t <= 2147483647 ->
            muldiv (to_int32 t) (to_int32 rate) 10000000
            = (t * rate + 5000000) / 10000000).
  { intros t Ht Hq Ht2. rewrite !to_int32_small by lia.
    destruct (muldiv_rounds t rate 10000000) as [E _]; try lia.
    - change (10000000 / 2) with 5000000. exact Hq.
    - exact E. }
  assert (HmP : muldiv (to_int32 period) (to_int32 rate) 10000000 = P).
  { apply Hmd; [lia| fold P; lia |lia]. }
  assert (HmB : muldiv (to_int32 duration) (to_int32 rate) 10000000 = B).
  { apply Hmd; [lia| fold B; lia |lia]. }
  unfold create_stream in Hcreate.
  destruct (calloc_ok c); [|discriminate]. cbn [negb] in Hcreate.
  unfold clone_format in Hcreate.
  destruct (clone_format_ok c); [|discriminate]. cbn [negb] in Hcreate.
  cbn [Format] in Hcreate. fold rate ba in Hcreate.
  rewrite HmP, HmB in Hcreate.
  rewrite (wrap32_small P), (wrap32_small B) in Hcreate by lia.
  match type of Hcreate with
  | context [match ?r with Some b => _ | None => None end] =>
      destruct r as [bufsize|] eqn:R
  end; [|discriminate].
  assert (Hbuf :
    (params_share <> AUDCLNT_SHAREMODE_EXCLUSIVE -> bufsize = B)
    /\ (params_share = AUDCLNT_SHAREMODE_EXCLUSIVE ->
        0 < P /\ bufsize = B - B mod P
        /\ bufsize mod P = 0 /\ B - P < bufsize <= B)).
  { destruct (Z.eqb_spec params_share AUDCLNT_SHAREMODE_EXCLUSIVE) as [Ex|Ex].
    - destruct (Z.eqb_spec P 0); [discriminate|].
      injection R as R.
      assert (Hm := Z.mod_pos_bound B P ltac:(lia)).
      rewrite wrap32_small in R by lia.
      split; [contradiction|]. intros _.
      split; [lia|]. split; [auto|].
      split; [|lia]. subst bufsize.
      rewrite (Z.div_mod B P) at 1 by lia.
      replace (P * (B / P) + B mod P - B mod P) with ((B / P) * P) by lia.
      apply Z.mod_mul. lia.
    - injection R as R. split; [auto|contradiction]. }
  assert (Hbuf0 : 0 <= bufsize <= B).
  { destruct (Z.eq_dec params_share AUDCLNT_SHAREMODE_EXCLUSIVE) as [Ex|Ex].
    - destruct (proj2 Hbuf Ex) as (? & ? & ? & ?).
      assert (Hm := Z.mod_pos_bound B P ltac:(lia)). lia.
    - rewrite (proj1 Hbuf Ex). lia. }
  clear R.
  injection Hcreate as Hcreate.
  destruct (get_audiounit params_flow (audiounit c)); [|discriminate].
  cbn [negb] in Hcreate.
  match type of Hcreate with
  | context [ca_setup_audiounit ?fl ?cc ?f] =>
      pose proof (ca_setup_audiounit_result fl cc f) as Hsetup;
      assert (Hcapdesc : fl = eCapture ->
                DEVICE_FAILED (fst (fst (ca_setup_audiounit fl cc f))) = false ->
                exists d, snd (fst (ca_setup_audiounit fl cc f)) = Some d
                          /\ mSampleRate d = hardware_mSampleRate cc);
      [|destruct (ca_setup_audiounit fl cc f) as [[result dev_desc] cv]]
  end.
  { intros -> . unfold ca_setup_audiounit. cbn [EDataFlow_eqb].
    destruct (ca_get_audiodesc _); [|discriminate].
    destruct (negb (GetStreamFormat_sc (setup c) =? noErr)); cbn [fst snd].
    { intros F. now rewrite (proj1 (osstatus_to_hresult_failed _)) in F. }
    destruct (negb (SetStreamFormat_sc (setup c) =? noErr)); cbn [fst snd].
    { intros F. now rewrite (proj1 (osstatus_to_hresult_failed _)) in F. }
    destruct (negb (AudioConverterNew_sc (setup c) =? noErr)); cbn [fst snd].
    { intros F. now rewrite (proj1 (osstatus_to_hresult_failed _)) in F. }
    intros _. eexists. split; reflexivity. }
  cbn [fst snd] in Hsetup, Hcapdesc.
  destruct (DEVICE_FAILED result) eqn:F; [discriminate|].
  destruct (negb (SetCallback_sc c =? noErr)); [discriminate|].
  destruct (negb (AudioUnitInitialize_sc c =? noErr)); [discriminate|].
  destruct (negb (AudioOutputUnitStart_sc c =? noErr)); [discriminate|].
  destruct (negb (NtAllocateVirtualMemory_ok c)); [discriminate|].
  injection Hcreate as Hh. unfold s. rewrite <- Hh. clear Hh s.
  cbn [engine share period_ms dev_id].
  set (dev_rate := match dev_desc with Some d => mSampleRate d | None => 0 end).
  match goal with
  | |- context [if EDataFlow_eqb params_flow eCapture then _ else ?b] =>
      set (s1 := b)
  end.
  match goal with
  | |- context [if EDataFlow_eqb params_flow eCapture then ?a else s1] =>
      set (s2 := if EDataFlow_eqb params_flow eCapture then a else s1)
  end.
  assert (Hsame :
    period_frames s2 = P /\ bufsize_frames s2 = bufsize
    /\ shared_state s2 = (0, 0, 0, 0, 0, 0, 0, false)
    /\ tmp_buffer s2 = None /\ fmt s2 = Format params_fmt
    /\ flow s2 = params_flow /\ local_buffer s2 = local_buffer s1
    /\ dev_desc_mSampleRate s2 = dev_rate).
  { unfold s2. destruct (EDataFlow_eqb params_flow eCapture);
      cbn; repeat split; reflexivity. }
  destruct Hsame as (E1 & E2 & E3 & E4 & E5 & E6 & E7 & E8).
  split; [exact E1|]. rewrite E2.
  split; [exact (proj1 Hbuf)|]. split; [exact (proj2 Hbuf)|].
  split; [exact E3|]. split; [exact E4|]. split; [exact E5|].
  split; [exact E6|]. split; [reflexivity|].
  split; [rewrite wrap32_small; [apply Z.quot_div_nonneg; lia|];
          rewrite Z.quot_div_nonneg by lia;
          split; [apply Z.div_pos; lia|];
          apply Z.div_lt_upper_bound; lia|].
  split; [reflexivity|].
  split.
  - intros Hpos Hba Hsz.
    assert (Hlb : Z.of_nat (length (local_buffer s2)) = bufsize * ba
                  /\ forall i, 0 <= i < bufsize * ba ->
                       byte_at (local_buffer s2) i
                       = silence_byte (Format params_fmt)).
    { rewrite E7. unfold s1. cbn [local_buffer set_local_buffer].
      unfold silence_buffer. cbn [fmt local_buffer]. fold ba.
      rewrite (wrap32_small (bufsize * ba)) by nia.
      assert (Hal : Z.of_nat (length (alloc (bufsize * ba))) = bufsize * ba).
      { unfold alloc. rewrite repeat_length. nia. }
      split.
      - rewrite memset_length by nia. exact Hal.
      - intros i Hi. rewrite memset_byte_at by nia.
        destruct (Z.leb_spec 0 i); [|lia].
        destruct (Z.ltb_spec i (0 + bufsize * ba)); [reflexivity|lia]. }
    destruct Hlb as [Hlen Hbytes].
    injection E3 as L W H0 CO CH WR GL PL.
    split; [|split].
    + unfold ring_inv. rewrite E2, L, W, H0. cbn. lia.
    + unfold sizes_ok. rewrite E1, E2, E5. fold ba. lia.
    + rewrite E5. exact Hbytes.
  - intros Hcap.
    destruct (Hcapdesc Hcap eq_refl) as (d & -> & Hd).
    rewrite E8. unfold dev_rate. rewrite Hd.
    split; [reflexivity|].
    unfold s2. rewrite Hcap. cbn [EDataFlow_eqb].
    cbn [cap_bufsize_frames cap_buffer set_cap_buffer set_cap_bufsize_frames].
    split; [|reflexivity].
    intros Hhw Hround. unfold dev_rate. rewrite Hd.
    rewrite to_int32_small by lia.
    destruct (muldiv_rounds duration (hardware_mSampleRate (setup c)) 10000000)
      as [Hm _]; try lia.
    { change (10000000 / 2) with 5000000. exact Hround. }
    rewrite Hm. change (10000000 / 2) with 5000000. apply wrap32_small.
    split; [apply Z.div_pos; nia|lia].
Qed.

(** ** Starting, stopping and resetting *)

(** X18.  [start] and [stop] switch between two states that [is_started]
    reports: [start] succeeds exactly on a stopped stream and fails with
    AUDCLNT_E_NOT_STOPPED on a started one, [stop] returns S_OK exactly
    on a started stream and S_FALSE on a stopped one, each undoes the
    other, and neither changes anything but [playing]. *)
Theorem start_stop_lifecycle (s : stream) :
  is_started (fst (start s)) = S_OK
  /\ is_started (fst (stop s)) = S_FALSE
  /\ (snd (start s) = S_OK <-> is_started s = S_FALSE)
  /\ (snd (start s) = AUDCLNT_E_NOT_STOPPED <-> is_started s = S_OK)
  /\ (snd (stop s) = S_OK <-> is_started s = S_OK)
  /\ (snd (stop s) = S_FALSE <-> is_started s = S_FALSE)
  /\ start (fst (start s)) = (fst (start s), AUDCLNT_E_NOT_STOPPED)
  /\ stop (fst (stop s)) = (fst (stop s), S_FALSE)
  /\ (is_started s = S_FALSE -> stop (fst (start s)) = (s, S_OK))
  /\ (is_started s = S_OK -> start (fst (stop s)) = (s, S_OK))
  /\ set_playing (fst (start s)) (playing s) = s
  /\ set_playing (fst (stop s)) (playing s) = s.
Proof.
  unfold is_started, start, stop. destruct s as [? ? ? pl ? ? ? ? ? ? ? ? ? ? ? ? ? ? ? ? ? ? ?].
  cbn [playing]. destruct pl; cbn; repeat split; try discriminate; reflexivity.
Qed.

(** X19.  After a successful [reset] the stream is empty for every
    query: the padding is 0, the next packet size is 0 and, for a period
    of at least one frame, [get_capture_buffer] returns
    AUDCLNT_S_BUFFER_EMPTY with zero frames, all without running the
    drain, so with any fuel.  The reset keeps the configuration and the
    bytes of the ring, keeps both ring invariants, and a second reset
    changes nothing. *)
Theorem reset_empties (fuel : nat) (s : stream) (want_devpos want_qpcpos : bool)
    (stamp freq : Z) :
  snd (reset s) = S_OK ->
  let s' := fst (reset s) in
  stream_config s' = stream_config s
  /\ local_buffer s' = local_buffer s
  /\ (ring_inv s -> ring_inv s')
  /\ (cap_ring_inv s -> cap_ring_inv s')
  /\ get_current_padding_nolock AudioConverterFillComplexBuffer fuel s'
     = Some (s', 0)
  /\ (0 <= period_frames s ->
      get_next_packet_size AudioConverterFillComplexBuffer fuel s'
      = Some (s', 0))
  /\ (0 < period_frames s ->
      exists o,
        get_capture_buffer AudioConverterFillComplexBuffer fuel s'
          want_devpos want_qpcpos stamp freq = Some (s', o)
        /\ out_result o = AUDCLNT_S_BUFFER_EMPTY
        /\ out_frames o = Some 0 /\ out_data o = None)
  /\ reset s' = (s', S_OK).
Proof.
  intros Hok s'.
  assert (Hs : playing s = false /\ getbuf_last s = 0).
  { unfold reset in Hok. destruct (playing s); [discriminate|].
    destruct (Z.eqb_spec (getbuf_last s) 0); [auto|discriminate]. }
  destruct Hs as [Hpl Hgl].
  assert (Hfields :
    held_frames s' = 0 /\ lcl_offs_frames s' = 0 /\ wri_offs_frames s' = 0
    /\ cap_offs_frames s' = 0 /\ cap_held_frames s' = 0
    /\ getbuf_last s' = 0 /\ playing s' = false
    /\ stream_config s' = stream_config s
    /\ local_buffer s' = local_buffer s).
  { unfold s', reset. rewrite Hpl, Hgl. cbn [Z.eqb negb fst].
    unfold stream_config.
    destruct (EDataFlow_eqb (flow s) eRender); stream_cbn;
      rewrite ?Hgl, ?Hpl; repeat split; reflexivity. }
  destruct Hfields as (F1 & F2 & F3 & F4 & F5 & F6 & F7 & F8 & F9).
  assert (Hcfg : period_frames s' = period_frames s
                 /\ bufsize_frames s' = bufsize_frames s
                 /\ cap_bufsize_frames s' = cap_bufsize_frames s).
  { unfold stream_config in F8. injection F8 as ? ? ? ? ? ?. auto. }
  destruct Hcfg as (G1 & G2 & G3).
  assert (Hdrain : capture_resample AudioConverterFillComplexBuffer fuel s'
                   = Some s').
  { unfold capture_resample.
    destruct fuel; cbn [capture_resample_loop]; rewrite F5;
      pose proof (wrap32_range (resamp_period_frames s' * 2));
      (destruct (Z.gtb_spec 0 (wrap32 (resamp_period_frames s' * 2))); [lia|]);
      reflexivity. }
  split; [exact F8|]. split; [exact F9|].
  split.
  { unfold ring_inv. rewrite G2, F1, F2, F3. intros (H1 & _).
    rewrite Z.mod_0_l by lia. lia. }
  split.
  { unfold cap_ring_inv. rewrite G3, F4, F5. intros (H1 & _). lia. }
  split.
  { unfold get_current_padding_nolock. rewrite Hdrain, F1.
    destruct (EDataFlow_eqb (flow s') eCapture); reflexivity. }
  split.
  { intros Hp. unfold get_next_packet_size. rewrite Hdrain, F1, G1.
    destruct (Z.geb_spec 0 (period_frames s)); [|reflexivity].
    repeat f_equal. lia. }
  split.
  { intros Hp. unfold get_capture_buffer. rewrite F6. cbn [Z.eqb negb].
    rewrite Hdrain, F1, G1.
    destruct (Z.ltb_spec 0 (period_frames s)); [|lia].
    eexists. split; [reflexivity|]. cbn. auto. }
  clear - Hpl Hgl. unfold s'. clear s'.
  destruct s as [cv dr fl pl pf bf rb lo hf wo tf cb co ch wb wf gl fm lb cpb wpb rsb tb].
  cbn [playing getbuf_last] in Hpl, Hgl. subst pl gl.
  unfold reset. cbn [playing getbuf_last flow Z.eqb negb].
  destruct fl; cbv -[wrap64 Z.add]; [reflexivity| |];
    rewrite Z.add_0_r; unfold wrap64; rewrite Z.mod_mod by lia; reflexivity.
Qed.

(** ** Position, frequency and latency *)

(** X20.  On a stream that holds no more frames than were written,
    [get_position] reports the frames written minus the frames held, in
    bytes in shared mode and in frames in exclusive mode, and
    [get_frequency] reports the sample rate in the same unit.  A render
    callback advances the position by exactly the frames it takes out of
    the ring (none when the stream is stopped), and a successful
    [release_render_buffer] does not move it. *)
Theorem get_position_tracks_playback (h : created_stream conv_state)
    (want_qpctime : bool) (stamp freq nframes frames flags : Z)
    (data : list Z) :
  let s := engine h in
  let ba := nBlockAlign (fmt s) in
  let rate := nSamplesPerSec (fmt s) in
  0 <= held_frames s <= written_frames s ->
  held_frames s + frames < 4294967296 ->
  0 < ba -> 0 <= rate ->
  (written_frames s + frames) * ba < 18446744073709551616 ->
  rate * ba < 18446744073709551616 ->
  0 <= nframes -> 0 <= frames ->
  let scale := if share h =? AUDCLNT_SHAREMODE_SHARED then ba else 1 in
  let pos x := fst (fst (get_position x want_qpctime stamp freq)) in
  pos h = (written_frames s - held_frames s) * scale
  /\ fst (get_frequency h) = rate * scale
  /\ pos (set_engine h (fst (fst (ca_render_cb s nframes data))))
     = pos h
       + (if playing s then Z.min nframes (held_frames s) else 0) * scale
  /\ (snd (release_render_buffer s frames flags) = S_OK ->
      pos (set_engine h (fst (release_render_buffer s frames flags))) = pos h).
Proof.
  intros s ba rate Hheld Hhf Hba Hrate Hw Hfreq Hn Hf scale pos.
  assert (Hscale : 0 < scale <= ba).
  { unfold scale. destruct (share h =? AUDCLNT_SHAREMODE_SHARED); lia. }
  assert (Hpos : forall s' : stream,
            fmt s' = fmt s ->
            0 <= held_frames s' <= written_frames s' ->
            written_frames s' <= written_frames s + frames ->
            pos (set_engine h s')
            = (written_frames s' - held_frames s') * scale).
  { intros s' Hfmt Hh' Hw'. unfold pos, get_position.
    cbn [fst engine share set_engine]. rewrite Hfmt. fold ba. fold scale.
    rewrite (wrap64_small (written_frames s' - held_frames s')) by nia.
    unfold scale.
    destruct (share h =? AUDCLNT_SHAREMODE_SHARED); [|lia].
    apply wrap64_small. nia. }
  assert (Hh : set_engine h s = h) by (destruct h; reflexivity).
  assert (Hp0 : pos h = (written_frames s - held_frames s) * scale).
  { rewrite <- Hh at 1. apply Hpos; [reflexivity|lia|lia]. }
  split; [exact Hp0|].
  split.
  { unfold get_frequency. cbn [fst]. fold s. fold rate ba. unfold scale.
    destruct (share h =? AUDCLNT_SHAREMODE_SHARED); [|lia].
    apply wrap64_small. nia. }
  split.
  - rewrite Hp0.
    assert (Hcb : let s' := fst (fst (ca_render_cb s nframes data)) in
              fmt s' = fmt s /\ written_frames s' = written_frames s
              /\ held_frames s'
                 = held_frames s
                   - (if playing s then Z.min nframes (held_frames s) else 0)).
    { unfold ca_render_cb. destruct (playing s); cbn [fst]; stream_cbn.
      - rewrite min_spec. rewrite wrap32_small by lia. auto.
      - split; [reflexivity|]. split; [reflexivity|]. lia. }
    destruct Hcb as (C1 & C2 & C3).
    rewrite Hpos; [|exact C1|rewrite C2, C3; destruct (playing s); lia
                  |rewrite C2; lia].
    rewrite C2, C3. lia.
  - intros Hok. rewrite Hp0.
    assert (Hrel : let s' := fst (release_render_buffer s frames flags) in
              fmt s' = fmt s
              /\ written_frames s' - held_frames s'
                 = written_frames s - held_frames s
              /\ 0 <= held_frames s' <= written_frames s'
              /\ written_frames s' <= written_frames s + frames).
    { unfold release_render_buffer in Hok |- *.
      destruct (Z.eqb_spec frames 0) as [->|Hf0].
      - cbn [fst]. stream_cbn. repeat split; lia.
      - destruct (Z.eqb_spec (getbuf_last s) 0); [discriminate|].
        destruct (frames >? _); [discriminate|].
        cbn [fst].
        destruct (negb (Z.land flags AUDCLNT_BUFFERFLAGS_SILENT =? 0));
          destruct (getbuf_last s >=? 0); stream_cbn;
          destruct (getbuf_last s <? 0); stream_cbn;
          rewrite (wrap32_small (held_frames s + frames)) by lia;
          rewrite (wrap64_small (written_frames s + frames)) by nia;
          repeat split; lia. }
    destruct Hrel as (R1 & R2 & R3 & R4).
    rewrite Hpos; [|exact R1|exact R3|exact R4].
    rewrite R2. reflexivity.
Qed.

(** The largest latency among the streams whose query succeeded. *)
Lemma max_latency_spec (l : list (Z * Z)) (acc : Z) :
  let max :=
    fold_left
      (fun max '(sc, latency) =>
         if negb (sc =? noErr) then max
         else if latency >? max then latency else max) l acc in
  acc <= max
  /\ (forall sc latency, In (sc, latency) l -> sc = noErr -> latency <= max)
  /\ (max = acc \/ In (noErr, max) l).
Proof.
  revert acc. induction l as [|[sc lat] l IH]; intros acc; cbn [fold_left].
  - cbn zeta. split; [lia|]. split; [intros ? ? []|auto].
  - set (acc1 := if negb (sc =? noErr) then acc
                 else if lat >? acc then lat else acc).
    destruct (IH acc1) as (I1 & I2 & I3). cbn zeta in *.
    assert (Hacc : acc <= acc1
                   /\ (sc = noErr -> lat <= acc1)
                   /\ (acc1 = acc \/ (sc = noErr /\ acc1 = lat))).
    { unfold acc1. destruct (Z.eqb_spec sc noErr); cbn [negb].
      - destruct (Z.gtb_spec lat acc); repeat split; try lia; auto.
      - repeat split; try lia; auto. }
    destruct Hacc as (A1 & A2 & A3).
    split; [lia|]. split.
    + intros sc0 l0 [E|Hin] Hsc; [|eauto].
      injection E as <- <-. specialize (A2 Hsc). lia.
    + destruct I3 as [I3|I3]; [|right; now right].
      destruct A3 as [A3|[A3 A4]]; [left; lia|].
      right. left. rewrite I3, A4, A3. reflexivity.
Qed.

(** X21.  [get_latency] stores a latency only when it returns S_OK,
    which needs the device latency and the list of streams to be read;
    otherwise it fails.  The stream latency it adds is the largest one
    among the streams whose latency could be read, 0 when there is none,
    and as long as nothing overflows 31 bits the result is the sum of
    device and stream latency converted from frames to units of 100 ns,
    rounded to nearest, plus one period. *)
Theorem get_latency_spec (h : created_stream conv_state) (c : latency_calls) :
  let rate := nSamplesPerSec (fmt (engine h)) in
  match get_latency h c with
  | (result, Some latency) =>
      result = HR S_OK
      /\ DeviceLatency_sc c = noErr /\ Streams_size_sc c = noErr
      /\ Streams_sc c = noErr /\ Streams_malloc_ok c = true
      /\ exists max,
           (forall sc l, In (sc, l) (StreamLatency c) -> sc = noErr -> l <= max)
           /\ (max = 0 \/ In (noErr, max) (StreamLatency c))
           /\ 0 <= max
           /\ (0 <= DeviceLatency c -> DeviceLatency c + max <= 2147483647 ->
               0 < rate <= 2147483647 ->
               0 <= period_ms h ->
               ((DeviceLatency c + max) * 10000000 + rate / 2) / rate
               + period_ms h * 10000 <= 2147483647 ->
               latency
               = ((DeviceLatency c + max) * 10000000 + rate / 2) / rate
                 + period_ms h * 10000)
  | (result, None) => DEVICE_FAILED result = true
  end.
Proof.
  intros rate. unfold get_latency, ca_get_max_stream_latency.
  assert (Hos : forall sc, DEVICE_FAILED (osstatus_to_hresult sc) = true).
  { intros sc. unfold osstatus_to_hresult.
    destruct (_ || _); [reflexivity|]. destruct (_ =? _); reflexivity. }
  destruct (Z.eqb_spec (DeviceLatency_sc c) noErr); cbn [negb]; [|apply Hos].
  destruct (Z.eqb_spec (Streams_size_sc c) noErr); cbn [negb]; [|apply Hos].
  destruct (Streams_malloc_ok c); cbn [negb]; [|reflexivity].
  destruct (Z.eqb_spec (Streams_sc c) noErr); cbn [negb]; [|apply Hos].
  cbn [DEVICE_FAILED FAILED].
  destruct (max_latency_spec (StreamLatency c) 0) as (M1 & M2 & M3).
  cbn zeta in M1, M2, M3.
  set (max := fold_left _ (StreamLatency c) 0) in *.
  do 5 (split; [auto|]).
  exists max. split; [exact M2|]. split; [exact M3|]. split; [exact M1|].
  intros Hd Hsum Hrate Hp Hfit. fold rate.
  assert (Hq : 0 <= ((DeviceLatency c + max) * 10000000 + rate / 2) / rate).
  { apply Z.div_pos; [|lia].
    assert (0 <= rate / 2) by (apply Z.div_pos; lia). nia. }
  rewrite (wrap32_small (DeviceLatency c + max)) by lia.
  rewrite !to_int32_small by lia.
  destruct (muldiv_rounds (DeviceLatency c + max) 10000000 rate) as [E _];
    try lia.
  rewrite E. rewrite (wrap32_small (period_ms h * 10000)) by lia.
  apply wrap32_small. lia.
Qed.

End StreamProperties.


(** * The raw capture ring *)

Lemma byte_at_firstn (l : list Z) (n i : Z) :
  0 <= i < n -> byte_at (firstn (Z.to_nat n) l) i = byte_at l i.
Proof.
  intros H. unfold byte_at.
  rewrite <- (firstn_skipn (Z.to_nat n) l) at 2.
  destruct (Nat.lt_ge_cases (Z.to_nat i) (length (firstn (Z.to_nat n) l))).
  - now rewrite app_nth1.
  - rewrite nth_overflow by lia.
    rewrite app_nth2 by lia.
    rewrite length_firstn in *.
    rewrite nth_overflow; [reflexivity|].
    rewrite length_skipn. lia.
Qed.

Lemma byte_at_skipn (l : list Z) (n i : Z) :
  0 <= n -> 0 <= i -> byte_at (skipn (Z.to_nat n) l) i = byte_at l (n + i).
Proof.
  intros Hn Hi. unfold byte_at. rewrite nth_skipn. f_equal. lia.
Qed.

Lemma byte_at_ext (a b : list Z) :
  length a = length b ->
  (forall i, 0 <= i < Z.of_nat (length a) -> byte_at a i = byte_at b i) ->
  a = b.
Proof.
  intros Hl Hb. apply (nth_ext a b 0 0 Hl). intros n Hn.
  specialize (Hb (Z.of_nat n) ltac:(lia)). unfold byte_at in Hb.
  now rewrite Nat2Z.id in Hb.
Qed.

Lemma byte_at_app (a b : list Z) (i : Z) :
  0 <= i ->
  byte_at (a ++ b) i
  = if i <? Z.of_nat (length a) then byte_at a i
    else byte_at b (i - Z.of_nat (length a)).
Proof.
  intros Hi. unfold byte_at.
  destruct (Z.ltb_spec i (Z.of_nat (length a))).
  - apply app_nth1. lia.
  - rewrite app_nth2 by lia. f_equal. lia.
Qed.

Section CaptureProperties.

Context {conv_state : Type}.
Variable AudioConverterFillComplexBuffer : conv_state -> Z -> conv_run conv_state.

Local Abbreviation stream := (coreaudio_stream conv_state).

(** X22.  [ca_capture_cb] returns the status of [AudioUnitRender], keeps
    the invariant of the raw ring and never touches the client ring or
    the configuration.  On a stopped stream, or when the hardware fails,
    the raw ring keeps its offset and its count, and on a stopped stream
    its bytes.  Otherwise the frames delivered are added to
    [cap_held_frames] up to the size of the ring, and the write
    position, read offset plus count, advances by exactly the frames
    delivered modulo the ring size: on overrun the read offset moves
    forward and the oldest frames are dropped. *)
Theorem ca_capture_cb_raw_ring (s : stream) (nframes hw_sc : Z)
    (hw_data : list Z) :
  cap_ring_inv s -> cap_bufsize_frames s <= 2147483647 ->
  0 < nBlockAlign (fmt s) ->
  let delivered := Z.quot (Z.of_nat (length hw_data)) (nBlockAlign (fmt s)) in
  cap_held_frames s + delivered < 4294967296 ->
  let '(s', sc) := ca_capture_cb s nframes hw_sc hw_data in
  let B := cap_bufsize_frames s in
  sc = hw_sc
  /\ cap_ring_inv s'
  /\ client_ring s' = client_ring s
  /\ stream_config s' = stream_config s
  /\ playing s' = playing s
  /\ (playing s = false -> cap_buffer s' = cap_buffer s)
  /\ (playing s = false \/ hw_sc <> noErr ->
      cap_offs_frames s' = cap_offs_frames s
      /\ cap_held_frames s' = cap_held_frames s)
  /\ (playing s = true -> hw_sc = noErr ->
      cap_held_frames s' = Z.min (cap_held_frames s + delivered) B
      /\ (cap_offs_frames s' + cap_held_frames s') mod B
         = (cap_offs_frames s + cap_held_frames s + delivered) mod B
      /\ (cap_held_frames s + delivered <= B ->
          cap_offs_frames s' = cap_offs_frames s)).
Proof.
  intros Hinv Hmax Hba delivered Hno.
  pose proof (ca_capture_cb_cap_ring_inv s nframes hw_sc hw_data Hinv) as Hinv'.
  destruct Hinv as (HB & Hh & Ho).
  assert (Hd : 0 <= delivered).
  { unfold delivered. apply Z.quot_pos; lia. }
  unfold ca_capture_cb in *.
  set (wri := wrap32 (cap_offs_frames s + cap_held_frames s)
              mod cap_bufsize_frames s) in *.
  set (use_wrap := negb (playing s) || (wrap32 (wri + nframes) >? cap_bufsize_frames s)) in *.
  set (s1 := if use_wrap then _ else s) in *.
  assert (H1 : client_ring s1 = client_ring s /\ stream_config s1 = stream_config s
               /\ playing s1 = playing s /\ cap_buffer s1 = cap_buffer s
               /\ cap_offs_frames s1 = cap_offs_frames s
               /\ cap_held_frames s1 = cap_held_frames s
               /\ fmt s1 = fmt s).
  { unfold s1. destruct use_wrap; [destruct (_ <? _)|]; repeat split. }
  destruct H1 as (A1 & A2 & A3 & A4 & A5 & A6 & A7).
  set (s2 := if use_wrap then set_wrap_buffer s1 _ else set_cap_buffer s1 _) in *.
  assert (H2 : client_ring s2 = client_ring s /\ stream_config s2 = stream_config s
               /\ playing s2 = playing s
               /\ (playing s = false -> cap_buffer s2 = cap_buffer s)
               /\ cap_offs_frames s2 = cap_offs_frames s
               /\ cap_held_frames s2 = cap_held_frames s
               /\ fmt s2 = fmt s
               /\ cap_bufsize_frames s2 = cap_bufsize_frames s).
  { unfold s2, use_wrap. unfold stream_config in *. unfold client_ring in *.
    injection A2 as ? ? ? ? ? ?.
    destruct (playing s); cbn [negb orb];
      [destruct (_ >? _)|]; stream_cbn; repeat split; auto; try congruence;
      try discriminate. }
  destruct H2 as (B1 & B2 & B3 & B4 & B5 & B6 & B7 & B8).
  clearbody s2. clear s1 A1 A2 A3 A4 A5 A6 A7.
  destruct (Z.eqb_spec hw_sc noErr) as [Hsc|Hsc]; cbn [negb] in *.
  2:{ split; [reflexivity|]. split; [exact Hinv'|].
      do 3 (split; [assumption|]). split; [assumption|].
      split; [auto|]. intros _ H. contradiction. }
  rewrite B3 in *.
  destruct (playing s) eqn:Hpl.
  2:{ split; [auto|]. split; [exact Hinv'|].
      do 3 (split; [assumption|]). split; [assumption|].
      split; [auto|]. intros H. discriminate. }
  set (s3 := if use_wrap then _ else s2) in *.
  assert (H3 : client_ring s3 = client_ring s /\ stream_config s3 = stream_config s
               /\ playing s3 = true
               /\ cap_offs_frames s3 = cap_offs_frames s
               /\ cap_held_frames s3 = cap_held_frames s
               /\ fmt s3 = fmt s
               /\ cap_bufsize_frames s3 = cap_bufsize_frames s).
  { unfold s3. unfold stream_config in *. unfold client_ring in *.
    destruct use_wrap; stream_cbn; repeat split; auto. }
  destruct H3 as (C1 & C2 & C3 & C4 & C5 & C6 & C7).
  clearbody s3.
  rewrite C5, C7, C4 in *. fold delivered in Hinv' |- *.
  rewrite (wrap32_small (cap_held_frames s + delivered)) in * by lia.
  destruct (Z.gtb_spec (cap_held_frames s + delivered) (cap_bufsize_frames s))
    as [Hover|Hfit].
  - assert (Hm := Z.mod_pos_bound (cap_held_frames s + delivered)
                    (cap_bufsize_frames s) ltac:(lia)).
    assert (Hws : wrap32 (cap_offs_frames s
                + (cap_held_frames s + delivered) mod cap_bufsize_frames s)
              = cap_offs_frames s
                + (cap_held_frames s + delivered) mod cap_bufsize_frames s)
      by (apply wrap32_small; lia).
    rewrite Hws. rewrite Hws in Hinv'.
    cbn [fst] in Hinv'. stream_cbn. unfold client_ring, stream_config in *.
    stream_cbn.
    split; [now rewrite Hsc|]. split; [exact Hinv'|].
    do 3 (split; [assumption|]).
    split; [intros H; discriminate|]. split; [intros [H|H]; [discriminate|contradiction]|].
    intros _ _. split; [lia|]. split; [|intros H; lia].
    match goal with
    | |- (?x + ?b) mod ?b = _ =>
        replace (x + b) with (x + 1 * b) by lia
    end.
    rewrite Z.mod_add by lia. rewrite Z.mod_mod by lia.
    rewrite Z.add_mod_idemp_r by lia. f_equal. lia.
  - cbn [fst] in Hinv'. stream_cbn. unfold client_ring, stream_config in *.
    stream_cbn.
    split; [now rewrite Hsc|]. split; [exact Hinv'|].
    do 3 (split; [assumption|]).
    split; [intros H; discriminate|]. split; [intros [H|H]; [discriminate|contradiction]|].
    intros _ _. split; [lia|]. split; [|intros H; exact C4].
    rewrite C4. f_equal. lia.
Qed.

(** What [feed_cb] hands to the converter. *)
Lemma feed_cb_bytes (s : stream) (req : Z) :
  cap_storage_ok s -> 0 <= req < 4294967296 ->
  let ba := nBlockAlign (fmt s) in
  let '(s', n, data) := feed_cb s req in
  n = Z.min req (cap_held_frames s)
  /\ Z.of_nat (length data) = n * ba
  /\ (forall j, 0 <= j < n * ba ->
        byte_at data j
        = byte_at (cap_buffer s)
            ((cap_offs_frames s * ba + j) mod (cap_bufsize_frames s * ba)))
  /\ cap_held_frames s' = cap_held_frames s - n.
Proof.
  intros (Hinv & Hmax & Hba & Hsz & Hlen & Hw0 & Hw) Hreq ba.
  destruct Hinv as (HB & Hh & Ho).
  unfold feed_cb. fold ba. rewrite min_spec.
  fold ba in Hba, Hsz, Hlen, Hw.
  set (n := Z.min req (cap_held_frames s)).
  set (O := cap_offs_frames s) in *. set (C := cap_bufsize_frames s) in *.
  set (H := cap_held_frames s) in *.
  assert (Hn : 0 <= n <= H) by lia.
  destruct (Z.eqb_spec n 0) as [Hn0|Hn0].
  { rewrite Hn0. cbn. repeat split; try lia. }
  mul_le 1 n ba. mul_le n H ba. mul_le H C ba.
  mul_le 0 O ba. mul_le (O + 1) C ba.
  rewrite (wrap32_small (n * ba)) by lia.
  rewrite (wrap32_small (O + n)) by lia.
  destruct (Z.gtb_spec (O + n) C) as [Hwrap|Hfit].
  - mul_le (C + 1) (O + n) ba.
    rewrite (wrap32_small (C - O)) by lia.
    set (chunk := C - O).
    set (s0 := if wrap_bufsize_frames s <? n then _ else s).
    assert (H0 : cap_buffer s0 = cap_buffer s
                 /\ cap_offs_frames s0 = O
                 /\ cap_held_frames s0 = H
                 /\ cap_bufsize_frames s0 = C
                 /\ n * ba <= Z.of_nat (length (wrap_buffer s0))).
    { unfold s0. destruct (Z.ltb_spec (wrap_bufsize_frames s) n); stream_cbn.
      - repeat split. unfold alloc. rewrite repeat_length. lia.
      - repeat split. mul_le n (wrap_bufsize_frames s) ba. lia. }
    destruct H0 as (E1 & E2 & E3 & E4 & E5). clearbody s0.
    rewrite E1, E2.
    assert (Hck : chunk * ba = C * ba - O * ba) by (unfold chunk; ring).
    assert (Hnc : (n - chunk) * ba = n * ba - chunk * ba) by ring.
    rewrite (wrap32_small (O * ba)) by lia.
    rewrite (wrap32_small (chunk * ba)) by lia.
    rewrite (wrap32_small (n - chunk)) by (unfold chunk; lia).
    rewrite (wrap32_small ((n - chunk) * ba)) by lia.
    stream_cbn. rewrite ?E2, ?E3, ?E4. fold O C H.
    rewrite (wrap32_small (H - n)) by lia.
    set (w1 := memcpy (wrap_buffer s0) 0 (cap_buffer s) (O * ba) (chunk * ba)).
    assert (Hl1 : length w1 = length (wrap_buffer s0)).
    { apply memcpy_length; lia. }
    set (w2 := memcpy w1 (chunk * ba) (cap_buffer s) 0 ((n - chunk) * ba)).
    assert (Hl2 : length w2 = length w1).
    { apply memcpy_length; lia. }
    split; [reflexivity|].
    split; [rewrite length_firstn; lia|].
    split; [|reflexivity].
    intros j Hj. rewrite byte_at_firstn by lia.
    unfold w2. rewrite memcpy_byte_at by lia.
    destruct (Z.leb_spec (chunk * ba) j); cbn [andb].
    + destruct (Z.ltb_spec j (chunk * ba + (n - chunk) * ba)); [|lia].
      f_equal. rewrite mod_above by lia. lia.
    + unfold w1. rewrite memcpy_byte_at by lia.
      destruct (Z.leb_spec 0 j); [|lia].
      destruct (Z.ltb_spec j (0 + chunk * ba)); [|lia]. cbn [andb].
      f_equal. rewrite Z.mod_small by lia. lia.
  - mul_le (O + n) C ba.
    rewrite (wrap32_small (O * ba)) by lia.
    stream_cbn. fold O C H.
    rewrite (wrap32_small (H - n)) by lia.
    split; [reflexivity|].
    split; [rewrite length_firstn, length_skipn; lia|].
    split; [|reflexivity].
    intros j Hj. rewrite byte_at_firstn by lia.
    rewrite byte_at_skipn by lia.
    f_equal. rewrite Z.mod_small by lia. reflexivity.
Qed.

(** What [ca_capture_cb] stores in the raw ring when the frames fit. *)
Lemma ca_capture_cb_bytes (s : stream) (nframes : Z) (hw_data : list Z) :
  cap_storage_ok s -> playing s = true ->
  let ba := nBlockAlign (fmt s) in
  let B := cap_bufsize_frames s in
  0 <= nframes -> Z.of_nat (length hw_data) = nframes * ba ->
  cap_held_frames s + nframes <= B ->
  let wri := (cap_offs_frames s + cap_held_frames s) mod B in
  let s' := fst (ca_capture_cb s nframes noErr hw_data) in
  cap_storage_ok s'
  /\ fmt s' = fmt s /\ cap_bufsize_frames s' = B
  /\ cap_offs_frames s' = cap_offs_frames s
  /\ cap_held_frames s' = cap_held_frames s + nframes
  /\ forall i, 0 <= i < B * ba ->
       byte_at (cap_buffer s') i
       = if (i - wri * ba) mod (B * ba) <? nframes * ba
         then byte_at hw_data ((i - wri * ba) mod (B * ba))
         else byte_at (cap_buffer s) i.
Proof.
  intros (Hinv & Hmax & Hba & Hsz & Hlen & Hw0 & Hw) Hpl ba B Hn Hhw Hfit wri s'.
  destruct Hinv as (HB & Hh & Ho). fold ba in Hba, Hsz, Hlen, Hw.
  fold B in HB, Hh, Ho, Hmax, Hsz, Hlen.
  assert (Hwri : 0 <= wri < B) by (apply Z.mod_pos_bound; lia).
  mul_le 0 wri ba. mul_le (wri + 1) B ba.
  mul_le 0 nframes ba. mul_le nframes B ba.
  assert (Hq : Z.quot (Z.of_nat (length hw_data)) ba = nframes).
  { rewrite Hhw. apply Z.quot_mul. lia. }
  unfold s', ca_capture_cb. fold ba. fold B. rewrite Hpl. cbn [negb orb].
  rewrite (wrap32_small (cap_offs_frames s + cap_held_frames s)) by lia.
  fold wri.
  rewrite (wrap32_small (wri + nframes)) by lia.
  rewrite (wrap32_small (nframes * ba)) by lia.
  change (noErr =? noErr) with true. cbn [negb].
  destruct (Z.gtb_spec (wri + nframes) B) as [Hwrap|Hdirect].
  - mul_le (B + 1) (wri + nframes) ba.
    set (s1 := if wrap_bufsize_frames s <? nframes then _ else s).
    assert (H1 : cap_buffer s1 = cap_buffer s /\ fmt s1 = fmt s
                 /\ cap_offs_frames s1 = cap_offs_frames s
                 /\ cap_held_frames s1 = cap_held_frames s
                 /\ cap_bufsize_frames s1 = B /\ playing s1 = true
                 /\ 0 <= wrap_bufsize_frames s1
                 /\ wrap_bufsize_frames s1 * ba
                    <= Z.of_nat (length (wrap_buffer s1))
                 /\ nframes * ba <= Z.of_nat (length (wrap_buffer s1))).
    { unfold s1. destruct (Z.ltb_spec (wrap_bufsize_frames s) nframes);
        stream_cbn.
      - unfold alloc. rewrite repeat_length. repeat split; auto; lia.
      - mul_le nframes (wrap_bufsize_frames s) ba. repeat split; auto; lia. }
    destruct H1 as (E1 & E2 & E3 & E4 & E5 & E6 & E7 & E8 & E9).
    clearbody s1. stream_cbn. rewrite E6. stream_cbn.
    rewrite ?E1, ?E3, ?E4, ?E5, ?E2. fold ba. rewrite Hq.
    rewrite (wrap32_small (cap_held_frames s + nframes)) by lia.
    destruct (Z.gtb_spec (cap_held_frames s + nframes) B); [lia|].
    cbn [fst]. stream_cbn. rewrite ?E2, ?E3, ?E5.
    rewrite (wrap32_small (wri * ba)) by lia.
    rewrite (wrap32_small (B * ba)) by lia.
    set (w := memcpy (wrap_buffer s1) 0 hw_data 0 (Z.of_nat (length hw_data))).
    assert (Hlw : length w = length (wrap_buffer s1)).
    { apply memcpy_length; lia. }
    destruct (ca_wrap_buffer_spec (cap_buffer s) w (wri * ba) (B * ba)
                (Z.of_nat (length hw_data))) as [Hcl Hcb]; try lia.
    split.
    { unfold cap_storage_ok, cap_ring_inv. stream_cbn. rewrite ?E2, ?E3, ?E5.
      fold ba. rewrite Hcl, Hlw. repeat split; lia. }
    split; [reflexivity|]. split; [reflexivity|]. split; [reflexivity|].
    split; [reflexivity|].
    intros i Hi. rewrite Hcb by lia. rewrite Hhw.
    destruct (Z.ltb_spec ((i - wri * ba) mod (B * ba)) (nframes * ba));
      [|reflexivity].
    unfold w. rewrite memcpy_byte_at; try lia.
    2:{ apply Z.mod_pos_bound. lia. }
    assert (Hm := Z.mod_pos_bound (i - wri * ba) (B * ba) ltac:(lia)).
    destruct (Z.leb_spec 0 ((i - wri * ba) mod (B * ba))); [|lia].
    destruct (Z.ltb_spec ((i - wri * ba) mod (B * ba))
                (0 + Z.of_nat (length hw_data))); [|lia].
    cbn [andb]. f_equal. lia.
  - mul_le (wri + nframes) B ba.
    stream_cbn. rewrite Hpl. stream_cbn. fold ba. rewrite Hq.
    rewrite (wrap32_small (cap_held_frames s + nframes)) by lia.
    destruct (Z.gtb_spec (cap_held_frames s + nframes) (cap_bufsize_frames s));
      [unfold B in *; lia|].
    cbn [fst]. stream_cbn.
    rewrite (wrap32_small (wri * ba)) by lia.
    assert (Hcl : length (memcpy (cap_buffer s) (wri * ba) hw_data 0
                            (Z.of_nat (length hw_data)))
                  = length (cap_buffer s)).
    { apply memcpy_length; lia. }
    split.
    { unfold cap_storage_ok, cap_ring_inv. stream_cbn. fold ba. fold B.
      rewrite Hcl. repeat split; lia. }
    split; [reflexivity|]. split; [reflexivity|]. split; [reflexivity|].
    split; [reflexivity|].
    intros i Hi. rewrite memcpy_byte_at by lia. rewrite Hhw.
    destruct (Z.leb_spec (wri * ba) i); cbn [andb].
    + rewrite Z.mod_small by lia.
      destruct (Z.ltb_spec i (wri * ba + nframes * ba));
        destruct (Z.ltb_spec (i - wri * ba) (nframes * ba)); try lia;
        try reflexivity; f_equal; lia.
    + rewrite mod_below by lia.
      destruct (Z.ltb_spec (i - wri * ba + B * ba) (nframes * ba)); [lia|].
      reflexivity.
Qed.

(** X23.  The raw capture ring is first in, first out: when the frames
    the hardware delivers fit beside the frames held, the converter's
    input callback, asked for all of them, is handed the bytes that were
    held followed by the bytes just delivered, in order, wherever the
    ring wraps, and leaves the ring empty. *)
Theorem capture_raw_ring_fifo (s : stream) (nframes : Z) (hw_data : list Z) :
  cap_storage_ok s -> playing s = true ->
  let ba := nBlockAlign (fmt s) in
  0 <= nframes -> Z.of_nat (length hw_data) = nframes * ba ->
  cap_held_frames s + nframes <= cap_bufsize_frames s ->
  let '(_, _, held_data) := feed_cb s (cap_held_frames s) in
  let s1 := fst (ca_capture_cb s nframes noErr hw_data) in
  let '(s2, served, data) := feed_cb s1 (cap_held_frames s + nframes) in
  served = cap_held_frames s + nframes
  /\ data = held_data ++ hw_data
  /\ cap_held_frames s2 = 0.
Proof.
  intros Hok Hpl ba Hn Hhw Hfit.
  pose proof Hok as (Hinv & Hmax & Hba & Hsz & Hlen & Hw0 & Hw).
  destruct Hinv as (HB & Hh & Ho). fold ba in Hba, Hsz, Hlen, Hw.
  pose proof (feed_cb_bytes s (cap_held_frames s) Hok ltac:(lia)) as F0.
  destruct (feed_cb s (cap_held_frames s)) as [[s0 n0] held_data].
  cbn zeta in F0. fold ba in F0. destruct F0 as (N0 & L0 & D0 & _).
  rewrite Z.min_id in N0. subst n0.
  destruct (ca_capture_cb_bytes s nframes hw_data Hok Hpl Hn Hhw Hfit)
    as (Hok1 & Hf1 & HB1 & Ho1 & Hh1 & Hb1).
  fold ba in Hb1. cbn zeta.
  set (s1 := fst (ca_capture_cb s nframes noErr hw_data)) in *.
  pose proof (feed_cb_bytes s1 (cap_held_frames s + nframes) Hok1 ltac:(lia))
    as F1.
  destruct (feed_cb s1 (cap_held_frames s + nframes)) as [[s2 served] data].
  cbn zeta in F1. rewrite Hf1, HB1, Ho1, Hh1 in F1. fold ba in F1.
  rewrite Z.min_id in F1. destruct F1 as (N1 & L1 & D1 & H2).
  split; [exact N1|]. split; [|lia]. subst served.
  set (B := cap_bufsize_frames s) in *.
  set (h := cap_held_frames s) in *.
  set (o := cap_offs_frames s) in *.
  apply byte_at_ext.
  { rewrite length_app. lia. }
  intros j Hj. rewrite L1 in Hj.
  rewrite D1 by lia. rewrite byte_at_app by lia. rewrite L0.
  assert (Hpos := Z.mod_pos_bound (o * ba + j) (B * ba) ltac:(nia)).
  rewrite Hb1 by lia.
  assert (Hwri : ((o + h) mod B) * ba = (o * ba + h * ba) mod (B * ba)).
  { replace (o * ba + h * ba) with ((o + h) * ba) by lia.
    rewrite Z.mul_mod_distr_r by lia. reflexivity. }
  rewrite Hwri.
  assert (Hrel : ((o * ba + j) mod (B * ba) - (o * ba + h * ba) mod (B * ba))
                 mod (B * ba) = (j - h * ba) mod (B * ba)).
  { rewrite <- Zminus_mod. f_equal. lia. }
  rewrite Hrel.
  destruct (Z.ltb_spec j (h * ba)).
  - rewrite mod_below by nia.
    destruct (Z.ltb_spec (j - h * ba + B * ba) (nframes * ba)); [nia|].
    symmetry. apply D0. lia.
  - rewrite Z.mod_small by nia.
    destruct (Z.ltb_spec (j - h * ba) (nframes * ba)); [reflexivity|nia].
Qed.


End CaptureProperties.


(** * Writing to a render stream *)

Section RenderProperties.

Context {conv_state : Type}.
Variable AudioConverterFillComplexBuffer : conv_state -> Z -> conv_run conv_state.

Local Abbreviation stream := (coreaudio_stream conv_state).

(** The frames a render callback copies out of the ring. *)
Lemma ca_render_cb_copied (s : stream) (nframes : Z) (data : list Z) :
  ring_inv s -> sizes_ok s -> playing s = true ->
  0 <= nframes ->
  nframes * nBlockAlign (fmt s) < 4294967296 ->
  Z.of_nat (length data) = nframes * nBlockAlign (fmt s) ->
  let ba := nBlockAlign (fmt s) in
  let n := Z.min nframes (held_frames s) in
  let '(s', out, sc) := ca_render_cb s nframes data in
  held_frames s' = held_frames s - n
  /\ lcl_offs_frames s' = (lcl_offs_frames s + n) mod bufsize_frames s
  /\ forall i, 0 <= i < n * ba ->
       byte_at out i
       = byte_at (local_buffer s)
           ((lcl_offs_frames s * ba + i) mod (bufsize_frames s * ba)).
Proof.
  intros (HB & Hheld & Hlcl & Hwri & Hinv) (HBmax & Hper & Hba & HBB & Hlen)
         Hplay Hn HFB Hdata ba n.
  unfold ca_render_cb. fold ba. rewrite min_spec. fold n. rewrite Hplay.
  set (B := bufsize_frames s) in *.
  set (lcl := lcl_offs_frames s) in *.
  set (held := held_frames s) in *.
  assert (Hn0 : 0 <= n <= nframes) by (unfold n; lia).
  assert (Hnh : n <= held) by (unfold n; lia).
  assert (HLB : 0 <= lcl * ba /\ lcl * ba + (B - lcl) * ba = B * ba
                /\ lcl * ba < B * ba) by nia.
  assert (HNB : 0 <= n * ba /\ n * ba <= nframes * ba /\ n * ba <= B * ba) by nia.
  assert (HFN : (nframes - n) * ba = nframes * ba - n * ba) by ring.
  assert (Hnf : nframes < 4294967296) by nia.
  rewrite (wrap32_small (lcl * ba)) by lia.
  rewrite (wrap32_small (n * ba)) by lia.
  rewrite (wrap32_small (B - lcl)) by lia.
  rewrite (wrap32_small ((B - lcl) * ba)) by lia.
  rewrite (wrap32_small (lcl + n)) by lia.
  rewrite (wrap32_small (held - n)) by lia.
  set (data1 := if n * ba >? (B - lcl) * ba then _ else _).
  assert (Hd1 : length data1 = length data
                /\ forall i, 0 <= i < nframes * ba ->
                     byte_at data1 i =
                     if i <? n * ba
                     then byte_at (local_buffer s) ((lcl * ba + i) mod (B * ba))
                     else byte_at data i).
  { unfold data1. destruct (Z.gtb_spec (n * ba) ((B - lcl) * ba)) as [Hw|Hf].
    - assert (Hl1 : length (memcpy data 0 (local_buffer s) (lcl * ba)
                                   ((B - lcl) * ba)) = length data)
        by (apply memcpy_length; lia).
      split.
      + rewrite memcpy_length; [exact Hl1|lia..].
      + intros i Hi. rewrite memcpy_byte_at by lia.
        rewrite memcpy_byte_at by lia.
        destruct (Z.ltb_spec (lcl * ba + i) (B * ba));
          [rewrite Z.mod_small by lia|
           destruct (Z.ltb_spec i (n * ba));
           [rewrite mod_above by lia|]];
          zcmp; try lia; try reflexivity; f_equal; lia.
    - split.
      + apply memcpy_length; lia.
      + intros i Hi. rewrite memcpy_byte_at by lia.
        destruct (Z.ltb_spec i (n * ba));
          [rewrite Z.mod_small by lia|];
          zcmp; try lia; try reflexivity; f_equal; lia. }
  destruct Hd1 as [Hl1 Hb1].
  stream_cbn. split; [reflexivity|]. split; [reflexivity|].
  intros i Hi. unfold silence_buffer. stream_cbn. fold ba.
  destruct (Z.gtb_spec nframes n) as [Hs|Hs].
  - rewrite (wrap32_small (nframes - n)) by lia.
    rewrite (wrap32_small ((nframes - n) * ba)) by lia.
    rewrite memset_byte_at by lia.
    destruct (Z.leb_spec (n * ba) i); [lia|]. cbn [andb].
    rewrite Hb1 by lia. destruct (Z.ltb_spec i (n * ba)); [reflexivity|lia].
  - rewrite Hb1 by lia. destruct (Z.ltb_spec i (n * ba)); [reflexivity|lia].
Qed.

(** What a write of [frames] frames leaves in the ring: the acquisition,
    the client's store, the release. *)
Lemma render_write_path (fuel : nat) (s : stream) (frames : Z) (d : list Z) :
  ring_inv s -> sizes_ok s -> tmp_storage_ok s -> flow s <> eCapture ->
  getbuf_last s = 0 ->
  0 < frames -> held_frames s + frames <= bufsize_frames s ->
  let ba := nBlockAlign (fmt s) in
  let B := bufsize_frames s in
  Z.of_nat (length d) = frames * ba ->
  exists s1 p,
    get_render_buffer AudioConverterFillComplexBuffer fuel true s frames
    = Some (s1, S_OK, Some p)
    /\ (p = PtrTmp <-> B < wri_offs_frames s + frames)
    /\ let '(s3, hr) := release_render_buffer (client_write s1 p d) frames 0 in
       hr = S_OK
       /\ stream_config s3 = stream_config s /\ playing s3 = playing s
       /\ lcl_offs_frames s3 = lcl_offs_frames s
       /\ held_frames s3 = held_frames s + frames
       /\ wri_offs_frames s3 = (wri_offs_frames s + frames) mod B
       /\ written_frames s3 = wrap64 (written_frames s + frames)
       /\ getbuf_last s3 = 0
       /\ tmp_storage_ok s3
       /\ length (local_buffer s3) = length (local_buffer s)
       /\ forall i, 0 <= i < B * ba ->
            byte_at (local_buffer s3) i
            = if (i - wri_offs_frames s * ba) mod (B * ba) <? frames * ba
              then byte_at d ((i - wri_offs_frames s * ba) mod (B * ba))
              else byte_at (local_buffer s) i.
Proof.
  intros (HB & Hheld & Hlcl & Hwri & Hinv) (HBmax & Hper & Hba & HBB & Hlen)
         (Ht0 & Htmp) Hflow Hgl Hf Hfit ba B Hd.
  fold ba in Hba, HBB, Hlen, Htmp. fold B in HB, Hheld, Hlcl, Hwri, HBmax, HBB, Hlen, Hfit.
  set (wri := wri_offs_frames s) in *.
  unfold get_render_buffer.
  rewrite get_current_padding_nolock_render by assumption.
  rewrite Hgl. cbn [Z.eqb negb].
  destruct (Z.eqb_spec frames 0); [lia|].
  rewrite (wrap32_small (held_frames s + frames)) by lia.
  destruct (Z.gtb_spec (held_frames s + frames) (bufsize_frames s));
    [unfold B in *; lia|].
  fold wri. rewrite (wrap32_small (wri + frames)) by lia. fold ba.
  mul_le 0 wri ba. mul_le (wri + 1) B ba.
  mul_le 1 frames ba. mul_le frames B ba.
  assert (HfB : frames * ba <= B * ba) by lia.
  destruct (Z.gtb_spec (wri + frames) (bufsize_frames s)) as [Hw|Hdirect].
  - (* through the scratch buffer *)
    mul_le (B + 1) (wri + frames) ba.
    cbn [andb negb]. rewrite andb_false_r.
    set (s1 := if tmp_buffer_frames s <? frames then _ else s).
    assert (H1 : stream_config s1 = stream_config s /\ playing s1 = playing s
                 /\ client_ring s1 = client_ring s
                 /\ fmt s1 = fmt s
                 /\ 0 <= tmp_buffer_frames s1
                 /\ tmp_buffer_frames s1 * ba
                    <= Z.of_nat (length (tmp_bytes s1))
                 /\ frames <= tmp_buffer_frames s1).
    { unfold s1. destruct (Z.ltb_spec (tmp_buffer_frames s) frames).
      - unfold tmp_bytes. stream_cbn. unfold alloc. rewrite repeat_length.
        rewrite (wrap32_small (frames * ba)) by lia.
        repeat split; lia.
      - repeat split; auto. }
    destruct H1 as (A1 & A2 & A3 & A4 & A5 & A6 & A7). clearbody s1.
    mul_le frames (tmp_buffer_frames s1) ba.
    unfold client_ring in A3. injection A3 as L1 L2 L3 L4 L5 L6.
    unfold stream_config in A1. injection A1 as G1 G2 G3 G4 G5 G6.
    eexists _, _. split; [reflexivity|].
    split; [split; [intros _; unfold B; lia|reflexivity]|].
    unfold client_write, tmp_bytes. stream_cbn.
    unfold silence_buffer. stream_cbn. rewrite A4. fold ba.
    rewrite (wrap32_small (frames * ba)) by lia.
    fold (tmp_bytes s1).
    set (t1 := memset (tmp_bytes s1) 0 (silence_byte (fmt s)) (frames * ba)).
    assert (Hl1 : length t1 = length (tmp_bytes s1)).
    { apply memset_length; lia. }
    set (t2 := memcpy t1 0 d 0 (Z.of_nat (length d))).
    assert (Hl2 : length t2 = length t1).
    { apply memcpy_length; lia. }
    unfold release_render_buffer. stream_cbn. rewrite A4. fold ba.
    destruct (Z.eqb_spec frames 0); [lia|].
    rewrite to_int32_neg by lia.
    destruct (Z.eqb_spec (- frames) 0); [lia|].
    destruct (Z.geb_spec (- frames) 0); [lia|].
    rewrite Z.opp_involutive, to_int32_small by lia.
    rewrite (wrap32_small frames) by lia.
    destruct (Z.gtb_spec frames frames); [lia|].
    change (Z.land 0 AUDCLNT_BUFFERFLAGS_SILENT =? 0) with true.
    cbn [negb]. unfold tmp_bytes. stream_cbn.
    destruct (Z.ltb_spec (- frames) 0); [|lia].
    stream_cbn. unfold tmp_bytes. stream_cbn.
    rewrite L1, L3, L4, L5, G3. fold wri. fold B.
    rewrite (wrap32_small (wri * ba)) by lia.
    rewrite (wrap32_small (B * ba)) by lia.
    rewrite (wrap32_small (frames * ba)) by lia.
    rewrite (wrap32_small (wri + frames)) by lia.
    rewrite (wrap32_small (held_frames s + frames)) by lia.
    destruct (ca_wrap_buffer_spec (local_buffer s) t2 (wri * ba) (B * ba)
                (frames * ba)) as [Hcl Hcb]; try lia.
    split; [reflexivity|].
    split; [unfold stream_config; stream_cbn; congruence|].
    split; [exact A2|]. split; [exact L2|].
    split; [reflexivity|]. split; [reflexivity|]. split; [reflexivity|].
    split; [reflexivity|].
    split.
    { unfold tmp_storage_ok, tmp_bytes. stream_cbn. rewrite A4. fold ba.
      split; [lia|]. lia. }
    split; [exact Hcl|].
    intros i Hi. rewrite Hcb by lia.
    destruct (Z.ltb_spec ((i - wri * ba) mod (B * ba)) (frames * ba));
      [|reflexivity].
    assert (Hm := Z.mod_pos_bound (i - wri * ba) (B * ba) ltac:(lia)).
    unfold t2. rewrite memcpy_byte_at by lia.
    destruct (Z.leb_spec 0 ((i - wri * ba) mod (B * ba))); [|lia].
    destruct (Z.ltb_spec ((i - wri * ba) mod (B * ba))
                (0 + Z.of_nat (length d))); [|lia].
    cbn [andb]. f_equal. lia.
  - (* in place *)
    mul_le (wri + frames) B ba.
    eexists _, _. split; [reflexivity|].
    split; [split; [discriminate|intros Hx; unfold B in *; lia]|].
    rewrite (wrap32_small (wri * ba)) by lia.
    unfold client_write. stream_cbn.
    unfold silence_buffer. stream_cbn. fold ba.
    rewrite (wrap32_small (frames * ba)) by lia.
    set (l1 := memset (local_buffer s) (wri * ba) (silence_byte (fmt s))
                 (frames * ba)).
    assert (Hl1 : length l1 = length (local_buffer s)).
    { apply memset_length; lia. }
    set (l2 := memcpy l1 (wri * ba) d 0 (Z.of_nat (length d))).
    assert (Hl2 : length l2 = length l1).
    { apply memcpy_length; lia. }
    unfold release_render_buffer. stream_cbn. fold ba.
    destruct (Z.eqb_spec frames 0); [lia|].
    rewrite to_int32_small by lia.
    destruct (Z.eqb_spec frames 0); [lia|].
    destruct (Z.geb_spec frames 0); [|lia].
    rewrite (wrap32_small frames) by lia.
    destruct (Z.gtb_spec frames frames); [lia|].
    change (Z.land 0 AUDCLNT_BUFFERFLAGS_SILENT =? 0) with true.
    cbn [negb]. stream_cbn.
    destruct (Z.ltb_spec frames 0); [lia|].
    stream_cbn. fold wri. fold B.
    rewrite (wrap32_small (wri + frames)) by lia.
    rewrite (wrap32_small (held_frames s + frames)) by lia.
    split; [reflexivity|].
    split; [reflexivity|]. split; [reflexivity|]. split; [reflexivity|].
    split; [reflexivity|]. split; [reflexivity|]. split; [reflexivity|].
    split; [reflexivity|].
    split; [split; assumption|].
    split; [lia|].
    intros i Hi. unfold l2. rewrite memcpy_byte_at by lia. rewrite Hd.
    destruct (Z.leb_spec (wri * ba) i); cbn [andb].
    + rewrite Z.mod_small by lia.
      destruct (Z.ltb_spec i (wri * ba + frames * ba));
        destruct (Z.ltb_spec (i - wri * ba) (frames * ba)); try lia.
      * f_equal; lia.
      * unfold l1. rewrite memset_byte_at by lia.
        destruct (Z.leb_spec (wri * ba) i); [|lia].
        destruct (Z.ltb_spec i (wri * ba + frames * ba)); [lia|].
        reflexivity.
    + rewrite mod_below by lia.
      destruct (Z.ltb_spec (i - wri * ba + B * ba) (frames * ba)); [lia|].
      unfold l1. rewrite memset_byte_at by lia.
      destruct (Z.leb_spec (wri * ba) i); [lia|]. reflexivity.
Qed.

(** X25.  What the client writes is what the hardware plays: on a
    playing render stream with nothing outstanding and room for [frames]
    more frames, [get_render_buffer] succeeds, and once the client has
    stored its bytes through the pointer handed back and released the
    frames, the stream satisfies its invariants again and a render
    callback for all the frames held gets first the frames that were
    held before, as they were, and then the client's bytes in order,
    whether the frames went in place or through the scratch buffer and
    wherever the ring wraps; the ring is empty afterwards. *)
Theorem render_round_trip (fuel : nat) (s : stream) (frames : Z)
    (d data : list Z) :
  ring_inv s -> sizes_ok s -> tmp_storage_ok s -> flow s <> eCapture ->
  playing s = true -> getbuf_last s = 0 ->
  0 < frames -> held_frames s + frames <= bufsize_frames s ->
  let ba := nBlockAlign (fmt s) in
  let B := bufsize_frames s in
  let total := held_frames s + frames in
  Z.of_nat (length d) = frames * ba ->
  Z.of_nat (length data) = total * ba ->
  exists s1 p,
    get_render_buffer AudioConverterFillComplexBuffer fuel true s frames
    = Some (s1, S_OK, Some p)
    /\ let '(s3, hr) := release_render_buffer (client_write s1 p d) frames 0 in
       hr = S_OK /\ ring_inv s3 /\ sizes_ok s3 /\ tmp_storage_ok s3
       /\ held_frames s3 = total
       /\ let '(s4, out, _) := ca_render_cb s3 total data in
          held_frames s4 = 0
          /\ lcl_offs_frames s4 = wri_offs_frames s3
          /\ (forall i, 0 <= i < held_frames s * ba ->
                byte_at out i
                = byte_at (local_buffer s)
                    ((lcl_offs_frames s * ba + i) mod (B * ba)))
          /\ (forall j, 0 <= j < frames * ba ->
                byte_at out (held_frames s * ba + j) = byte_at d j).
Proof.
  intros Hring Hsizes Htmp Hflow Hplay Hgl Hf Hfit ba B total Hd Hdata.
  destruct (render_write_path fuel s frames d Hring Hsizes Htmp Hflow Hgl Hf
              Hfit Hd) as (s1 & p & Hget & _ & Hrel).
  exists s1, p. split; [exact Hget|].
  destruct (release_render_buffer (client_write s1 p d) frames 0) as [s3 hr].
  destruct Hrel as (R0 & R1 & R2 & R3 & R4 & R5 & R6 & R7 & R8 & R9 & R10).
  fold ba in R10. fold B in R5, R10.
  destruct Hring as (HB & Hheld & Hlcl & Hwri & Hinv).
  destruct Hsizes as (HBmax & Hper & Hba & HBB & Hlen).
  fold ba in Hba, HBB, Hlen. fold B in HB, Hheld, Hlcl, Hwri, Hinv, HBmax, HBB, Hlen, Hfit.
  unfold stream_config in R1. injection R1 as G1 G2 G3 G4 G5 G6.
  assert (Hring3 : ring_inv s3).
  { unfold ring_inv. rewrite G3, R3, R4, R5. fold B.
    split; [lia|]. split; [lia|]. split; [lia|].
    split; [apply Z.mod_pos_bound; lia|].
    rewrite Hinv. rewrite Z.add_mod_idemp_l by lia. f_equal. lia. }
  assert (Hsizes3 : sizes_ok s3).
  { unfold sizes_ok. rewrite G3, G2, G5, R9. fold B. fold ba. lia. }
  split; [exact R0|]. split; [exact Hring3|]. split; [exact Hsizes3|].
  split; [exact R8|]. split; [exact R4|].
  pose proof (ca_render_cb_copied s3 total data Hring3 Hsizes3) as Hcb.
  rewrite R2, G5, R4, R3, G3 in Hcb. fold ba in Hcb. fold B in Hcb.
  fold total in Hcb.
  specialize (Hcb Hplay ltac:(unfold total; lia) ltac:(unfold total; nia) Hdata).
  cbn zeta in Hcb. rewrite Z.min_id in Hcb.
  destruct (ca_render_cb s3 total data) as [[s4 out] sc].
  destruct Hcb as (C1 & C2 & C3).
  split; [lia|].
  split.
  { rewrite C2, R5. unfold total. rewrite Hinv.
    rewrite Z.add_mod_idemp_l by lia. f_equal. lia. }
  assert (Hwb : wri_offs_frames s * ba
                = (lcl_offs_frames s * ba + held_frames s * ba) mod (B * ba)).
  { rewrite Hinv.
    replace (lcl_offs_frames s * ba + held_frames s * ba)
      with ((lcl_offs_frames s + held_frames s) * ba) by lia.
    rewrite Z.mul_mod_distr_r by lia. reflexivity. }
  split.
  - intros i Hi. rewrite C3 by (unfold total; nia).
    assert (Hm := Z.mod_pos_bound (lcl_offs_frames s * ba + i) (B * ba)
                    ltac:(nia)).
    rewrite R10 by lia. rewrite Hwb.
    rewrite <- Zminus_mod.
    replace (lcl_offs_frames s * ba + i
             - (lcl_offs_frames s * ba + held_frames s * ba))
      with (i - held_frames s * ba) by lia.
    rewrite mod_below by nia.
    destruct (Z.ltb_spec (i - held_frames s * ba + B * ba) (frames * ba));
      [nia|reflexivity].
  - intros j Hj. rewrite C3 by (unfold total; nia).
    assert (Hm := Z.mod_pos_bound
                    (lcl_offs_frames s * ba + (held_frames s * ba + j))
                    (B * ba) ltac:(nia)).
    rewrite R10 by lia. rewrite Hwb.
    rewrite <- Zminus_mod.
    replace (lcl_offs_frames s * ba + (held_frames s * ba + j)
             - (lcl_offs_frames s * ba + held_frames s * ba))
      with j by lia.
    rewrite Z.mod_small by nia.
    destruct (Z.ltb_spec j (frames * ba)); [reflexivity|lia].
Qed.

End RenderProperties.


(** * Where the code departs from its specification *)

(** The streams of the examples arise from empty ones by calls and
    callbacks. *)
Lemma render_480_reachable : render_480_history = Some render_480.
Proof. vm_compute. reflexivity. Qed.

Lemma capture_small_reachable : capture_small_history = Some capture_small.
Proof. vm_compute. reflexivity. Qed.

(** C1.  On the render stream of 480 frames with two frames held and
    nothing outstanding, [get_render_buffer] for 4294967294 frames does
    not fail with AUDCLNT_E_BUFFER_TOO_LARGE although
    [held_frames + frames] exceeds [bufsize_frames]: the sum wraps to 0 in
    32 bits and the call goes on to the scratch buffer, where it fails
    with E_OUTOFMEMORY when the allocation fails and otherwise succeeds
    and records an acquisition. *)
Theorem get_render_buffer_padding_overflow :
  ring_inv render_480 /\ sizes_ok render_480
  /\ getbuf_last render_480 = 0
  /\ held_frames render_480 + 4294967294 > bufsize_frames render_480
  /\ (exists s',
        get_render_buffer copy_converter 0 false render_480 4294967294
        = Some (s', E_OUTOFMEMORY, None))
  /\ (exists s',
        get_render_buffer copy_converter 0 true render_480 4294967294
        = Some (s', S_OK, Some PtrTmp)
        /\ getbuf_last s' = 2).
Proof.
  split; [unfold ring_inv; cbn; lia|].
  split; [unfold sizes_ok; vm_compute; intuition discriminate|].
  split; [reflexivity|]. split; [reflexivity|].
  assert (H1 : flow render_480 <> eCapture) by discriminate.
  assert (H2 : getbuf_last render_480 = 0) by reflexivity.
  assert (H3 : 4294967294 <> 0) by discriminate.
  assert (H4 : wrap32 (held_frames render_480 + 4294967294)
               <= bufsize_frames render_480) by (vm_compute; discriminate).
  assert (H5 : bufsize_frames render_480
               < wrap32 (wri_offs_frames render_480 + 4294967294))
    by (vm_compute; reflexivity).
  assert (H6 : tmp_buffer_frames render_480 < 4294967294) by reflexivity.
  destruct (get_render_buffer_indirect copy_converter 0 render_480 4294967294
              H1 H2 H3 H4 H5 H6) as [(s' & Hs' & Hgl & _) Hoom].
  split; [eexists; exact Hoom|].
  exists s'. split; [exact Hs'|]. rewrite Hgl. reflexivity.
Qed.

(** C2.  The drain on a capture stream whose rings satisfy the
    invariants: one iteration inserts 4 frames into the full client ring
    of 5 frames and leaves the read offset at 7, outside the ring. *)
Theorem capture_resample_read_offset_out_of_ring :
  ring_inv capture_small /\ cap_ring_inv capture_small
  /\ exists s',
       capture_resample copy_converter 2 capture_small = Some s'
       /\ bufsize_frames s' = 5
       /\ held_frames s' = 5
       /\ wri_offs_frames s' = 2
       /\ lcl_offs_frames s' = 7
       /\ ~ ring_inv s'.
Proof.
  split; [unfold ring_inv; cbn; lia|].
  split; [unfold cap_ring_inv; cbn; lia|].
  eexists. split; [vm_compute; reflexivity|].
  repeat (split; [reflexivity|]).
  unfold ring_inv. cbn. lia.
Qed.

(** C5.  [get_capture_buffer] on the same stream: the drain runs, 4
    frames are handed back and the position is reported, but the frames
    go round the end of the ring and no scratch copy is made: the pointer
    handed back is [local_buffer + 7], past the 5 bytes of the ring. *)
Theorem get_capture_buffer_pointer_out_of_ring :
  ring_inv capture_small /\ getbuf_last capture_small = 0
  /\ exists s' o,
       get_capture_buffer copy_converter 2 capture_small true true 1000 10
       = Some (s', o)
       /\ out_result o = S_OK
       /\ out_frames o = Some 4
       /\ out_devpos o = Some 4
       /\ out_data o = Some (PtrLocal 7)
       /\ length (local_buffer s') = 5%nat
       /\ nBlockAlign (fmt s') = 1.
Proof.
  split; [unfold ring_inv; cbn; lia|]. split; [reflexivity|].
  eexists. eexists. split; [vm_compute; reflexivity|].
  repeat split.
Qed.

(** Outside the client-visible calls: [get_render_buffer] on a capture
    stream with an acquisition outstanding runs the drain before it
    refuses the call. *)
Lemma get_render_buffer_on_capture_stream :
  exists s',
    get_render_buffer copy_converter 2 true capture_acquired 1
    = Some (s', AUDCLNT_E_OUT_OF_ORDER, None)
    /\ cap_held_frames capture_acquired = 9
    /\ cap_held_frames s' = 5.
Proof.
  eexists. split; [vm_compute; reflexivity|]. split; reflexivity.
Qed.

(** * The same on streams made by [create_stream] *)

Lemma capture_11_created_fresh : capture_11_created = Some capture_11_fresh.
Proof. vm_compute. reflexivity. Qed.

Lemma capture_0_created_fresh : capture_0_created = Some capture_0_fresh.
Proof. vm_compute. reflexivity. Qed.

(** The defect of C2 and C5 on a created stream: after six deliveries
    that the client does not read, the drain has left the read offset at
    13 in a ring of 11 frames, and [get_capture_buffer] hands back
    [local_buffer + 13]. *)
Lemma capture_11_read_offset_out_of_ring :
  exists s,
    capture_11_history = Some s
    /\ bufsize_frames s = 11 /\ held_frames s = 11
    /\ wri_offs_frames s = 2 /\ lcl_offs_frames s = 13
    /\ exists s' o,
         get_capture_buffer copy_converter 16 s true true 1000 10
         = Some (s', o)
         /\ out_result o = S_OK
         /\ out_frames o = Some 4
         /\ out_data o = Some (PtrLocal 13)
         /\ length (local_buffer s') = 11%nat
         /\ nBlockAlign (fmt s') = 1.
Proof.
  eexists. split; [vm_compute; reflexivity|].
  do 4 (split; [reflexivity|]).
  eexists. eexists. split; [vm_compute; reflexivity|].
  repeat split.
Qed.

(** C7 (counterexample).  On the capture stream [create_stream] makes for
    a period of 10 microseconds [period_frames] is 0, and so is
    [resamp_period_frames].  Once the hardware has delivered 3 frames the
    loop condition holds; the converter between equal rates, asked for 0
    frames, takes nothing off the raw ring and succeeds, the iteration
    leaves the stream as it was, and the loop does not end, whatever its
    fuel. *)
Lemma capture_resample_zero_period_diverges :
  capture_0_created = Some capture_0_fresh
  /\ period_frames capture_0 = 0
  /\ resamp_period_frames capture_0 = 0
  /\ cap_held_frames capture_0 = 3
  /\ capture_resample_body copy_converter capture_0 = (capture_0, true)
  /\ forall fuel, capture_resample copy_converter fuel capture_0 = None.
Proof.
  split; [vm_compute; reflexivity|].
  do 3 (split; [reflexivity|]).
  assert (Hbody : capture_resample_body copy_converter capture_0
                  = (capture_0, true)) by (vm_compute; reflexivity).
  split; [exact Hbody|].
  unfold capture_resample.
  change (resamp_period_frames capture_0) with 0.
  induction fuel as [|fuel IH]; cbn [capture_resample_loop].
  - reflexivity.
  - change (cap_held_frames capture_0 >? wrap32 (0 * 2)) with true.
    cbn match. rewrite Hbody. exact IH.
Qed.

(** C9 (counterexample).  [get_render_buffer] for 11 frames on the
    created capture stream, started, once the hardware has delivered 9
    frames: the padding query runs the drain, which moves 4 frames from
    the raw ring to the client ring, and the call then fails with
    AUDCLNT_E_BUFFER_TOO_LARGE; the held counts and offsets of both rings
    are no longer what they were before the call. *)
Lemma get_render_buffer_fails_after_drain :
  capture_11_created = Some capture_11_fresh
  /\ exists s',
       wine_unix_call copy_converter 16 (call_get_render_buffer true 11)
         capture_11
       = Some (s', AUDCLNT_E_BUFFER_TOO_LARGE)
       /\ FAILED AUDCLNT_E_BUFFER_TOO_LARGE = true
       /\ held_frames capture_11 = 0 /\ held_frames s' = 4
       /\ wri_offs_frames capture_11 = 0 /\ wri_offs_frames s' = 4
       /\ cap_offs_frames capture_11 = 0 /\ cap_offs_frames s' = 4
       /\ cap_held_frames capture_11 = 9 /\ cap_held_frames s' = 5
       /\ shared_state s' <> shared_state capture_11.
Proof.
  split; [vm_compute; reflexivity|].
  eexists. split; [vm_compute; reflexivity|].
  do 9 (split; [reflexivity|]).
  vm_compute. discriminate.
Qed.

(** * The theorems at concrete streams *)

Lemma ca_render_cb_spec_witness :
  ring_inv render_small /\ sizes_ok render_small
  /\ snd (ca_render_cb render_small 4 [0; 0; 0; 0]) = noErr
  /\ length (snd (fst (ca_render_cb render_small 4 [0; 0; 0; 0]))) = 4%nat.
Proof.
  assert (H1 : ring_inv render_small) by (unfold ring_inv; cbn; lia).
  assert (H2 : sizes_ok render_small) by (unfold sizes_ok; cbn; lia).
  assert (H3 : 0 <= 4) by lia.
  assert (H4 : 4 * nBlockAlign (fmt render_small) < 4294967296) by (cbn; lia).
  assert (H5 : Z.of_nat (length [0; 0; 0; 0])
               = 4 * nBlockAlign (fmt render_small)) by reflexivity.
  split; [exact H1|]. split; [exact H2|].
  pose proof (ca_render_cb_spec render_small 4 [0; 0; 0; 0] H1 H2 H3 H4 H5) as H.
  cbn zeta in H.
  destruct (ca_render_cb render_small 4 [0; 0; 0; 0]) as [[s' out] sc].
  destruct H as (Hsc & Hlen & _). split; [exact Hsc|exact Hlen].
Defined.

Lemma release_render_buffer_spec_witness :
  ring_inv render_small /\ sizes_ok render_small
  /\ snd (release_render_buffer render_small 2 0) = S_OK
  /\ held_frames (fst (release_render_buffer render_small 2 0)) = 4
  /\ wri_offs_frames (fst (release_render_buffer render_small 2 0)) = 1.
Proof.
  assert (H1 : ring_inv render_small) by (unfold ring_inv; cbn; lia).
  assert (H2 : sizes_ok render_small) by (unfold sizes_ok; cbn; lia).
  assert (H3 : -2147483648 <= getbuf_last render_small <= 2147483647)
    by (cbn; lia).
  assert (H4 : 0 <= 2 < 4294967296) by lia.
  split; [exact H1|]. split; [exact H2|].
  pose proof (release_render_buffer_spec render_small 2 0 H1 H2 H3 H4) as H.
  cbn zeta in H.
  destruct (release_render_buffer render_small 2 0) as [s' hr].
  destruct H as (_ & H & _).
  assert (Hg : getbuf_last render_small <> 0) by (cbn; lia).
  assert (Hm : 0 < 2 <= acquired render_small) by (cbn; lia).
  destruct (H Hg Hm) as (Hhr & Hwri & Hheld & _).
  split; [exact Hhr|]. split; [exact Hheld|exact Hwri].
Defined.

Lemma release_capture_buffer_spec_witness :
  snd (release_capture_buffer capture_acquired 4) = S_OK
  /\ lcl_offs_frames (fst (release_capture_buffer capture_acquired 4)) = 3
  /\ held_frames (fst (release_capture_buffer capture_acquired 4)) = 0.
Proof.
  assert (H1 : 0 <= 4 < 4294967296) by lia.
  assert (H2 : 0 <= getbuf_last capture_acquired <= 2147483647) by (cbn; lia).
  pose proof (release_capture_buffer_spec capture_acquired 4 H1 H2) as H.
  cbn zeta in H.
  destruct (release_capture_buffer capture_acquired 4) as [s' hr].
  destruct H as (_ & H & _).
  assert (Hn : 0 < getbuf_last capture_acquired) by (cbn; lia).
  destruct (H Hn eq_refl) as (Hhr & _ & Hlcl & _ & Hheld & _).
  split; [exact Hhr|].
  split; [apply Hlcl; cbn; lia|apply Hheld; cbn; lia].
Defined.

Lemma capture_resample_spec_witness :
  resamp_period_frames capture_small = 4
  /\ exists fuel s',
       capture_resample copy_converter fuel capture_small = Some s'.
Proof.
  assert (H1 : forall c, conv_run_ok (copy_converter c (period_frames capture_small)))
    by (intros c; cbn; split; [lia|intros; exact I]).
  assert (H2 : forall c, pulls_input (copy_converter c (period_frames capture_small)))
    by (intros c; cbn; left; lia).
  assert (H3 : 0 <= cap_held_frames capture_small < 4294967296) by (cbn; lia).
  assert (H4 : 0 <= period_frames capture_small <= 2147483647) by (cbn; lia).
  assert (H5 : 0 <= dev_desc_mSampleRate capture_small) by (cbn; lia).
  assert (H6 : 0 < nSamplesPerSec (fmt capture_small) <= 2147483647)
    by (cbn; lia).
  assert (H7 : (period_frames capture_small * dev_desc_mSampleRate capture_small
                + nSamplesPerSec (fmt capture_small) / 2)
               / nSamplesPerSec (fmt capture_small) <= 2147483647)
    by (vm_compute; discriminate).
  pose proof (capture_resample_spec copy_converter capture_small
                H1 H3 H4 H5 H6 H7) as H.
  cbn zeta in H. destruct H as ((Hr & _) & _ & _ & _ & Hend).
  destruct (Hend H2) as (fuel & s' & Hs' & _).
  split; [rewrite Hr; reflexivity|].
  exists fuel, s'. exact Hs'.
Defined.

Lemma reset_spec_witness :
  snd (reset (fst (stop capture_small))) = S_OK
  /\ held_frames (fst (stop capture_small)) = 4
  /\ written_frames (fst (stop capture_small)) = 4
  /\ held_frames (fst (reset (fst (stop capture_small)))) = 0
  /\ written_frames (fst (reset (fst (stop capture_small)))) = 8.
Proof.
  pose proof (reset_spec (fst (stop capture_small))) as H.
  destruct (reset (fst (stop capture_small))) as [s' hr].
  destruct H as (_ & _ & H).
  destruct (H eq_refl eq_refl)
    as (Hhr & Hheld & _ & _ & _ & _ & _ & _ & _ & Hw).
  destruct (Hw eq_refl) as [_ Hsum].
  split; [exact Hhr|]. split; [reflexivity|]. split; [reflexivity|].
  split; [exact Hheld|].
  cbn [fst].
  rewrite (Hsum ltac:(cbn; lia) ltac:(cbn; lia) ltac:(cbn; lia)).
  reflexivity.
Defined.

Lemma failed_call_leaves_shared_state_witness :
  wine_unix_call copy_converter 0 (call_get_render_buffer true 1) render_small
  = Some (render_small, AUDCLNT_E_OUT_OF_ORDER)
  /\ shared_state render_small = shared_state render_small.
Proof.
  assert (H1 : client_visible (call_get_render_buffer true 1) render_small)
    by (cbn; discriminate).
  assert (H2 : wine_unix_call copy_converter 0 (call_get_render_buffer true 1)
                 render_small
               = Some (render_small, AUDCLNT_E_OUT_OF_ORDER)) by reflexivity.
  assert (H3 : FAILED AUDCLNT_E_OUT_OF_ORDER = true) by reflexivity.
  split; [exact H2|].
  exact (proj1 (failed_call_leaves_shared_state copy_converter 0
                  (call_get_render_buffer true 1) render_small render_small
                  AUDCLNT_E_OUT_OF_ORDER H1 H2 H3)).
Defined.

Lemma release_zero_frames_spec_witness :
  release_render_buffer render_480 0 0 = (render_480, S_OK)
  /\ release_capture_buffer render_480 0 = (render_480, S_OK).
Proof.
  exact (release_zero_frames_spec render_480 0 eq_refl).
Defined.

(** * The further properties at concrete inputs *)

Lemma muldiv_nearest_witness :
  muldiv (-7) 3 2 = -11 /\ muldiv 7 3 (-2) = -11 /\ muldiv 7 3 2 = 11.
Proof.
  split; [|split].
  - apply (muldiv_nearest (-7) 3 2); [lia|lia|lia|vm_compute; discriminate].
  - apply (muldiv_nearest 7 3 (-2)); [lia|lia|lia|vm_compute; discriminate].
  - apply (muldiv_nearest 7 3 2); [lia|lia|lia|vm_compute; discriminate].
Defined.

Lemma buf_ptr_diff_forward_witness :
  buf_ptr_diff 3 1 4 = 2 /\ (3 + buf_ptr_diff 3 1 4) mod 4 = 1.
Proof.
  pose proof (buf_ptr_diff_forward 3 1 4 ltac:(lia) ltac:(lia) ltac:(lia)) as H.
  cbn zeta in H. destruct H as (_ & H & _).
  split; [reflexivity|exact H].
Defined.

Lemma ca_wrap_buffer_round_trip_witness :
  ca_wrap_buffer [1; 2; 3; 4] 3 4 [9; 8] 2 = [8; 2; 3; 9]
  /\ byte_at (ca_wrap_buffer [1; 2; 3; 4] 3 4 [9; 8] 2) ((3 + 1) mod 4) = 8.
Proof.
  pose proof (ca_wrap_buffer_round_trip [1; 2; 3; 4] [9; 8] 3 4 2
                eq_refl ltac:(lia) ltac:(lia) ltac:(lia)
                ltac:(cbn; lia)) as H.
  cbn zeta in H. destruct H as (_ & H & _).
  split; [reflexivity|]. apply (H 1). lia.
Defined.

Lemma mix_format_is_supported_witness :
  get_mix_format true stereo_output fmt_pcm16_client = (HR S_OK, fmt_float_stereo)
  /\ is_format_supported true stereo_output setup_succeeds eRender
       AUDCLNT_SHAREMODE_SHARED (Some fmt_float_stereo) (Some fmt_pcm16_client)
     = (HR S_OK, Some fmt_pcm16_client).
Proof.
  assert (H1 : get_mix_format true stereo_output fmt_pcm16_client
               = (HR S_OK, fmt_float_stereo)) by reflexivity.
  split; [exact H1|].
  apply (mix_format_is_supported true stereo_output setup_succeeds eRender
           fmt_pcm16_client fmt_float_stereo fmt_pcm16_client H1).
  - cbn. lia.
  - cbn. lia.
  - reflexivity.
  - intros _. split; reflexivity.
Defined.

Lemma is_format_supported_accepts_witness :
  is_format_supported true stereo_output setup_succeeds eCapture
    AUDCLNT_SHAREMODE_EXCLUSIVE (Some fmt_float_stereo) None = (HR S_OK, None)
  /\ exists f,
       Some fmt_float_stereo = Some f
       /\ nBlockAlign (Format f)
          = Z.quot (nChannels (Format f) * wBitsPerSample (Format f)) 8.
Proof.
  assert (H1 : is_format_supported true stereo_output setup_succeeds eCapture
                 AUDCLNT_SHAREMODE_EXCLUSIVE (Some fmt_float_stereo) None
               = (HR S_OK, None)) by reflexivity.
  split; [exact H1|].
  destruct (is_format_supported_accepts _ _ _ _ _ _ _ _ H1)
    as (_ & _ & _ & f & Hf & _ & Hba & _).
  exists f. split; [exact Hf|exact Hba].
Defined.

Lemma get_endpoint_ids_size_protocol_witness :
  result (get_endpoint_ids 16 true true three_devices eRender 0)
  = ERROR_INSUFFICIENT_BUFFER
  /\ size (get_endpoint_ids 16 true true three_devices eRender 0) = 52
  /\ num (get_endpoint_ids 16 true true three_devices eRender 0) = 2
  /\ result (get_endpoint_ids 16 true true three_devices eRender 52) = HR S_OK.
Proof.
  pose proof (get_endpoint_ids_size_protocol 16 true true three_devices
                eRender 0 ltac:(lia) ltac:(lia) ltac:(discriminate)
                eq_refl eq_refl eq_refl ltac:(vm_compute; reflexivity)) as H.
  cbn zeta in H. destruct H as (Hnum & _ & Hsmall & _ & Hagain).
  destruct (Hsmall ltac:(vm_compute; reflexivity)) as (Hr & Hs & _).
  split; [exact Hr|]. split; [exact Hs|]. split; [exact Hnum|exact Hagain].
Defined.

Lemma get_endpoint_ids_default_idx_witness :
  default_idx (get_endpoint_ids 16 true true three_devices eRender 0) = 1
  /\ exists d,
       nth_error (endpoint_info true (Devices three_devices)) 1 = Some d
       /\ AudioDeviceID d = 72.
Proof.
  pose proof (get_endpoint_ids_default_idx 16 true true three_devices eRender 0
                ltac:(discriminate) eq_refl eq_refl eq_refl) as H.
  cbn zeta in H. destruct H as [H _].
  destruct H as (_ & d & Hd & Hid).
  { exists usb_output. split; [cbn; auto|reflexivity]. }
  split; [reflexivity|]. exists d. split; [exact Hd|exact Hid].
Defined.

Lemma create_stream_fresh_witness :
  exists h,
    create_stream create_stream_succeeds fmt_pcm16_client eRender
      AUDCLNT_SHAREMODE_EXCLUSIVE 70 400 1000 = Some (HR S_OK, Some h)
    /\ period_frames (engine h) = 2
    /\ bufsize_frames (engine h) = 4
    /\ ring_inv (engine h) /\ sizes_ok (engine h).
Proof.
  destruct (create_stream create_stream_succeeds fmt_pcm16_client eRender
              AUDCLNT_SHAREMODE_EXCLUSIVE 70 400 1000)
    as [[r [h|]]|] eqn:E;
    try (exfalso; vm_compute in E; discriminate).
  assert (Hr : r = HR S_OK) by (vm_compute in E; congruence).
  subst r. exists h. split; [reflexivity|].
  pose proof (create_stream_fresh create_stream_succeeds fmt_pcm16_client
                eRender AUDCLNT_SHAREMODE_EXCLUSIVE 70 400 1000 h E) as H.
  cbn zeta in H.
  specialize (H ltac:(vm_compute; intuition discriminate) ltac:(lia) ltac:(lia)
                ltac:(vm_compute; discriminate)).
  destruct H as (Hp & _ & Hex & _ & _ & _ & _ & _ & _ & _ & Hinv & _).
  destruct (Hex eq_refl) as (_ & Hb & _).
  change ((400 * nSamplesPerSec (Format fmt_pcm16_client) + 5000000) / 10000000)
    with 2 in Hp, Hb.
  change ((1000 * nSamplesPerSec (Format fmt_pcm16_client) + 5000000) / 10000000)
    with 5 in Hb.
  change (5 - 5 mod 2) with 4 in Hb.
  split; [exact Hp|]. split; [exact Hb|].
  destruct Hinv as (Hring & Hsizes & _).
  - rewrite Hb. lia.
  - vm_compute. intuition discriminate.
  - rewrite Hb. vm_compute. reflexivity.
  - split; [exact Hring|exact Hsizes].
Defined.

Lemma reset_empties_witness :
  snd (reset capture_small_drained) = AUDCLNT_E_NOT_STOPPED
  /\ snd (reset (fst (stop capture_small_drained))) = S_OK
  /\ get_current_padding_nolock copy_converter 0
       (fst (reset (fst (stop capture_small_drained))))
     = Some (fst (reset (fst (stop capture_small_drained))), 0).
Proof.
  assert (H1 : snd (reset (fst (stop capture_small_drained))) = S_OK)
    by reflexivity.
  split; [reflexivity|]. split; [exact H1|].
  pose proof (reset_empties copy_converter 0 (fst (stop capture_small_drained))
                true true 0 1 H1) as H.
  cbn zeta in H. destruct H as (_ & _ & _ & _ & H & _). exact H.
Defined.

Lemma get_position_tracks_playback_witness :
  fst (fst (get_position render_480_shared true 0 1)) = 1916
  /\ fst (get_frequency render_480_shared) = 192000
  /\ fst (fst (get_position
                 (set_engine render_480_shared
                    (fst (fst (ca_render_cb render_480 1 [0; 0; 0; 0]))))
                 true 0 1)) = 1920.
Proof.
  pose proof (get_position_tracks_playback render_480_shared true 0 1 1 0 0
                [0; 0; 0; 0]) as H.
  cbn zeta in H.
  specialize (H ltac:(vm_compute; intuition discriminate)
                ltac:(vm_compute; reflexivity)
                ltac:(vm_compute; reflexivity)
                ltac:(vm_compute; discriminate)
                ltac:(vm_compute; reflexivity)
                ltac:(vm_compute; reflexivity)
                ltac:(lia) ltac:(lia)).
  destruct H as (Hp & Hf & Hcb & _).
  split; [exact Hp|]. split; [exact Hf|]. exact Hcb.
Defined.

Lemma ca_capture_cb_raw_ring_witness :
  cap_ring_inv capture_small
  /\ cap_held_frames (fst (ca_capture_cb capture_small 9 noErr
                             [1; 2; 3; 4; 5; 6; 7; 8; 9])) = 16
  /\ cap_offs_frames (fst (ca_capture_cb capture_small 9 noErr
                             [1; 2; 3; 4; 5; 6; 7; 8; 9])) = 10.
Proof.
  assert (H1 : cap_ring_inv capture_small) by (unfold cap_ring_inv; cbn; lia).
  split; [exact H1|].
  pose proof (ca_capture_cb_raw_ring capture_small 9 noErr
                [1; 2; 3; 4; 5; 6; 7; 8; 9] H1 ltac:(cbn; lia)
                ltac:(cbn; lia) ltac:(cbn; lia)) as H.
  cbn zeta in H.
  destruct (ca_capture_cb capture_small 9 noErr [1; 2; 3; 4; 5; 6; 7; 8; 9])
    as [s' sc] eqn:E.
  destruct H as (_ & _ & _ & _ & _ & _ & _ & H).
  destruct (H eq_refl eq_refl) as (Hh & _).
  cbn [fst]. split; [exact Hh|].
  replace s' with (fst (ca_capture_cb capture_small 9 noErr
                          [1; 2; 3; 4; 5; 6; 7; 8; 9])) by (rewrite E; reflexivity).
  reflexivity.
Defined.

Lemma capture_raw_ring_fifo_witness :
  cap_storage_ok capture_small
  /\ snd (feed_cb (fst (ca_capture_cb capture_small 3 noErr [21; 22; 23])) 12)
     = [9; 10; 11; 12; 13; 14; 15; 16; 17; 21; 22; 23].
Proof.
  assert (H1 : cap_storage_ok capture_small)
    by (unfold cap_storage_ok, cap_ring_inv; cbn; lia).
  split; [exact H1|].
  pose proof (capture_raw_ring_fifo capture_small 3 [21; 22; 23] H1 eq_refl
                ltac:(lia) eq_refl ltac:(cbn; lia)) as H.
  cbn zeta in H.
  destruct (feed_cb capture_small (cap_held_frames capture_small))
    as [[s0 n0] held_data] eqn:E0.
  change (cap_held_frames capture_small + 3) with 12 in H.
  destruct (feed_cb (fst (ca_capture_cb capture_small 3 noErr [21; 22; 23])) 12)
    as [[s2 served] data].
  destruct H as (_ & H & _). cbn [snd]. rewrite H.
  replace held_data
    with (snd (feed_cb capture_small (cap_held_frames capture_small)))
    by (rewrite E0; reflexivity).
  reflexivity.
Defined.


Lemma render_round_trip_witness :
  ring_inv render_small_idle /\ sizes_ok render_small_idle
  /\ tmp_storage_ok render_small_idle
  /\ exists s1 p,
       get_render_buffer copy_converter 0 true render_small_idle 2
       = Some (s1, S_OK, Some p)
       /\ snd (release_render_buffer (client_write s1 p [51; 52]) 2 0) = S_OK.
Proof.
  assert (H1 : ring_inv render_small_idle) by (unfold ring_inv; cbn; lia).
  assert (H2 : sizes_ok render_small_idle) by (unfold sizes_ok; cbn; lia).
  assert (H3 : tmp_storage_ok render_small_idle)
    by (unfold tmp_storage_ok; cbn; lia).
  split; [exact H1|]. split; [exact H2|]. split; [exact H3|].
  destruct (render_round_trip copy_converter 0 render_small_idle 2
              [51; 52] [0; 0; 0; 0] H1 H2 H3)
    as (s1 & p & Hget & Hrel);
    [discriminate|reflexivity|reflexivity|lia|cbn; lia|reflexivity
    |reflexivity|].
  exists s1, p. split; [exact Hget|].
  destruct (release_render_buffer (client_write s1 p [51; 52]) 2 0) as [s3 hr].
  destruct Hrel as [Hhr _]. exact Hhr.
Defined.

Lemma capture_resample_loop_ring_inv_mod_witness :
  ring_inv capture_small /\ cap_ring_inv capture_small
  /\ exists s',
       capture_resample_loop clipping_converter 2 4 capture_small = Some s'
       /\ ring_inv_mod s' /\ cap_ring_inv s' /\ lcl_offs_frames s' = 7.
Proof.
  assert (Hok : forall c, conv_run_ok (clipping_converter c 4))
    by (intros c; cbn; split; [lia|intros; exact I]).
  assert (Hb : forall c, produces_at_most 4 (clipping_converter c 4))
    by (intros c n data; cbn; lia).
  assert (Hinv : ring_inv capture_small) by (unfold ring_inv; cbn; lia).
  assert (Hmod : ring_inv_mod capture_small)
    by (unfold ring_inv_mod; cbn; lia).
  assert (Hcap : cap_ring_inv capture_small) by (unfold cap_ring_inv; cbn; lia).
  split; [exact Hinv|]. split; [exact Hcap|].
  destruct (capture_resample_loop clipping_converter 2 4 capture_small)
    as [s'|] eqn:E; [|vm_compute in E; discriminate].
  exists s'. split; [reflexivity|].
  destruct (capture_resample_loop_ring_inv_mod clipping_converter 4 Hok Hb
              2 4 capture_small s' eq_refl ltac:(lia) ltac:(cbn; lia)
              Hmod Hcap E) as [H1 H2].
  split; [exact H1|]. split; [exact H2|].
  vm_compute in E. injection E as <-. reflexivity.
Defined.

Lemma release_render_buffer_ring_inv_witness :
  ring_inv render_small
  /\ ring_inv (fst (release_render_buffer render_small 2 0))
  /\ ring_inv (fst (release_render_buffer render_small 3 0)).
Proof.
  assert (H1 : ring_inv render_small) by (unfold ring_inv; cbn; lia).
  split; [exact H1|]. split.
  - apply (release_render_buffer_ring_inv render_small 2 0 H1);
      cbn; lia.
  - apply (release_render_buffer_ring_inv render_small 3 0 H1);
      cbn; lia.
Defined.

Lemma release_capture_buffer_ring_inv_witness :
  ~ ring_inv capture_drained_acquired
  /\ ring_inv (fst (release_capture_buffer capture_drained_acquired 4))
  /\ lcl_offs_frames (fst (release_capture_buffer capture_drained_acquired 4))
     = 1.
Proof.
  split; [unfold ring_inv; cbn; lia|]. split; [|reflexivity].
  apply (release_capture_buffer_ring_inv capture_drained_acquired 4).
  - unfold ring_inv_mod. cbn. lia.
  - cbn. lia.
  - cbn. lia.
  - reflexivity.
Defined.

Lemma get_render_buffer_in_range_witness :
  get_render_buffer copy_converter 0 true render_480 479
  = Some (render_480, AUDCLNT_E_BUFFER_TOO_LARGE, None).
Proof.
  destruct (get_render_buffer_in_range copy_converter 0 true render_480 479)
    as (s' & hr & ptr & Hget & _ & Htl & _);
    [discriminate|cbn; lia|lia|cbn; lia|].
  destruct (Htl eq_refl ltac:(cbn; lia)) as [Hhr Hs'].
  rewrite Hget, Hhr, Hs'. f_equal. f_equal.
  vm_compute in Hget. congruence.
Defined.


(** * The scenarios of the specification *)

(** Three writes of 160 frames fill the ring of 480 frames; a fourth
    acquisition fails with AUDCLNT_E_BUFFER_TOO_LARGE; the hardware then
    pulls the 480 frames. *)
Example render_480_fills :
  exists s,
    render_480_full = Some s
    /\ held_frames s = 480 /\ written_frames s = 480
    /\ (exists s',
          get_render_buffer copy_converter 0 true s 160
          = Some (s', AUDCLNT_E_BUFFER_TOO_LARGE, None))
    /\ held_frames (fst (fst (ca_render_cb (fst (start s)) 480 (alloc 1920))))
       = 0.
Proof.
  eexists. split; [vm_compute; reflexivity|].
  split; [reflexivity|]. split; [reflexivity|].
  split; [eexists|]; vm_compute; reflexivity.
Qed.

(** A period of 480 frames at 48 kHz is 441 frames at 44.1 kHz: the drain
    waits for more than 882 raw frames. *)
Example capture_441_period :
  resamp_period_frames capture_441 = 441
  /\ forall fuel,
       capture_resample copy_converter fuel
         (set_cap_held_frames capture_441 882)
       = Some (set_cap_held_frames capture_441 882).
Proof.
  split; [reflexivity|].
  intros fuel. unfold capture_resample.
  destruct fuel; reflexivity.
Qed.
